(** * Verification of the header store of electrum-xsh3 (lib/blockchain.py)

    A shallow embedding of the header codec, the compact-target
    conversions, the retarget engine, the header verifier and the
    file-backed chain store, followed by the properties stated about them.

    Conventions of the embedding:
    - Python integers are [Z]; [//] is [Z.div] and [%] is [Z.modulo]
      (both floor, as in Python); [>>], [<<], [&], [|] are [Z.shiftr],
      [Z.shiftl], [Z.land], [Z.lor].
    - [bytes] are [list byte]; [str] is [string].
    - An exception is a value of [exn]; a function that may raise returns
      a [result].
    - The module-level dict [blockchains] and the [Blockchain] objects it
      refers to live in a [World]: a heap of objects addressed by
      references, the registry from checkpoints to references, and the
      files of the headers directory. *)

From Stdlib Require Import ZArith Lia List String Ascii Bool SpecFloat.
From Stdlib Require Import Strings.Byte.
From stdpp Require Import gmap strings pretty.
Import ListNotations.

Local Open Scope Z_scope.

(* ===================================================================== *)
(** * Exceptions and the error monad *)
(* ===================================================================== *)

(** The exceptions the modelled code can raise.  The plain [Exception]s of
    blockchain.py are told apart by their message. *)
Inductive exn : Type :=
| InvalidHeader            (* 'Invalid header: ...' *)
| InvalidHeaderLength      (* 'Invalid header length: ...' *)
| PrevHashMismatch         (* 'prev hash mismatch: ...' *)
| BitsMismatch             (* 'bits mismatch: ...' *)
| InsufficientPoW          (* 'insufficient proof of work: ...' *)
| BitsFirstPart            (* 'First part of bits should be in [0x03, 0x1e]' *)
| BitsSecondPart           (* 'Second part of bits should be in [0x8000, 0x7fffff]' *)
| ShortRead                (* 'Expected to read a full header. ...' *)
| MissingHeader            (* class MissingHeader *)
| HeadersDirLost           (* FileNotFoundError, headers_dir is gone *)
| HeadersFileMissing       (* FileNotFoundError, headers_dir is there *)
| FileNotFoundError        (* raised by os.rename *)
| AssertionError
| ValueError
| TypeError
| AttributeError
| KeyError
| IndexError
| OverflowError
| OSError
| RecursionError.

Inductive result (A : Type) : Type :=
| Ok (a : A)
| Raise (e : exn).
Arguments Ok {A} a.
Arguments Raise {A} e.

Definition bind {A B : Type} (r : result A) (k : A -> result B) : result B :=
  match r with
  | Ok a => k a
  | Raise e => Raise e
  end.

(** [x ← r; k] runs [r] and goes on with [k], unless [r] raised. *)
#[global] Instance result_bind : MBind result := fun A B k r => bind r k.
#[global] Instance result_ret : MRet result := fun A a => Ok a.

Definition assert (b : bool) : result unit :=
  if b then Ok tt else Raise AssertionError.

Definition is_ok {A : Type} (r : result A) : bool :=
  match r with Ok _ => true | Raise _ => false end.

(* ===================================================================== *)
(** * Python sequences: slices and indexing *)
(* ===================================================================== *)

Section Slices.
Context {A : Type}.

(** A slice bound as Python normalises it: a negative bound counts from
    the end, and every bound is clipped to [0, len]. *)
Definition clip_index (n : Z) (x : Z) : Z :=
  if x <? 0 then Z.max 0 (x + n) else Z.min x n.

(** [l[a:b]] *)
Definition py_slice (l : list A) (a b : Z) : list A :=
  let n := Z.of_nat (List.length l) in
  let lo := clip_index n a in
  let hi := clip_index n b in
  firstn (Z.to_nat (hi - lo)) (skipn (Z.to_nat lo) l).

(** [l[a:]] *)
Definition py_slice_from (l : list A) (a : Z) : list A :=
  py_slice l a (Z.of_nat (List.length l)).

(** [l[:b]] *)
Definition py_slice_to (l : list A) (b : Z) : list A :=
  py_slice l 0 b.

(** [l[i]], with Python's negative indices and [IndexError]. *)
Definition py_index (l : list A) (i : Z) : result A :=
  let n := Z.of_nat (List.length l) in
  let j := if i <? 0 then i + n else i in
  if (j <? 0) || (n <=? j) then Raise IndexError
  else match nth_error l (Z.to_nat j) with
       | Some x => Ok x
       | None => Raise IndexError
       end.
End Slices.

Definition str_chars (s : string) : list ascii := list_ascii_of_string s.
Definition chars_str (l : list ascii) : string := string_of_list_ascii l.

(** Slices of a [str]. *)
Definition str_slice (s : string) (a b : Z) : string :=
  chars_str (py_slice (str_chars s) a b).
Definition str_slice_from (s : string) (a : Z) : string :=
  chars_str (py_slice_from (str_chars s) a).
Definition str_slice_to (s : string) (b : Z) : string :=
  chars_str (py_slice_to (str_chars s) b).

#[global] Instance byte_eq_decision : EqDecision byte := Byte.byte_eq_dec.

Definition blen (b : list byte) : Z := Z.of_nat (List.length b).
Definition slen (s : string) : Z := Z.of_nat (String.length s).

(* ===================================================================== *)
(** * Hexadecimal strings *)
(* ===================================================================== *)

(** The lower-case digit of a value in [0, 16). *)
Definition hex_digit (v : Z) : ascii :=
  match v with
  | 0 => "0" | 1 => "1" | 2 => "2" | 3 => "3" | 4 => "4" | 5 => "5"
  | 6 => "6" | 7 => "7" | 8 => "8" | 9 => "9" | 10 => "a" | 11 => "b"
  | 12 => "c" | 13 => "d" | 14 => "e" | _ => "f"
  end%char.

(** The value of a hexadecimal digit; both cases are accepted on input. *)
Definition hex_val (c : ascii) : option Z :=
  let n := Z.of_N (N_of_ascii c) in
  if (48 <=? n) && (n <=? 57) then Some (n - 48)
  else if (97 <=? n) && (n <=? 102) then Some (n - 87)
  else if (65 <=? n) && (n <=? 70) then Some (n - 55)
  else None.

(** The digits [0-9a-f], the only ones the program itself emits. *)
Definition is_lower_hex (c : ascii) : bool :=
  let n := Z.of_N (N_of_ascii c) in
  ((48 <=? n) && (n <=? 57)) || ((97 <=? n) && (n <=? 102)).

Definition is_space (c : ascii) : bool :=
  let n := Z.of_N (N_of_ascii c) in
  (n =? 32) || ((9 <=? n) && (n <=? 13)).

Definition byte_val (b : byte) : Z := Z.of_N (Byte.to_N b).

Definition byte_of_val (v : Z) : byte :=
  match Byte.of_N (Z.to_N (v mod 256)) with
  | Some b => b
  | None => x00
  end.

(** [w] hexadecimal digits of [z], most significant first, in front of
    [acc]. *)
Fixpoint hex_fixed_acc (w : nat) (z : Z) (acc : string) : string :=
  match w with
  | O => acc
  | S w' => hex_fixed_acc w' (z / 16) (String (hex_digit (z mod 16)) acc)
  end.

Definition hex_fixed (w : nat) (z : Z) : string := hex_fixed_acc w z "".

(** The number of hexadecimal digits of a non-negative integer (one for 0). *)
Definition hex_len (z : Z) : nat :=
  if z <=? 0 then 1%nat else Z.to_nat (Z.log2 z / 4 + 1).

(** ["%x" % z] for [z >= 0]: the digits without padding. *)
Definition hex_min (z : Z) : string := hex_fixed (hex_len z) z.

(** [hex(z)] *)
Definition py_hex (z : Z) : string :=
  if z <? 0 then "-0x" +:+ hex_min (- z) else "0x" +:+ hex_min z.

Fixpoint zeros_str (n : nat) : string :=
  match n with
  | O => ""
  | S n' => String "0" (zeros_str n')
  end.

(** ["%064x" % z]: zero padded to a width of 64, the sign included. *)
Definition format_064x (z : Z) : string :=
  if z <? 0
  then String "-" (zeros_str (63 - hex_len (- z)) +:+ hex_min (- z))
  else zeros_str (64 - hex_len z) +:+ hex_min z.

Fixpoint hex_digits_value (s : string) (acc : Z) : result Z :=
  match s with
  | EmptyString => Ok acc
  | String c s' =>
      match hex_val c with
      | Some v => hex_digits_value s' (16 * acc + v)
      | None => Raise ValueError
      end
  end.

(** [int(s, 16)] on the strings the program builds: an optional [0x]
    prefix followed by at least one digit. *)
Definition py_int16 (s : string) : result Z :=
  let digits :=
    match s with
    | String "0" (String "x" d) => d
    | String "0" (String "X" d) => d
    | _ => s
    end in
  match digits with
  | EmptyString => Raise ValueError
  | _ => hex_digits_value digits 0
  end.

(* ===================================================================== *)
(** * The helpers imported from util.py and bitcoin.py *)
(* ===================================================================== *)

(** Modelled from the spec: [util.bh2u] (util.py is not part of the
    sources at hand): the lower-case hexadecimal text of a byte string,
    two digits per byte. *)
Fixpoint bh2u (b : list byte) : string :=
  match b with
  | [] => ""
  | x :: b' =>
      String (hex_digit (byte_val x / 16))
        (String (hex_digit (byte_val x mod 16)) (bh2u b'))
  end.

(** Modelled from the spec: [util.bfh], Python's [bytes.fromhex] (util.py
    is not part of the sources at hand): two hexadecimal digits per byte,
    upper or lower case, white space between bytes skipped, [ValueError]
    otherwise. *)
Fixpoint bfh (s : string) : result (list byte) :=
  match s with
  | EmptyString => Ok []
  | String c1 rest =>
      if is_space c1 then bfh rest
      else
        match rest with
        | EmptyString => Raise ValueError
        | String c2 rest' =>
            match hex_val c1, hex_val c2 with
            | Some h, Some l =>
                b ← bfh rest'; Ok (byte_of_val (16 * h + l) :: b)
            | _, _ => Raise ValueError
            end
        end
  end.

(** Modelled from the spec: [bitcoin.rev_hex] (bitcoin.py is not part of
    the sources at hand): the hexadecimal text of the bytes in reverse
    order, [bh2u(bfh(s)[::-1])]. *)
Definition rev_hex (s : string) : result string :=
  b ← bfh s; Ok (bh2u (rev b)).

(** Modelled from the spec: [bitcoin.int_to_hex] (bitcoin.py is not part
    of the sources at hand): the little-endian hexadecimal text of [i] on
    [length] bytes; [hex(i)[2:]] is padded with zeros on the left to
    [2*length] digits and byte-reversed. *)
Definition int_to_hex (i : Z) (length : nat) : result string :=
  let s := str_slice_from (py_hex i) 2 in
  let s := zeros_str (2 * length - String.length s) +:+ s in
  rev_hex s.

(** Modelled from the spec: [bitcoin.hash_encode] (bitcoin.py is not part
    of the sources at hand): the hexadecimal text of a digest, bytes
    reversed, [bh2u(x[::-1])]. *)
Definition hash_encode (x : list byte) : string := bh2u (rev x).

(* ===================================================================== *)
(** * Headers and their 80-byte form *)
(* ===================================================================== *)

(** A header dict.  [prev_block_hash] may be absent ([None]): [hash_header]
    provides for it; the other keys are always present. *)
Record Header : Type := mkHeader {
  version : Z;
  prev_block_hash : option string;
  merkle_root : string;
  timestamp : Z;
  bits : Z;
  nonce : Z;
  block_height : Z
}.

Definition set_block_height (h : Header) (height : Z) : Header :=
  mkHeader (version h) (prev_block_hash h) (merkle_root h) (timestamp h)
           (bits h) (nonce h) height.

Definition set_prev_block_hash (h : Header) (p : string) : Header :=
  mkHeader (version h) (Some p) (merkle_root h) (timestamp h)
           (bits h) (nonce h) (block_height h).

(** [serialize_header(res)]: the hexadecimal text of the 80 bytes. *)
Definition serialize_header (res : Header) : result string :=
  v ← int_to_hex (version res) 4;
  p ← match prev_block_hash res with
      | Some s => rev_hex s
      | None => Raise TypeError
      end;
  m ← rev_hex (merkle_root res);
  t ← int_to_hex (timestamp res) 4;
  b ← int_to_hex (bits res) 4;
  n ← int_to_hex (nonce res) 4;
  Ok (v +:+ p +:+ m +:+ t +:+ b +:+ n).

(** The local [hex_to_int] of [deserialize_header]. *)
Definition hex_to_int (s : list byte) : result Z :=
  py_int16 ("0x" +:+ bh2u (rev s)).

(** [deserialize_header(s, height)] *)
Definition deserialize_header (s : list byte) (height : Z) : result Header :=
  match s with
  | [] => Raise InvalidHeader
  | _ =>
      if negb (blen s =? 80) then Raise InvalidHeaderLength
      else
        v ← hex_to_int (py_slice s 0 4);
        let p := hash_encode (py_slice s 4 36) in
        let m := hash_encode (py_slice s 36 68) in
        t ← hex_to_int (py_slice s 68 72);
        b ← hex_to_int (py_slice s 72 76);
        n ← hex_to_int (py_slice s 76 80);
        Ok (mkHeader v (Some p) m t b n height)
  end.

(** ['0' * 64] *)
Definition zero_hash : string := zeros_str 64.

(** The algorithm tag of a version, [version & (15 << 11)]. *)
Definition algo_tag (v : Z) : Z := Z.land v (Z.shiftl 15 11).

(* ===================================================================== *)
(** * The environment: hash primitives and network constants *)
(* ===================================================================== *)

(** A row of [constants.net.CHECKPOINTS]: hash, target, timestamp. *)
Definition checkpoint_row : Type := (string * Z * Z)%type.

(** What blockchain.py takes from outside: the two digest functions
    ([getPoWHash], scrypt with N=1024, r=1, p=1 on 80 bytes, and the
    BLAKE2s of [cblake]), both used as black boxes from bytes to bytes; the
    constants of [constants.net]; and the directory of the header files. *)
Record Env : Type := mkEnv {
  getPoWHash : list byte -> list byte;
  cblake : list byte -> list byte;
  TESTNET : bool;
  GENESIS : string;
  CHECKPOINTS : list checkpoint_row;
  headers_dir : string
}.

Definition MAX_TARGET : Z :=
  0x00000FFFFF000000000000000000000000000000000000000000000000000000.

Section Hashing.
Context (env : Env).

(** [hash_header(header)]: the scrypt digest, whatever the algorithm.  An
    absent [prev_block_hash] is filled in with zeros; the assignment is to
    the caller's dict, which none of the modelled callers reads again. *)
Definition hash_header (header : option Header) : result string :=
  match header with
  | None => Ok zero_hash
  | Some h =>
      let h := match prev_block_hash h with
               | None => set_prev_block_hash h (zeros_str 64)
               | Some _ => h
               end in
      s ← serialize_header h;
      b ← bfh s;
      Ok (hash_encode (getPoWHash env b))
  end.

(** [pow_hash_header(header)]: BLAKE2s for the blake tag, scrypt for
    every other one. *)
Definition pow_hash_header (header : Header) : result string :=
  if algo_tag (version header) =? Z.shiftl 4 11
  then
    s ← serialize_header header;
    b ← bfh s;
    Ok (hash_encode (cblake env b))
  else
    s ← serialize_header header;
    b ← bfh s;
    Ok (hash_encode (getPoWHash env b)).
End Hashing.

(* ===================================================================== *)
(** * Compact targets *)
(* ===================================================================== *)

(** [bits_to_target(bits)] *)
Definition bits_to_target (bits : Z) : result Z :=
  let bitsN := Z.land (Z.shiftr bits 24) 0xff in
  if negb ((0x03 <=? bitsN) && (bitsN <=? 0x1e)) then Raise BitsFirstPart
  else
    let bitsBase := Z.land bits 0xffffff in
    if negb ((0x8000 <=? bitsBase) && (bitsBase <=? 0x7fffff))
    then Raise BitsSecondPart
    else Ok (Z.shiftl bitsBase (8 * (bitsN - 3))).

(** The loop [while c[:2] == '00' and len(c) > 6: c = c[2:]]. *)
Fixpoint strip_zero_bytes (c : string) : string :=
  match c with
  | String a (String b rest) =>
      if Ascii.eqb a "0" && Ascii.eqb b "0" && (6 <? String.length c)%nat
      then strip_zero_bytes rest
      else c
  | _ => c
  end.

(** [target_to_bits(target)] *)
Definition target_to_bits (target : Z) : result Z :=
  let c := str_slice_from (format_064x target) 2 in
  let c := strip_zero_bytes c in
  let bitsN := Z.of_nat (String.length c) / 2 in
  bitsBase ← py_int16 ("0x" +:+ str_slice_to c 6);
  if 0x800000 <=? bitsBase
  then Ok (Z.lor (Z.shiftl (bitsN + 1) 24) (Z.shiftr bitsBase 8))
  else Ok (Z.lor (Z.shiftl bitsN 24) bitsBase).

Example target_to_bits_max : target_to_bits MAX_TARGET = Ok 0x1e0fffff.
Proof. vm_compute. reflexivity. Qed.

Example bits_to_target_max : bits_to_target 0x1e0fffff = Ok MAX_TARGET.
Proof. vm_compute. reflexivity. Qed.

Example target_to_bits_small : target_to_bits 0x8000 = Ok 0x03008000.
Proof. vm_compute. reflexivity. Qed.

(* ===================================================================== *)
(** * The world: chain objects, the registry and the files *)
(* ===================================================================== *)

(** A reference to a [Blockchain] object. *)
Definition ref : Type := nat.

(** The attributes of a [Blockchain] object that the modelled methods
    read or assign ([config], [catch_up] and [lock] are left out:
    execution is sequential).  [old_path] exists once a swap has set it. *)
Record Blockchain : Type := mkBlockchain {
  checkpoint : Z;
  parent_id : option Z;
  _size : Z;
  old_path : option string
}.

(** A Python dict with integer keys: keys are unique and [values()]
    iterates in insertion order. *)
Definition dict (V : Type) : Type := list (Z * V).

Fixpoint dict_get {V : Type} (d : dict V) (k : Z) : option V :=
  match d with
  | [] => None
  | (k', v) :: d' => if k' =? k then Some v else dict_get d' k
  end.

(** [d[k] = v]: an existing key keeps its position. *)
Fixpoint dict_set {V : Type} (d : dict V) (k : Z) (v : V) : dict V :=
  match d with
  | [] => [(k, v)]
  | (k', v') :: d' =>
      if k' =? k then (k, v) :: d' else (k', v') :: dict_set d' k v
  end.

Definition dict_values {V : Type} (d : dict V) : list V := map snd d.

Record World : Type := mkWorld {
  objs : gmap nat Blockchain;          (* the heap of Blockchain objects *)
  blockchains : dict ref;              (* the module-level registry *)
  files : gmap string (list byte);     (* the files that exist *)
  headers_dir_exists : bool            (* os.path.exists(headers_dir) *)
}.

Definition set_objs (w : World) (o : gmap nat Blockchain) : World :=
  mkWorld o (blockchains w) (files w) (headers_dir_exists w).
Definition set_blockchains (w : World) (d : dict ref) : World :=
  mkWorld (objs w) d (files w) (headers_dir_exists w).
Definition set_files (w : World) (f : gmap string (list byte)) : World :=
  mkWorld (objs w) (blockchains w) f (headers_dir_exists w).

(** The object behind a reference.  Every reference a method is called on
    denotes an object; a reference outside the heap has no Python
    counterpart and makes the operation raise. *)
Definition deref (w : World) (r : ref) : result Blockchain :=
  match objs w !! r with
  | Some b => Ok b
  | None => Raise AttributeError
  end.

Definition update (w : World) (r : ref) (f : Blockchain -> Blockchain)
  : result World :=
  b ← deref w r; Ok (set_objs w (<[r := f b]> (objs w))).

Definition with_checkpoint (c : Z) (b : Blockchain) : Blockchain :=
  mkBlockchain c (parent_id b) (_size b) (old_path b).
Definition with_parent_id (p : option Z) (b : Blockchain) : Blockchain :=
  mkBlockchain (checkpoint b) p (_size b) (old_path b).
Definition with_size (s : Z) (b : Blockchain) : Blockchain :=
  mkBlockchain (checkpoint b) (parent_id b) s (old_path b).
Definition with_old_path (p : string) (b : Blockchain) : Blockchain :=
  mkBlockchain (checkpoint b) (parent_id b) (_size b) (Some p).

(** ** Files *)

Definition zero_bytes (n : nat) : list byte := repeat x00 n.

(** [f.seek(offset); f.truncate()]: cut, or extend with zero bytes. *)
Definition file_truncate (content : list byte) (offset : nat) : list byte :=
  firstn offset content ++ zero_bytes (offset - List.length content).

(** [f.seek(offset); f.write(data)]: a gap before [offset] reads as zero
    bytes; writing nothing changes nothing. *)
Definition file_write (content : list byte) (offset : nat) (data : list byte)
  : list byte :=
  match data with
  | [] => content
  | _ =>
      firstn offset content ++ zero_bytes (offset - List.length content)
        ++ data ++ skipn (offset + List.length data) content
  end.

(** [f.seek(offset); f.read(n)] for [n >= 0]. *)
Definition file_read (content : list byte) (offset : nat) (n : nat)
  : list byte :=
  firstn n (skipn offset content).

(** [h == bytes([0])*80] *)
Definition is_zero_slot (h : list byte) : bool :=
  bool_decide (h = zero_bytes 80).

Section Chain.
Context (env : Env).

(** [Blockchain.path] *)
Definition path (b : Blockchain) : string :=
  let filename :=
    match parent_id b with
    | None => "blockchain_headers"
    | Some p => "forks/fork_" +:+ pretty p +:+ "_" +:+ pretty (checkpoint b)
    end in
  headers_dir env +:+ "/" +:+ filename.

(** [Blockchain.parent]: [blockchains[self.parent_id]] *)
Definition parent (w : World) (b : Blockchain) : result ref :=
  match parent_id b with
  | None => Raise KeyError
  | Some p =>
      match dict_get (blockchains w) p with
      | Some r => Ok r
      | None => Raise KeyError
      end
  end.

(** [Blockchain.size] *)
Definition size (w : World) (self : ref) : result Z :=
  b ← deref w self; Ok (_size b).

(** [Blockchain.height] *)
Definition height (w : World) (self : ref) : result Z :=
  b ← deref w self; s ← size w self; Ok (checkpoint b + s - 1).

(** The assignment of [Blockchain.update_size]: [_size] becomes the
    number of whole headers in the file, 0 without a file. *)
Definition resize (w : World) (self : ref) : result World :=
  b ← deref w self;
  let s := match files w !! path b with
           | Some content => blen content / 80
           | None => 0
           end in
  update w self (with_size s).

(** [Blockchain.assert_headers_file_available] *)
Definition assert_headers_file_available (w : World) (p : string)
  : result unit :=
  match files w !! p with
  | Some _ => Ok tt
  | None =>
      if negb (headers_dir_exists w) then Raise HeadersDirLost
      else Raise HeadersFileMissing
  end.
End Chain.

(* ===================================================================== *)
(** * Methods that change the world *)
(* ===================================================================== *)

(** A method that assigns attributes or writes files maps a world to its
    outcome and the world it leaves behind: what was done before an
    exception was raised stays done. *)
Definition M (A : Type) : Type := World -> result A * World.

Definition retM {A : Type} (a : A) : M A := fun w => (Ok a, w).
Definition raiseM {A : Type} (e : exn) : M A := fun w => (Raise e, w).
Definition bindM {A B : Type} (m : M A) (k : A -> M B) : M B :=
  fun w => match m w with
           | (Ok a, w') => k a w'
           | (Raise e, w') => (Raise e, w')
           end.
(** A computation that only reads the world. *)
Definition liftR {A : Type} (f : World -> result A) : M A :=
  fun w => (f w, w).
Definition modify (f : World -> World) : M unit := fun w => (Ok tt, f w).

Notation "'let*' x := m 'in' k" := (bindM m (fun x => k))
  (at level 10, x name, m at level 100, k at level 200).

Fixpoint forM_ {A : Type} (l : list A) (f : A -> M unit) : M unit :=
  match l with
  | [] => retM tt
  | x :: l' => let* _ := f x in forM_ l' f
  end.

Section ChainUpdates.
Context (env : Env).

(** [Blockchain.update_size] *)
Definition update_size (self : ref) : M unit :=
  fun w => match resize env w self with
           | Ok w' => (Ok tt, w')
           | Raise e => (Raise e, w)
           end.

(** [Blockchain.write(data, offset, truncate=True)], statement by
    statement: the availability check, the optional truncation, the
    write, then [update_size]. *)
Definition write (self : ref) (data : list byte) (offset : Z)
    (truncate : bool) : M unit :=
  let* b := liftR (fun w => deref w self) in
  let filename := path env b in
  let* _ := liftR (fun w => assert_headers_file_available w filename) in
  let* content := liftR (fun w => match files w !! filename with
                                  | Some c => Ok c
                                  | None => Raise HeadersFileMissing
                                  end) in
  if offset <? 0 then raiseM OSError
  else
    let content :=
      if truncate && negb (offset =? _size b * 80)
      then file_truncate content (Z.to_nat offset)
      else content in
    let content := file_write content (Z.to_nat offset) data in
    let* _ := modify (fun w => set_files w (<[filename := content]> (files w))) in
    update_size self.

(** [os.rename(src, dst)] *)
Definition os_rename (src dst : string) : M unit :=
  fun w => match files w !! src with
           | Some c => (Ok tt, set_files w (<[dst := c]> (delete src (files w))))
           | None => (Raise FileNotFoundError, w)
           end.

Definition updateM (r : ref) (f : Blockchain -> Blockchain) : M unit :=
  fun w => match update w r f with
           | Ok w' => (Ok tt, w')
           | Raise e => (Raise e, w)
           end.

(** [Blockchain.swap_with_parent] *)
Definition swap_with_parent (self : ref) : M unit :=
  let* b := liftR (fun w => deref w self) in
  match parent_id b with
  | None => retM tt
  | Some parent_id0 =>
      let* p := liftR (fun w => parent w b) in
      let* ph := liftR (fun w => height w p) in
      let parent_branch_size := ph - checkpoint b + 1 in
      let* sz := liftR (fun w => size w self) in
      if sz <=? parent_branch_size then retM tt
      else
        let checkpoint0 := checkpoint b in
        let* parent := liftR (fun w => parent w b) in
        let* pb := liftR (fun w => deref w parent) in
        let* _ := liftR (fun w => assert_headers_file_available w (path env b)) in
        let* my_data := liftR (fun w => match files w !! path env b with
                                        | Some c => Ok c
                                        | None => Raise HeadersFileMissing
                                        end) in
        let* _ := liftR (fun w => assert_headers_file_available w (path env pb)) in
        let* parent_data :=
          liftR (fun w => match files w !! path env pb with
                          | None => Raise HeadersFileMissing
                          | Some c =>
                              let off := (checkpoint0 - checkpoint pb) * 80 in
                              if off <? 0 then Raise OSError
                              else if parent_branch_size * 80 <? 0
                                   then Raise ValueError
                                   else Ok (file_read c (Z.to_nat off)
                                              (Z.to_nat (parent_branch_size * 80)))
                          end) in
        let* _ := write self parent_data 0 true in
        let* pb1 := liftR (fun w => deref w parent) in
        let* _ := write parent my_data ((checkpoint0 - checkpoint pb1) * 80) true in
        (* store file path *)
        let* all := liftR (fun w => Ok (dict_values (blockchains w))) in
        let* _ := forM_ all (fun r =>
                    let* x := liftR (fun w => deref w r) in
                    updateM r (with_old_path (path env x))) in
        (* swap parameters *)
        let* x := liftR (fun w => deref w parent) in
        let* _ := updateM self (with_parent_id (parent_id x)) in
        let* _ := updateM parent (with_parent_id (Some parent_id0)) in
        let* x := liftR (fun w => deref w parent) in
        let* _ := updateM self (with_checkpoint (checkpoint x)) in
        let* _ := updateM parent (with_checkpoint checkpoint0) in
        let* x := liftR (fun w => deref w parent) in
        let* _ := updateM self (with_size (_size x)) in
        let* _ := updateM parent (with_size parent_branch_size) in
        (* move files *)
        let* all := liftR (fun w => Ok (dict_values (blockchains w))) in
        let* _ := forM_ all (fun r =>
                    if (r =? self)%nat || (r =? parent)%nat then retM tt
                    else
                      let* x := liftR (fun w => deref w r) in
                      match old_path x with
                      | None => raiseM AttributeError
                      | Some old =>
                          if negb (String.eqb old (path env x))
                          then os_rename old (path env x)
                          else retM tt
                      end) in
        (* update pointers *)
        let* s := liftR (fun w => deref w self) in
        let* _ := modify (fun w => set_blockchains w
                                     (dict_set (blockchains w) (checkpoint s) self)) in
        let* x := liftR (fun w => deref w parent) in
        modify (fun w => set_blockchains w
                           (dict_set (blockchains w) (checkpoint x) parent))
  end.

(** [Blockchain.save_chunk] *)
Definition save_chunk (self : ref) (index : Z) (chunk : list byte) : M unit :=
  let* b := liftR (fun w => deref w self) in
  let d := (index * 2016 - checkpoint b) * 80 in
  let chunk := if d <? 0 then py_slice_from chunk (- d) else chunk in
  let d := if d <? 0 then 0 else d in
  let truncate := Z.of_nat (List.length (CHECKPOINTS env)) <=? index in
  let* _ := write self chunk d truncate in
  swap_with_parent self.

(** [Blockchain.save_header] *)
Definition save_header (self : ref) (header : Header) : M unit :=
  let* b := liftR (fun w => deref w self) in
  let delta := block_height header - checkpoint b in
  let* data := liftR (fun _ => s ← serialize_header header; bfh s) in
  let* sz := liftR (fun w => size w self) in
  let* _ := liftR (fun _ => assert (delta =? sz)) in
  let* _ := liftR (fun _ => assert (blen data =? 80)) in
  let* _ := write self data (delta * 80) true in
  swap_with_parent self.
End ChainUpdates.

(* ===================================================================== *)
(** * Reading the store *)
(* ===================================================================== *)

(** The depth at which Python gives up a recursion
    ([sys.getrecursionlimit()]); [read_header] recurses once per ancestor
    chain, so the limit is only met in a registry whose parent links form a
    cycle. *)
Definition recursion_limit : nat := 1000.

Section ChainReads.
Context (env : Env).

Fixpoint read_header_rec (depth : nat) (w : World) (self : ref) (height_ : Z)
  : result (option Header) :=
  match depth with
  | O => Raise RecursionError
  | S depth' =>
      b ← deref w self;
      _ ← assert (negb (bool_decide (parent_id b = Some (checkpoint b))));
      if height_ <? 0 then Ok None
      else if height_ <? checkpoint b
      then p ← parent w b; read_header_rec depth' w p height_
      else
        hgt ← height w self;
        if hgt <? height_ then Ok None
        else
          let delta := height_ - checkpoint b in
          let name := path env b in
          _ ← assert_headers_file_available w name;
          match files w !! name with
          | None => Raise HeadersFileMissing
          | Some content =>
              let h := file_read content (Z.to_nat (delta * 80)) 80 in
              if blen h <? 80 then Raise ShortRead
              else if is_zero_slot h then Ok None
              else x ← deserialize_header h height_; Ok (Some x)
          end
  end.

(** [Blockchain.read_header] *)
Definition read_header (w : World) (self : ref) (height_ : Z)
  : result (option Header) :=
  read_header_rec recursion_limit w self height_.

(** [Blockchain.get_hash] *)
Definition get_hash (w : World) (self : ref) (height_ : Z) : result string :=
  if height_ =? -1 then Ok zero_hash
  else if height_ =? 0 then Ok (GENESIS env)
  else if height_ <? Z.of_nat (List.length (CHECKPOINTS env)) * 2016
  then
    _ ← assert ((height_ + 1) mod 2016 =? 0);
    let index := height_ / 2016 in
    '(h, t, _) ← py_index (CHECKPOINTS env) index;
    Ok h
  else
    x ← read_header w self height_;
    hash_header env x.

(** [Blockchain.get_timestamp] *)
Definition get_timestamp (w : World) (self : ref) (height_ : Z) : result Z :=
  if (height_ <? Z.of_nat (List.length (CHECKPOINTS env)) * 2016)
     && ((height_ + 1) mod 2016 =? 0)
  then
    let index := height_ / 2016 in
    '(_, _, ts) ← py_index (CHECKPOINTS env) index;
    Ok ts
  else
    x ← read_header w self height_;
    match x with
    | Some h => Ok (timestamp h)
    | None => Raise AttributeError
    end.

(** [Blockchain.check_header] *)
Definition check_header (w : World) (self : ref) (header : Header)
  : result bool :=
  header_hash ← hash_header env (Some header);
  let height_ := block_height header in
  h ← get_hash w self height_;
  Ok (String.eqb header_hash h).

(** [Blockchain.can_connect]; the bare [except:] around [get_hash] turns
    every exception into [False]. *)
Definition can_connect (w : World) (self : ref) (header : option Header)
    (check_height : bool) : result bool :=
  match header with
  | None => Ok false
  | Some header =>
      let height_ := block_height header in
      mismatch ← (if check_height
                  then hgt ← height w self; Ok (negb (hgt =? height_ - 1))
                  else Ok false);
      if (mismatch : bool) then Ok false
      else if height_ =? 0
      then h ← hash_header env (Some header); Ok (String.eqb h (GENESIS env))
      else
        match get_hash w self (height_ - 1) with
        | Raise _ => Ok false
        | Ok prev_hash =>
            if negb (bool_decide (Some prev_hash = prev_block_hash header))
            then Ok false
            else Ok true
        end
  end.
End ChainReads.

(* ===================================================================== *)
(** * The target engine *)
(* ===================================================================== *)

(** [Blockchain.GetMaxClockDrift] *)
Definition GetMaxClockDrift (Height : Z) : Z :=
  if (Height <? 660000) || ((Height <? 817500) && (800000 <? Height))
  then 2 * 60 * 60
  else 10 * 60.

(** [Blockchain.get_algo]: the [switcher] dict with its default 0. *)
Definition get_algo (header : Header) : Z :=
  let tag := algo_tag (version header) in
  if tag =? Z.shiftl 1 11 then 0        (* scrypt *)
  else if tag =? Z.shiftl 2 11 then 4   (* groestl *)
  else if tag =? Z.shiftl 10 11 then 2  (* lyra *)
  else if tag =? Z.shiftl 3 11 then 1   (* x17 *)
  else if tag =? Z.shiftl 4 11 then 3   (* blake *)
  else if tag =? Z.shiftl 11 11 then 5  (* x16s *)
  else 0.

(** ** Python floats

    A [float] is an IEEE 754 binary64 number; its operations round to
    nearest, ties to even.  They are taken from [SpecFloat] at precision
    53 and maximal exponent 1024. *)
Definition float : Type := spec_float.

(** [float(z)]: correctly rounded, [OverflowError] beyond the range. *)
Definition float_of_int (z : Z) : result float :=
  match binary_normalize 53 1024 z 0 false with
  | S754_infinity _ => Raise OverflowError
  | f => Ok f
  end.

Definition fmul (x y : float) : float := SFmul 53 1024 x y.
Definition fadd (x y : float) : float := SFadd 53 1024 x y.
Definition fdiv (x y : float) : float := SFdiv 53 1024 x y.

(** [int(f)]: truncation towards zero. *)
Definition int_of_float (f : float) : result Z :=
  match f with
  | S754_zero _ => Ok 0
  | S754_infinity _ => Raise OverflowError
  | S754_nan => Raise ValueError
  | S754_finite s m e =>
      let a := if 0 <=? e then Z.shiftl (Z.pos m) e
               else Z.shiftr (Z.pos m) (- e) in
      Ok (if s then - a else a)
  end.

Definition T_spacing : Z := 225.
Definition N_window : Z := 60.

(** [k = N*(N+1)*T/2], a float: 411750.0 *)
Definition k_float : result float :=
  a ← float_of_int (N_window * (N_window + 1) * T_spacing);
  b ← float_of_int 2;
  Ok (fdiv a b).

(** [k // 10], the float 41175.0; an [int] is compared with it and
    replaced by it, so its integer value is all that is used. *)
Definition k_floordiv_10 : Z := 41175.

Example k_float_value : k_float = float_of_int 411750.
Proof. vm_compute. reflexivity. Qed.

Example k_floordiv_10_value :
  (k ← k_float; t ← float_of_int 10; int_of_float (fdiv k t)) = Ok k_floordiv_10.
Proof. vm_compute. reflexivity. Qed.

Section TargetEngine.
Context (env : Env).

(** [Blockchain.get_targetv1], the old retarget. *)
Definition get_targetv1 (w : World) (self : ref) (index : Z) : result Z :=
  if TESTNET env then Ok 0
  else if index =? -1
  then Ok 0x00000FFFF0000000000000000000000000000000000000000000000000000000
  else if index <? Z.of_nat (List.length (CHECKPOINTS env))
  then '(h, t, _) ← py_index (CHECKPOINTS env) index; Ok t
  else
    first_timestamp ←
      get_timestamp env w self (if 0 <? index then index * 2016 - 1 else 0);
    last ← read_header env w self (index * 2016 + 2015);
    match last with
    | None => Raise MissingHeader
    | Some last =>
        if first_timestamp =? 0 then Raise MissingHeader
        else
          target ← bits_to_target (bits last);
          let nActualTimespan := timestamp last - first_timestamp in
          let nTargetTimespan := 84 * 60 * 60 in
          let nActualTimespan := Z.max nActualTimespan (nTargetTimespan / 4) in
          let nActualTimespan := Z.min nActualTimespan (nTargetTimespan * 4) in
          Ok (Z.min MAX_TARGET ((target * nActualTimespan) / nTargetTimespan))
    end.

(** The block the ancestor walk of [get_target] looks at for height [c]:
    from the chunk at or above its first height, from the store below. *)
Definition walk_block (w : World) (self : ref) (data : list byte)
    (index c : Z) : result (option Header) :=
  if index * 2016 <=? c
  then
    let tmpix := c - index * 2016 in
    let tmpraw := py_slice data (tmpix * 80) ((tmpix + 1) * 80) in
    block ← deserialize_header tmpraw c; Ok (Some block)
  else read_header env w self c.

(** The loop [while c > 100 and len(samealgoblocks) <= N].  It runs at
    most [c - 100] times, which is what [steps] counts down from. *)
Fixpoint walk (steps : nat) (w : World) (self : ref) (data : list byte)
    (index algo : Z) (c : Z) (samealgoblocks : list Header)
  : result (Z * list Header) :=
  match steps with
  | O => Ok (c, samealgoblocks)
  | S steps' =>
      if (100 <? c) && (Z.of_nat (List.length samealgoblocks) <=? N_window)
      then
        block ← walk_block w self data index c;
        match block with
        | None => Raise TypeError
        | Some block =>
            let samealgoblocks :=
              if get_algo block =? algo
              then samealgoblocks ++ [block]
              else samealgoblocks in
            walk steps' w self data index algo (c - 1) samealgoblocks
        end
      else Ok (c, samealgoblocks)
  end.

Definition ancestor_walk (w : World) (self : ref) (data : list byte)
    (index algo : Z) (c : Z) : result (Z * list Header) :=
  walk (Z.to_nat (c - 100)) w self data index algo c [].

(** One round of the loop [for i in range(N, 0, -1)] on the state
    [(j, t, sumTarget)]. *)
Definition window_step (FTL : Z) (kN : float) (samealgoblocks : list Header)
    (st : Z * Z * float) (i : Z) : result (Z * Z * float) :=
  let '(j, t, sumTarget) := st in
  newer ← py_index samealgoblocks (i - 1);
  older ← py_index samealgoblocks i;
  let solvetime := timestamp newer - timestamp older in
  let solvetime := Z.max (- FTL) (Z.min solvetime (6 * T_spacing)) in
  let j := j + 1 in
  let t := t + solvetime * j in
  target ← bits_to_target (bits newer);
  ftarget ← float_of_int target;
  Ok (j, t, fadd sumTarget (fdiv ftarget kN)).

Fixpoint window_loop (FTL : Z) (kN : float) (samealgoblocks : list Header)
    (range : list Z) (st : Z * Z * float) : result (Z * Z * float) :=
  match range with
  | [] => Ok st
  | i :: range' =>
      st' ← window_step FTL kN samealgoblocks st i;
      window_loop FTL kN samealgoblocks range' st'
  end.

(** [range(N, 0, -1)] *)
Definition window_range : list Z :=
  map (fun n => N_window - Z.of_nat n) (seq 0 (Z.to_nat N_window)).

(** The part of [get_target] after the walk: the weighted window over
    the collected ancestors. *)
Definition windowed_target (height_ : Z) (samealgoblocks : list Header)
  : result Z :=
  let FTL := GetMaxClockDrift height_ in
  k ← k_float;
  fN ← float_of_int N_window;
  let kN := fmul k fN in
  zero ← float_of_int 0;
  '(j, t, sumTarget) ← window_loop FTL kN samealgoblocks window_range (0, 0, zero);
  let t := if t <? k_floordiv_10 then k_floordiv_10 else t in
  ft ← float_of_int t;
  let next_target := fmul ft sumTarget in
  int_of_float next_target.

(** [Blockchain.get_target] *)
Definition get_target (w : World) (self : ref) (data : list byte)
    (counter index : Z) : result Z :=
  let height_ := index * 2016 + counter in
  let raw := py_slice data (counter * 80) ((counter + 1) * 80) in
  cBlock ← deserialize_header raw height_;
  let algo := get_algo cBlock in
  '(c, samealgoblocks) ← ancestor_walk w self data index algo (height_ - 1);
  if c <=? 100 then get_targetv1 w self height_
  else windowed_target height_ samealgoblocks.
End TargetEngine.

(* ===================================================================== *)
(** * The verifier and the chunk entry point *)
(* ===================================================================== *)

Section Verifier.
Context (env : Env).

(** [Blockchain.verify_header] *)
Definition verify_header (header : Header) (prev_hash : string) (target : Z)
  : result unit :=
  _powhash ← pow_hash_header env header;
  if negb (bool_decide (Some prev_hash = prev_block_hash header))
  then Raise PrevHashMismatch
  else if TESTNET env then Ok tt
  else
    bits_ ← target_to_bits target;
    if negb (bits_ =? bits header) then Raise BitsMismatch
    else
      let algo_version := algo_tag (version header) in
      if (algo_version =? Z.shiftl 1 11) || (algo_version =? Z.shiftl 4 11)
      then
        pow ← py_int16 ("0x" +:+ _powhash);
        if target <? pow then Raise InsufficientPoW else Ok tt
      else Ok tt.

(** The body of the loop of [verify_chunk] for [i], from [prev_hash] to
    the next one. *)
Definition verify_chunk_step (w : World) (self : ref) (index : Z)
    (data : list byte) (prev_hash : string) (i : Z) : result string :=
  let raw_header := py_slice data (i * 80) ((i + 1) * 80) in
  header ← deserialize_header raw_header (index * 2016 + i);
  target ← get_target env w self data i index;
  _ ← verify_header header prev_hash target;
  hash_header env (Some header).

Fixpoint verify_chunk_loop (w : World) (self : ref) (index : Z)
    (data : list byte) (prev_hash : string) (range : list Z) : result unit :=
  match range with
  | [] => Ok tt
  | i :: range' =>
      prev_hash' ← verify_chunk_step w self index data prev_hash i;
      verify_chunk_loop w self index data prev_hash' range'
  end.

(** [Blockchain.verify_chunk] *)
Definition verify_chunk (w : World) (self : ref) (index : Z)
    (data : list byte) : result unit :=
  let num := blen data / 80 in
  prev_hash ← get_hash env w self (index * 2016 - 1);
  verify_chunk_loop w self index data prev_hash
    (map Z.of_nat (seq 0 (Z.to_nat num))).

(** [Blockchain.connect_chunk]: every exception becomes [False]. *)
Definition connect_chunk (self : ref) (idx : Z) (hexdata : string)
  : World -> bool * World :=
  fun w =>
    let body :=
      let* data := liftR (fun _ => bfh hexdata) in
      let* _ := liftR (fun w => verify_chunk w self idx data) in
      save_chunk env self idx data in
    match body w with
    | (Ok _, w') => (true, w')
    | (Raise _, w') => (false, w')
    end.
End Verifier.

(* ===================================================================== *)
(** * Properties *)
(* ===================================================================== *)

(** ** Slices and strings *)

Section SliceFacts.
Context {A : Type}.
Implicit Types l : list A.

Lemma clip_index_inside (n x : Z) : 0 <= x <= n -> clip_index n x = x.
Proof.
  intros H. unfold clip_index.
  destruct (Z.ltb_spec x 0); lia.
Qed.

(** The middle of three pieces, addressed by its two ends. *)
Lemma py_slice_mid l1 l2 l3 :
  py_slice (l1 ++ l2 ++ l3) (Z.of_nat (List.length l1))
           (Z.of_nat (List.length l1 + List.length l2)) = l2.
Proof.
  unfold py_slice. rewrite !length_app.
  rewrite !clip_index_inside by lia.
  replace (Z.to_nat (Z.of_nat (List.length l1 + List.length l2)
                     - Z.of_nat (List.length l1))) with (List.length l2) by lia.
  rewrite Nat2Z.id.
  rewrite drop_app_length. apply take_app_length.
Qed.

Lemma py_slice_from_app l1 l2 :
  py_slice_from (l1 ++ l2) (Z.of_nat (List.length l1)) = l2.
Proof.
  unfold py_slice_from.
  pose proof (py_slice_mid l1 l2 []) as H.
  rewrite app_nil_r in H. rewrite length_app.
  exact H.
Qed.

Lemma py_slice_to_app l1 l2 :
  py_slice_to (l1 ++ l2) (Z.of_nat (List.length l1)) = l1.
Proof.
  unfold py_slice_to.
  pose proof (py_slice_mid [] l1 l2) as H. simpl in H. exact H.
Qed.

Lemma py_slice_whole l : py_slice l 0 (Z.of_nat (List.length l)) = l.
Proof.
  pose proof (py_slice_mid [] l []) as H. simpl in H.
  rewrite app_nil_r in H. exact H.
Qed.
End SliceFacts.

Lemma str_app_cons (c : ascii) (s1 s2 : string) :
  String c s1 +:+ s2 = String c (s1 +:+ s2).
Proof. reflexivity. Qed.

Lemma str_app_nil_l (s : string) : "" +:+ s = s.
Proof. reflexivity. Qed.

Lemma str_chars_app (s1 s2 : string) :
  str_chars (s1 +:+ s2) = str_chars s1 ++ str_chars s2.
Proof.
  unfold str_chars. induction s1 as [|c s1 IH]; [reflexivity|].
  rewrite str_app_cons. simpl. now rewrite IH.
Qed.

Lemma chars_str_chars (s : string) : chars_str (str_chars s) = s.
Proof. apply string_of_list_ascii_of_string. Qed.

Lemma str_chars_length (s : string) :
  List.length (str_chars s) = String.length s.
Proof.
  unfold str_chars. induction s as [|c s IH]; simpl; [reflexivity|].
  now rewrite IH.
Qed.

Lemma str_length_app (s1 s2 : string) :
  String.length (s1 +:+ s2) = (String.length s1 + String.length s2)%nat.
Proof.
  induction s1 as [|c s1 IH]; [reflexivity|].
  rewrite str_app_cons. simpl. now rewrite IH.
Qed.

Lemma str_app_assoc (s1 s2 s3 : string) :
  (s1 +:+ s2) +:+ s3 = s1 +:+ (s2 +:+ s3).
Proof.
  induction s1 as [|c s1 IH]; [reflexivity|].
  rewrite !str_app_cons. now rewrite IH.
Qed.

Lemma str_app_nil_r (s : string) : s +:+ "" = s.
Proof.
  induction s as [|c s IH]; [reflexivity|].
  rewrite str_app_cons. now rewrite IH.
Qed.

Lemma str_slice_from_app (s1 s2 : string) (n : Z) :
  n = Z.of_nat (String.length s1) -> str_slice_from (s1 +:+ s2) n = s2.
Proof.
  intros ->. unfold str_slice_from.
  rewrite str_chars_app, <- str_chars_length, py_slice_from_app.
  apply chars_str_chars.
Qed.

Lemma str_slice_to_app (s1 s2 : string) (n : Z) :
  n = Z.of_nat (String.length s1) -> str_slice_to (s1 +:+ s2) n = s1.
Proof.
  intros ->. unfold str_slice_to.
  rewrite str_chars_app, <- str_chars_length, py_slice_to_app.
  apply chars_str_chars.
Qed.

Lemma zeros_str_length (n : nat) : String.length (zeros_str n) = n.
Proof. induction n as [|n IH]; simpl; [reflexivity|]. now rewrite IH. Qed.

Lemma zeros_str_add (a b : nat) :
  zeros_str (a + b) = zeros_str a +:+ zeros_str b.
Proof.
  induction a as [|a IH]; [reflexivity|].
  simpl. rewrite str_app_cons. now rewrite IH.
Qed.

(** ** Hexadecimal digits *)

Lemma small_cases (P : Z -> Prop) (n : nat) :
  (forall k : nat, (k < n)%nat -> P (Z.of_nat k)) ->
  forall v, 0 <= v < Z.of_nat n -> P v.
Proof.
  intros H v Hv. rewrite <- (Z2Nat.id v) by lia. apply H. lia.
Qed.

Ltac by_cases16 v Hv :=
  revert v Hv; apply (small_cases _ 16);
  intros k Hk; do 16 (destruct k as [|k]; [vm_compute; auto|]); lia.

Lemma hex_val_digit (v : Z) : 0 <= v < 16 -> hex_val (hex_digit v) = Some v.
Proof. intros Hv. by_cases16 v Hv. Qed.

Lemma is_lower_hex_digit (v : Z) : is_lower_hex (hex_digit v) = true.
Proof.
  destruct v as [|p|p]; try reflexivity.
  do 4 (destruct p as [p|p|]; try reflexivity).
Qed.

Lemma is_space_digit (v : Z) : is_space (hex_digit v) = false.
Proof.
  destruct v as [|p|p]; try reflexivity.
  do 4 (destruct p as [p|p|]; try reflexivity).
Qed.

Lemma hex_digit_zero (v : Z) :
  0 <= v < 16 -> Ascii.eqb (hex_digit v) "0" = (v =? 0).
Proof. intros Hv. by_cases16 v Hv. Qed.

(** What a lower-case digit stands for. *)
Lemma lower_hex_inv (c : ascii) :
  is_lower_hex c = true ->
  exists v, 0 <= v < 16 /\ hex_val c = Some v /\ hex_digit v = c
            /\ is_space c = false.
Proof.
  destruct c as [b0 b1 b2 b3 b4 b5 b6 b7].
  destruct b0, b1, b2, b3, b4, b5, b6, b7; intros H;
    try (vm_compute in H; discriminate H);
    eexists; (split; [|split; [reflexivity|split; reflexivity]]);
    vm_compute; split; congruence.
Qed.

Lemma byte_of_val_val (x : byte) : byte_of_val (byte_val x) = x.
Proof. destruct x; reflexivity. Qed.

Lemma byte_val_range (x : byte) : 0 <= byte_val x < 256.
Proof. destruct x; vm_compute; split; congruence. Qed.

Lemma byte_val_of_val (v : Z) : 0 <= v < 256 -> byte_val (byte_of_val v) = v.
Proof.
  intros Hv. revert v Hv. apply (small_cases _ 256).
  intros k Hk.
  do 256 (destruct k as [|k]; [reflexivity|]). lia.
Qed.

(** ** Fixed-width hexadecimal text *)

Lemma hex_fixed_acc_app (w : nat) (z : Z) (acc : string) :
  hex_fixed_acc w z acc = hex_fixed w z +:+ acc.
Proof.
  unfold hex_fixed. revert z acc.
  induction w as [|w IH]; intros z acc; [reflexivity|].
  simpl. rewrite IH. rewrite (IH _ (String _ "")).
  rewrite str_app_assoc. reflexivity.
Qed.

Lemma hex_fixed_snoc (w : nat) (z : Z) :
  hex_fixed (S w) z = hex_fixed w (z / 16) +:+ String (hex_digit (z mod 16)) "".
Proof. unfold hex_fixed at 1. simpl. apply hex_fixed_acc_app. Qed.

Lemma hex_fixed_length (w : nat) (z : Z) : String.length (hex_fixed w z) = w.
Proof.
  revert z. induction w as [|w IH]; intros z; [reflexivity|].
  rewrite hex_fixed_snoc, str_length_app, IH. simpl. lia.
Qed.

Lemma hex_fixed_app (a b : nat) (z : Z) :
  hex_fixed (a + b) z = hex_fixed a (z / 16 ^ Z.of_nat b) +:+ hex_fixed b z.
Proof.
  revert z. induction b as [|b IH]; intros z.
  - rewrite Nat.add_0_r. simpl. rewrite Z.div_1_r.
    symmetry. apply str_app_nil_r.
  - rewrite Nat.add_succ_r, !hex_fixed_snoc, IH.
    rewrite str_app_assoc.
    rewrite Z.div_div by lia.
    replace (16 * 16 ^ Z.of_nat b) with (16 ^ Z.of_nat (S b)); [reflexivity|].
    rewrite Nat2Z.inj_succ, Z.pow_succ_r by lia. reflexivity.
Qed.

Lemma zeros_str_snoc (w : nat) : zeros_str (S w) = zeros_str w +:+ "0".
Proof. rewrite <- Nat.add_1_r. apply zeros_str_add. Qed.

(** The low [b] digits of a multiple of [16^b] are zeros. *)
Lemma hex_fixed_multiple (b : nat) (m : Z) :
  hex_fixed b (m * 16 ^ Z.of_nat b) = zeros_str b.
Proof.
  revert m. induction b as [|b IH]; intros m; [reflexivity|].
  rewrite hex_fixed_snoc, zeros_str_snoc.
  rewrite Nat2Z.inj_succ, Z.pow_succ_r by lia.
  replace (m * (16 * 16 ^ Z.of_nat b)) with ((m * 16 ^ Z.of_nat b) * 16) by lia.
  rewrite Z.div_mul by lia. rewrite Z.mod_mul by lia.
  rewrite IH. reflexivity.
Qed.

Lemma hex_fixed_zero (w : nat) : hex_fixed w 0 = zeros_str w.
Proof. exact (hex_fixed_multiple w 0). Qed.

Lemma hex_digits_value_app (s1 s2 : string) (acc : Z) :
  hex_digits_value (s1 +:+ s2) acc
  = (v ← hex_digits_value s1 acc; hex_digits_value s2 v).
Proof.
  revert acc. induction s1 as [|c s1 IH]; intros acc; [reflexivity|].
  rewrite str_app_cons. simpl.
  destruct (hex_val c); [apply IH|reflexivity].
Qed.

Lemma hex_digits_value_fixed (w : nat) (z acc : Z) :
  hex_digits_value (hex_fixed w z) acc
  = Ok (acc * 16 ^ Z.of_nat w + z mod 16 ^ Z.of_nat w).
Proof.
  revert z acc. induction w as [|w IH]; intros z acc.
  - simpl. rewrite Z.mod_1_r. f_equal. lia.
  - rewrite hex_fixed_snoc, hex_digits_value_app, IH.
    cbn [mbind result_bind bind hex_digits_value].
    rewrite hex_val_digit by (apply Z.mod_pos_bound; lia).
    cbn [hex_digits_value]. f_equal.
    rewrite Nat2Z.inj_succ, Z.pow_succ_r by lia.
    rewrite (Z.rem_mul_r z 16 (16 ^ Z.of_nat w)) by lia.
    lia.
Qed.

Lemma hex_len_bound (z : Z) : 0 <= z -> z < 16 ^ Z.of_nat (hex_len z).
Proof.
  intros Hz. unfold hex_len.
  destruct (Z.leb_spec z 0) as [H0|H0].
  - assert (z = 0) by lia. subst z. reflexivity.
  - pose proof (Z.log2_spec z H0) as [_ Hhi].
    pose proof (Z.log2_nonneg z) as Hl.
    rewrite Z2Nat.id by (pose proof (Z.div_pos (Z.log2 z) 4); lia).
    replace 16 with (2 ^ 4) by reflexivity.
    rewrite <- Z.pow_mul_r by (try (pose proof (Z.div_pos (Z.log2 z) 4)); lia).
    eapply Z.lt_le_trans; [exact Hhi|].
    apply Z.pow_le_mono_r; [lia|].
    pose proof (Z.mod_pos_bound (Z.log2 z) 4).
    pose proof (Z.div_mod (Z.log2 z) 4). lia.
Qed.

Lemma hex_len_le (z : Z) (w : nat) :
  0 <= z < 16 ^ Z.of_nat w -> (0 < w)%nat -> (hex_len z <= w)%nat.
Proof.
  intros [Hz Hw] Hpos. unfold hex_len.
  destruct (Z.leb_spec z 0) as [H0|H0]; [lia|].
  pose proof (Z.log2_nonneg z) as Hl.
  assert (Z.log2 z < 4 * Z.of_nat w) as Hlog.
  { apply Z.log2_lt_pow2; [lia|].
    rewrite Z.pow_mul_r by lia. exact Hw. }
  pose proof (Z.div_pos (Z.log2 z) 4).
  assert (Z.log2 z / 4 < Z.of_nat w)
    by (apply Z.div_lt_upper_bound; lia).
  lia.
Qed.

(** Padding the shortest text with zeros gives the fixed-width text. *)
Lemma zeros_hex_min (w : nat) (z : Z) :
  0 <= z < 16 ^ Z.of_nat w -> (0 < w)%nat ->
  zeros_str (w - hex_len z) +:+ hex_min z = hex_fixed w z.
Proof.
  intros Hz Hw. pose proof (hex_len_le z w Hz Hw) as Hle.
  pose proof (hex_len_bound z (proj1 Hz)) as Hb.
  unfold hex_min.
  replace w with ((w - hex_len z) + hex_len z)%nat at 2 by lia.
  rewrite hex_fixed_app, Z.div_small by lia.
  rewrite hex_fixed_zero. reflexivity.
Qed.

(** ** Compact targets *)

Lemma format_064x_fixed (z : Z) :
  0 <= z < 16 ^ 64 -> format_064x z = hex_fixed 64 z.
Proof.
  intros Hz. unfold format_064x.
  destruct (Z.ltb_spec z 0); [lia|].
  apply (zeros_hex_min 64 z); [exact Hz|lia].
Qed.

Lemma py_int16_0x (s : string) :
  s <> "" -> py_int16 ("0x" +:+ s) = hex_digits_value s 0.
Proof. intros Hs. destruct s; [congruence|reflexivity]. Qed.

Lemma hex_fixed_nonempty (w : nat) (z : Z) : hex_fixed (S w) z <> "".
Proof.
  intros H. pose proof (hex_fixed_length (S w) z) as L.
  rewrite H in L. discriminate L.
Qed.

Lemma hex_fixed_2 (z : Z) :
  hex_fixed 2 z
  = String (hex_digit (z / 16 mod 16)) (String (hex_digit (z mod 16)) "").
Proof. reflexivity. Qed.

(** Leading zero bytes are stripped while more than three bytes remain. *)
Lemma strip_zero_bytes_zeros (j : nat) (r : string) :
  (6 <= String.length r)%nat ->
  strip_zero_bytes (zeros_str (2 * j) +:+ r) = strip_zero_bytes r.
Proof.
  intros Hr. induction j as [|j IH]; [reflexivity|].
  replace (2 * S j)%nat with (S (S (2 * j))) by lia.
  cbn [zeros_str]. rewrite !str_app_cons.
  cbn [strip_zero_bytes].
  replace (6 <? String.length (String "0" (String "0" (zeros_str (2 * j) +:+ r))))%nat
    with true.
  - exact IH.
  - symmetry. apply Nat.ltb_lt. cbn [String.length]. rewrite str_length_app. lia.
Qed.

(** A text whose first byte is not 00 is left as it is. *)
Lemma strip_zero_bytes_stop (hi : Z) (r : string) :
  0 < hi < 256 ->
  strip_zero_bytes (hex_fixed 2 hi +:+ r) = hex_fixed 2 hi +:+ r.
Proof.
  intros Hhi. rewrite hex_fixed_2, !str_app_cons.
  cbn [strip_zero_bytes].
  rewrite !hex_digit_zero by (apply Z.mod_pos_bound; lia).
  assert (hi / 16 mod 16 = hi / 16) as E1.
  { apply Z.mod_small. split; [apply Z.div_pos; lia|].
    apply Z.div_lt_upper_bound; lia. }
  destruct (Z.eqb_spec (hi / 16 mod 16) 0) as [Ha|Ha]; [|reflexivity].
  destruct (Z.eqb_spec (hi mod 16) 0) as [Hb|Hb]; [|reflexivity].
  exfalso. pose proof (Z.div_mod hi 16 ltac:(lia)). lia.
Qed.

(** A 32-bit value is its exponent byte over its 24-bit mantissa. *)
Lemma bits_recompose (b : Z) :
  0 <= b < 2 ^ 32 ->
  Z.lor (Z.shiftl (Z.land (Z.shiftr b 24) 0xff) 24) (Z.land b 0xffffff) = b.
Proof.
  intros Hb. apply Z.bits_inj'. intros i Hi.
  change 0xff with (Z.ones 8). change 0xffffff with (Z.ones 24).
  rewrite Z.lor_spec.
  destruct (Z.ltb_spec i 24) as [Hlt|Hge].
  - rewrite Z.shiftl_spec_low by lia.
    rewrite Z.land_spec, Z.ones_spec_low by lia.
    simpl. apply andb_true_r.
  - rewrite Z.shiftl_spec by lia.
    rewrite (Z.land_spec b), (Z.ones_spec_high 24 i) by lia.
    rewrite andb_false_r, orb_false_r.
    rewrite Z.land_spec, Z.shiftr_spec by lia.
    replace (i - 24 + 24) with i by lia.
    destruct (Z.ltb_spec i 32) as [H32|H32].
    + rewrite Z.ones_spec_low by lia. apply andb_true_r.
    + rewrite Z.ones_spec_high by lia. rewrite andb_false_r.
      symmetry. rewrite <- (Z.mod_small b (2 ^ 32)) by lia.
      apply Z.mod_pow2_bits_high. lia.
Qed.

Lemma exponent_byte (b : Z) :
  0 <= b < 2 ^ 32 -> Z.land (Z.shiftr b 24) 0xff = b / 2 ^ 24.
Proof.
  intros Hb. change 0xff with (Z.ones 8).
  rewrite Z.land_ones, Z.shiftr_div_pow2 by lia.
  apply Z.mod_small. split; [apply Z.div_pos; lia|].
  apply Z.div_lt_upper_bound; lia.
Qed.

Lemma mantissa_bits (b : Z) : Z.land b 0xffffff = b mod 2 ^ 24.
Proof. change 0xffffff with (Z.ones 24). apply Z.land_ones. lia. Qed.

(** The 64-digit text of a mantissa shifted by [k] bytes. *)
Lemma format_shifted (base : Z) (k : nat) :
  0 <= base < 16 ^ 6 -> (k <= 27)%nat ->
  str_slice_from (format_064x (base * 16 ^ Z.of_nat (2 * k))) 2
  = zeros_str (2 * (28 - k)) +:+ (hex_fixed 6 base +:+ zeros_str (2 * k)).
Proof.
  intros Hb Hk.
  assert (0 < 16 ^ Z.of_nat (2 * k) <= 16 ^ 54) as Hp.
  { split; [apply Z.pow_pos_nonneg; lia|].
    apply Z.pow_le_mono_r; lia. }
  rewrite format_064x_fixed.
  2:{ change (16 ^ 6) with 16777216 in Hb. split; [nia|].
      apply Z.lt_le_trans with (16777216 * 16 ^ 54); [nia|].
      vm_compute. discriminate. }
  replace 64%nat with (((2 + 2 * (28 - k)) + 6) + 2 * k)%nat by lia.
  rewrite hex_fixed_app, Z.div_mul by lia.
  rewrite hex_fixed_multiple.
  rewrite hex_fixed_app, Z.div_small by exact Hb.
  rewrite hex_fixed_zero, zeros_str_add.
  rewrite !str_app_assoc.
  apply str_slice_from_app. reflexivity.
Qed.

Lemma shifted_length (base : Z) (w k : nat) :
  String.length (hex_fixed w base +:+ zeros_str (2 * k)) = (w + 2 * k)%nat.
Proof. now rewrite str_length_app, hex_fixed_length, zeros_str_length. Qed.

(** [target_to_bits] on a mantissa of three significant bytes. *)
Lemma target_to_bits_wide (base : Z) (k : nat) :
  0x10000 <= base <= 0x7fffff -> (k <= 27)%nat ->
  target_to_bits (base * 16 ^ Z.of_nat (2 * k))
  = Ok (Z.lor (Z.shiftl (Z.of_nat k + 3) 24) base).
Proof.
  intros Hb Hk. unfold target_to_bits.
  rewrite format_shifted by (change (16 ^ 6) with 16777216; lia).
  rewrite strip_zero_bytes_zeros by (rewrite shifted_length; lia).
  assert (strip_zero_bytes (hex_fixed 6 base +:+ zeros_str (2 * k))
          = hex_fixed 6 base +:+ zeros_str (2 * k)) as ->.
  { change 6%nat with (2 + 4)%nat.
    rewrite hex_fixed_app, str_app_assoc.
    apply strip_zero_bytes_stop.
    change (16 ^ Z.of_nat 4) with 65536. split.
    - apply Z.div_str_pos. lia.
    - apply Z.div_lt_upper_bound; lia. }
  rewrite shifted_length.
  rewrite str_slice_to_app by (rewrite hex_fixed_length; reflexivity).
  rewrite py_int16_0x by apply hex_fixed_nonempty.
  rewrite hex_digits_value_fixed.
  cbn [mbind result_bind bind].
  rewrite Z.mod_small by (change (16 ^ Z.of_nat 6) with 16777216; lia).
  replace (0 * 16 ^ Z.of_nat 6 + base) with base by lia.
  destruct (Z.leb_spec 0x800000 base) as [H|H]; [lia|].
  do 2 f_equal.
  replace (Z.of_nat (6 + 2 * k)) with (2 * (Z.of_nat k + 3)) by lia.
  rewrite Z.mul_comm, Z.div_mul by lia. reflexivity.
Qed.

(** [target_to_bits] on a mantissa of two significant bytes, unshifted. *)
Lemma target_to_bits_narrow_0 (base : Z) :
  0x8000 <= base < 0x10000 ->
  target_to_bits (base * 16 ^ Z.of_nat (2 * 0))
  = Ok (Z.lor (Z.shiftl 3 24) base).
Proof.
  intros Hb. unfold target_to_bits.
  rewrite format_shifted by (change (16 ^ 6) with 16777216; lia).
  rewrite strip_zero_bytes_zeros by (rewrite shifted_length; lia).
  assert (strip_zero_bytes (hex_fixed 6 base +:+ zeros_str (2 * 0))
          = hex_fixed 6 base +:+ "") as ->.
  { change 6%nat with (2 + 4)%nat.
    rewrite hex_fixed_app, Z.div_small
      by (change (16 ^ Z.of_nat 4) with 65536; lia).
    change (hex_fixed 2 0) with "00".
    change (zeros_str (2 * 0)) with "".
    rewrite str_app_assoc, !str_app_cons, str_app_nil_l.
    cbn [strip_zero_bytes String.length].
    rewrite str_length_app, hex_fixed_length. reflexivity. }
  rewrite str_slice_to_app by (rewrite hex_fixed_length; reflexivity).
  rewrite str_app_nil_r, hex_fixed_length.
  rewrite py_int16_0x by apply hex_fixed_nonempty.
  rewrite hex_digits_value_fixed.
  cbn [mbind result_bind bind].
  rewrite Z.mod_small by (change (16 ^ Z.of_nat 6) with 16777216; lia).
  replace (0 * 16 ^ Z.of_nat 6 + base) with base by lia.
  destruct (Z.leb_spec 0x800000 base) as [H|H]; [lia|].
  reflexivity.
Qed.

(** [target_to_bits] on a mantissa of two significant bytes, shifted: the
    text starts with the high mantissa byte, at least 0x80, and the
    exponent is raised by one. *)
Lemma target_to_bits_narrow_S (base : Z) (k : nat) :
  0x8000 <= base < 0x10000 -> (S k <= 27)%nat ->
  target_to_bits (base * 16 ^ Z.of_nat (2 * S k))
  = Ok (Z.lor (Z.shiftl (Z.of_nat (S k) + 3) 24) base).
Proof.
  intros Hb Hk. unfold target_to_bits.
  rewrite format_shifted by (change (16 ^ 6) with 16777216; lia).
  rewrite strip_zero_bytes_zeros by (rewrite shifted_length; lia).
  assert (strip_zero_bytes (hex_fixed 6 base +:+ zeros_str (2 * S k))
          = (hex_fixed 4 base +:+ "00") +:+ zeros_str (2 * k)) as ->.
  { change 6%nat with (2 + 4)%nat.
    rewrite hex_fixed_app, Z.div_small
      by (change (16 ^ Z.of_nat 4) with 65536; lia).
    change (hex_fixed 2 0) with "00".
    rewrite str_app_assoc, !str_app_cons, str_app_nil_l.
    cbn [strip_zero_bytes String.length].
    rewrite shifted_length.
    replace (6 <? S (S (4 + 2 * S k)))%nat with true
      by (symmetry; apply Nat.ltb_lt; lia).
    cbn [Ascii.eqb Bool.eqb andb].
    change 4%nat with (2 + 2)%nat at 1.
    rewrite hex_fixed_app, str_app_assoc.
    rewrite strip_zero_bytes_stop.
    2:{ change (16 ^ Z.of_nat 2) with 256. split.
        - apply Z.div_str_pos. lia.
        - apply Z.div_lt_upper_bound; lia. }
    rewrite <- str_app_assoc, <- hex_fixed_app.
    replace (2 * S k)%nat with (2 + 2 * k)%nat by lia.
    rewrite zeros_str_add, <- str_app_assoc. reflexivity. }
  rewrite str_slice_to_app
    by (rewrite str_length_app, hex_fixed_length; reflexivity).
  rewrite !str_length_app, hex_fixed_length, zeros_str_length.
  rewrite py_int16_0x
    by (intros E; apply (f_equal String.length) in E;
        rewrite str_length_app, hex_fixed_length in E; discriminate E).
  rewrite hex_digits_value_app, hex_digits_value_fixed.
  cbn [mbind result_bind bind].
  rewrite Z.mod_small by (change (16 ^ Z.of_nat 4) with 65536; lia).
  replace (0 * 16 ^ Z.of_nat 4 + base) with base by lia.
  change (hex_digits_value "00" base) with (Ok (16 * (16 * base + 0) + 0)).
  cbn [mbind result_bind bind].
  destruct (Z.leb_spec 0x800000 (16 * (16 * base + 0) + 0)) as [H|H]; [|lia].
  do 2 f_equal.
  - f_equal.
    change (String.length "00") with 2%nat.
    replace (Z.of_nat (4 + 2 + 2 * k)) with ((Z.of_nat k + 3) * 2) by lia.
    rewrite Z.div_mul by lia. lia.
  - rewrite Z.shiftr_div_pow2 by lia.
    replace (16 * (16 * base + 0) + 0) with (base * 2 ^ 8) by lia.
    apply Z.div_mul. lia.
Qed.

(** C4.  For every 32-bit [b] that [bits_to_target] accepts (exponent byte
    in [0x03, 0x1e], mantissa in [0x8000, 0x7fffff]), converting the target
    back gives [b]: [target_to_bits(bits_to_target(b)) == b]. *)
Theorem target_to_bits_of_bits_to_target (b : Z) :
  0 <= b < 2 ^ 32 ->
  0x03 <= Z.land (Z.shiftr b 24) 0xff <= 0x1e ->
  0x8000 <= Z.land b 0xffffff <= 0x7fffff ->
  (target ← bits_to_target b; target_to_bits target) = Ok b.
Proof.
  intros Hb Hn Hbase. unfold bits_to_target.
  set (n := Z.land (Z.shiftr b 24) 0xff) in *.
  set (base := Z.land b 0xffffff) in *.
  replace ((3 <=? n) && (n <=? 30)) with true
    by (symmetry; apply andb_true_iff; split; apply Z.leb_le; lia).
  replace ((32768 <=? base) && (base <=? 8388607)) with true
    by (symmetry; apply andb_true_iff; split; apply Z.leb_le; lia).
  cbn [negb mbind result_bind bind].
  pose (k := Z.to_nat (n - 3)).
  assert (Z.shiftl base (8 * (n - 3)) = base * 16 ^ Z.of_nat (2 * k)) as ->.
  { rewrite Z.shiftl_mul_pow2 by lia. f_equal.
    change 16 with (2 ^ 4). rewrite <- Z.pow_mul_r by lia.
    f_equal. unfold k. lia. }
  assert (Z.of_nat k + 3 = n) as Hkn by (unfold k; lia).
  assert (k <= 27)%nat as Hk by (unfold k; lia).
  transitivity (Ok (Z.lor (Z.shiftl n 24) base));
    [|f_equal; exact (bits_recompose b Hb)].
  rewrite <- Hkn.
  destruct (Z.lt_ge_cases base 0x10000) as [Hlo|Hhi].
  - destruct k as [|k'].
    + apply target_to_bits_narrow_0. lia.
    + apply target_to_bits_narrow_S; [lia|exact Hk].
  - apply target_to_bits_wide; [lia|exact Hk].
Qed.

Lemma target_to_bits_of_bits_to_target_witness :
  (0 <= 0x1d00ffff < 2 ^ 32
   /\ 0x03 <= Z.land (Z.shiftr 0x1d00ffff 24) 0xff <= 0x1e
   /\ 0x8000 <= Z.land 0x1d00ffff 0xffffff <= 0x7fffff)
  /\ (target ← bits_to_target 0x1d00ffff; target_to_bits target) = Ok 0x1d00ffff.
Proof.
  assert (0 <= 0x1d00ffff < 2 ^ 32) as H1 by (vm_compute; split; congruence).
  assert (0x03 <= Z.land (Z.shiftr 0x1d00ffff 24) 0xff <= 0x1e) as H2
    by (vm_compute; split; congruence).
  assert (0x8000 <= Z.land 0x1d00ffff 0xffffff <= 0x7fffff) as H3
    by (vm_compute; split; congruence).
  split; [auto|].
  exact (target_to_bits_of_bits_to_target 0x1d00ffff H1 H2 H3).
Defined.

(** C6 (as the code has it).  [bits_to_target] fails exactly when the
    exponent byte [n] is outside [0x03, 0x1e] or the mantissa [base] is
    outside [0x8000, 0x7fffff], and returns [base << (8*(n-3))] otherwise;
    every encoding with an exponent above 0x1e is rejected.  The encoding
    of [MAX_TARGET] is [0x1e0fffff]: its exponent is 0x1e, not above it,
    and it is accepted and decodes to [MAX_TARGET]. *)
Theorem bits_to_target_domain (bits : Z) :
  let n := Z.land (Z.shiftr bits 24) 0xff in
  let base := Z.land bits 0xffffff in
  (is_ok (bits_to_target bits) = false
   <-> (n < 0x03 \/ 0x1e < n) \/ (base < 0x8000 \/ 0x7fffff < base))
  /\ (is_ok (bits_to_target bits) = true
      <-> bits_to_target bits = Ok (Z.shiftl base (8 * (n - 3))))
  /\ (0x1e < n -> bits_to_target bits = Raise BitsFirstPart)
  /\ target_to_bits MAX_TARGET = Ok 0x1e0fffff
  /\ bits_to_target 0x1e0fffff = Ok MAX_TARGET.
Proof.
  intros n base.
  split; [|split; [|split; [|split; vm_compute; reflexivity]]].
  all: unfold bits_to_target; fold n base.
  all: destruct (Z.leb_spec 3 n), (Z.leb_spec n 30),
         (Z.leb_spec 32768 base), (Z.leb_spec base 8388607);
       cbn [andb negb is_ok].
  all: try split; intros; first [lia | discriminate | reflexivity].
Qed.

(** C6, the counterexample: the encoding of [MAX_TARGET] has exponent
    0x1e and [bits_to_target] accepts it. *)
Lemma max_target_encoding_accepted :
  target_to_bits MAX_TARGET = Ok 0x1e0fffff
  /\ Z.land (Z.shiftr 0x1e0fffff 24) 0xff = 0x1e
  /\ bits_to_target 0x1e0fffff = Ok MAX_TARGET.
Proof. repeat split; vm_compute; reflexivity. Qed.

(** ** Bytes and their hexadecimal text *)

Lemma bh2u_app (a b : list byte) : bh2u (a ++ b) = bh2u a +:+ bh2u b.
Proof.
  induction a as [|x a IH]; [reflexivity|].
  simpl. rewrite !str_app_cons. now rewrite IH.
Qed.

Lemma bh2u_length (b : list byte) :
  String.length (bh2u b) = (2 * List.length b)%nat.
Proof. induction b as [|x b IH]; simpl; [reflexivity|]. rewrite IH. lia. Qed.

Lemma byte_digits (x : byte) :
  is_space (hex_digit (byte_val x / 16)) = false
  /\ hex_val (hex_digit (byte_val x / 16)) = Some (byte_val x / 16)
  /\ hex_val (hex_digit (byte_val x mod 16)) = Some (byte_val x mod 16)
  /\ byte_of_val (16 * (byte_val x / 16) + byte_val x mod 16) = x.
Proof.
  pose proof (byte_val_range x) as R.
  split; [apply is_space_digit|].
  split; [apply hex_val_digit; split;
          [apply Z.div_pos; lia|apply Z.div_lt_upper_bound; lia]|].
  split; [apply hex_val_digit, Z.mod_pos_bound; lia|].
  rewrite <- Z.div_mod by lia. apply byte_of_val_val.
Qed.

(** Decoding the text of some bytes, whatever follows. *)
Lemma bfh_bh2u_app (bs : list byte) (s : string) :
  bfh (bh2u bs +:+ s) = (b ← bfh s; Ok (bs ++ b)).
Proof.
  induction bs as [|x bs IH].
  - rewrite str_app_nil_l. destruct (bfh s); reflexivity.
  - destruct (byte_digits x) as (E1 & E2 & E3 & E4).
    cbn [bh2u]. rewrite !str_app_cons. cbn [bfh].
    rewrite E1, E2, E3, E4, IH.
    destruct (bfh s); reflexivity.
Qed.

Lemma bfh_bh2u (bs : list byte) : bfh (bh2u bs) = Ok bs.
Proof.
  rewrite <- (str_app_nil_r (bh2u bs)), bfh_bh2u_app.
  cbn. now rewrite app_nil_r.
Qed.

(** A text of pairs of lower-case hexadecimal digits. *)
Fixpoint is_hex_text (s : string) : bool :=
  match s with
  | EmptyString => true
  | String a (String b r) => is_lower_hex a && is_lower_hex b && is_hex_text r
  | String _ EmptyString => false
  end.

Lemma hex_pair_byte (a b : ascii) :
  is_lower_hex a = true -> is_lower_hex b = true ->
  exists x, bh2u [x] = String a (String b "")
            /\ forall r, bfh (String a (String b r))
                         = (bs ← bfh r; Ok (x :: bs)).
Proof.
  intros Ha Hb.
  destruct (lower_hex_inv a Ha) as (va & Ra & Va & Da & Sa).
  destruct (lower_hex_inv b Hb) as (vb & Rb & Vb & Db & Sb).
  exists (byte_of_val (16 * va + vb)).
  assert (byte_val (byte_of_val (16 * va + vb)) = 16 * va + vb) as E
    by (apply byte_val_of_val; lia).
  split.
  - cbn [bh2u]. rewrite E.
    replace ((16 * va + vb) / 16) with va
      by (symmetry; rewrite Z.mul_comm, Z.div_add_l by lia;
          rewrite (Z.div_small vb 16) by lia; lia).
    replace ((16 * va + vb) mod 16) with vb
      by (symmetry; rewrite Z.add_comm, Z.mul_comm, Z.mod_add by lia;
          apply Z.mod_small; lia).
    now rewrite Da, Db.
  - intros r. cbn [bfh]. now rewrite Sa, Va, Vb.
Qed.

(** Such a text is the text of the bytes it decodes to. *)
Lemma bfh_hex_text (s : string) :
  is_hex_text s = true ->
  exists bs, bfh s = Ok bs /\ bh2u bs = s
             /\ (2 * List.length bs = String.length s)%nat.
Proof.
  remember (String.length s) as n eqn:Hn.
  revert s Hn. induction n as [n IH] using lt_wf_ind. intros s Hn Hs.
  destruct s as [|a [|b r]]; [exists []; auto|discriminate Hs|].
  cbn [is_hex_text] in Hs.
  apply andb_true_iff in Hs as [Hab Hr].
  apply andb_true_iff in Hab as [Ha Hb].
  destruct (IH (String.length r) ltac:(subst n; simpl; lia) r eq_refl Hr)
    as (bs & E1 & E2 & E3).
  destruct (hex_pair_byte a b Ha Hb) as (x & X1 & X2).
  exists (x :: bs). rewrite X2, E1. split; [reflexivity|]. split.
  - change (x :: bs) with ([x] ++ bs). rewrite bh2u_app, X1, E2. reflexivity.
  - rewrite Hn. cbn [List.length String.length]. lia.
Qed.

Lemma hex_fixed_hex_text (w : nat) (z : Z) :
  is_hex_text (hex_fixed (2 * w) z) = true.
Proof.
  revert z. induction w as [|w IH]; intros z; [reflexivity|].
  replace (2 * S w)%nat with (2 + 2 * w)%nat by lia.
  rewrite hex_fixed_app, hex_fixed_2, !str_app_cons, str_app_nil_l.
  cbn [is_hex_text]. rewrite !is_lower_hex_digit, IH. reflexivity.
Qed.

(** ** The header codec *)

(** A 32-bit unsigned field. *)
Definition u32 (z : Z) : Prop := 0 <= z < 2 ^ 32.

(** A hash as the program writes it: 64 lower-case hexadecimal digits. *)
Definition hash_text (s : string) : Prop :=
  String.length s = 64%nat /\ is_hex_text s = true.

(** A header whose fields fit the 80-byte form. *)
Record header_ok (h : Header) : Prop := {
  version_u32 : u32 (version h);
  prev_hash_text : exists p, prev_block_hash h = Some p /\ hash_text p;
  merkle_hash_text : hash_text (merkle_root h);
  timestamp_u32 : u32 (timestamp h);
  bits_u32 : u32 (bits h);
  nonce_u32 : u32 (nonce h)
}.

Lemma int_to_hex_u32 (i : Z) :
  u32 i ->
  exists bs, int_to_hex i 4 = Ok (bh2u bs) /\ List.length bs = 4%nat
             /\ hex_to_int bs = Ok i.
Proof.
  intros Hi. unfold u32 in Hi. unfold int_to_hex, py_hex.
  destruct (Z.ltb_spec i 0) as [H|_]; [lia|].
  rewrite (str_slice_from_app "0x" (hex_min i) 2) by reflexivity.
  assert (String.length (hex_min i) = hex_len i) as ->
    by apply hex_fixed_length.
  change (2 * 4)%nat with 8%nat.
  rewrite zeros_hex_min by (change (16 ^ Z.of_nat 8) with (2 ^ 32); lia).
  destruct (bfh_hex_text (hex_fixed 8 i) (hex_fixed_hex_text 4 i))
    as (bs & E1 & E2 & E3).
  rewrite hex_fixed_length in E3.
  exists (rev bs). unfold rev_hex. rewrite E1. split; [reflexivity|].
  split; [rewrite length_rev; lia|].
  unfold hex_to_int. rewrite rev_involutive, E2.
  rewrite py_int16_0x by apply hex_fixed_nonempty.
  rewrite hex_digits_value_fixed. f_equal.
  rewrite Z.mod_small by (change (16 ^ Z.of_nat 8) with (2 ^ 32); lia).
  lia.
Qed.

Lemma rev_hex_hash (s : string) :
  hash_text s ->
  exists bs, rev_hex s = Ok (bh2u bs) /\ List.length bs = 32%nat
             /\ hash_encode bs = s.
Proof.
  intros [Hlen Htext].
  destruct (bfh_hex_text s Htext) as (bs & E1 & E2 & E3).
  exists (rev bs). unfold rev_hex, hash_encode. rewrite E1.
  split; [reflexivity|]. split; [rewrite length_rev; lia|].
  now rewrite rev_involutive.
Qed.

(** A piece of a byte string, addressed by what comes before it. *)
Lemma py_slice_at {A : Type} (l1 l2 l3 s : list A) (a b : Z) :
  s = l1 ++ l2 ++ l3 ->
  a = Z.of_nat (List.length l1) ->
  b = a + Z.of_nat (List.length l2) ->
  py_slice s a b = l2.
Proof.
  intros -> -> ->. rewrite <- Nat2Z.inj_add. apply py_slice_mid.
Qed.

(** The 80 bytes of a well-formed header, field by field. *)
Lemma serialize_header_ok (h : Header) :
  header_ok h ->
  exists v p m t b n pt,
    (s ← serialize_header h; bfh s) = Ok (v ++ p ++ m ++ t ++ b ++ n)
    /\ (List.length v = 4 /\ List.length p = 32 /\ List.length m = 32
        /\ List.length t = 4 /\ List.length b = 4 /\ List.length n = 4)%nat
    /\ hex_to_int v = Ok (version h)
    /\ prev_block_hash h = Some pt /\ hash_encode p = pt
    /\ hash_encode m = merkle_root h
    /\ hex_to_int t = Ok (timestamp h)
    /\ hex_to_int b = Ok (bits h)
    /\ hex_to_int n = Ok (nonce h).
Proof.
  intros [Hv (pt & Hp & Hpt) Hm Ht Hb Hn].
  destruct (int_to_hex_u32 _ Hv) as (v & V1 & V2 & V3).
  destruct (rev_hex_hash _ Hpt) as (p & P1 & P2 & P3).
  destruct (rev_hex_hash _ Hm) as (m & M1 & M2 & M3).
  destruct (int_to_hex_u32 _ Ht) as (t & T1 & T2 & T3).
  destruct (int_to_hex_u32 _ Hb) as (b & B1 & B2 & B3).
  destruct (int_to_hex_u32 _ Hn) as (n & N1 & N2 & N3).
  exists v, p, m, t, b, n, pt.
  unfold serialize_header. rewrite V1, Hp, P1, M1, T1, B1, N1.
  cbn [mbind result_bind bind].
  rewrite <- !bh2u_app, bfh_bh2u.
  repeat split; assumption.
Qed.

Lemma deserialize_header_length (s : list byte) (height_ : Z) :
  blen s <> 80 -> is_ok (deserialize_header s height_) = false.
Proof.
  intros H. unfold deserialize_header.
  destruct s as [|x s]; [reflexivity|].
  destruct (Z.eqb_spec (blen (x :: s)) 80); [contradiction|reflexivity].
Qed.

Lemma deserialize_header_80 (s : list byte) (height_ : Z) :
  List.length s = 80%nat ->
  deserialize_header s height_
  = (v ← hex_to_int (py_slice s 0 4);
     t ← hex_to_int (py_slice s 68 72);
     b ← hex_to_int (py_slice s 72 76);
     n ← hex_to_int (py_slice s 76 80);
     Ok (mkHeader v (Some (hash_encode (py_slice s 4 36)))
                  (hash_encode (py_slice s 36 68)) t b n height_)).
Proof.
  intros L. unfold deserialize_header.
  destruct s as [|x s']; [discriminate L|].
  unfold blen. rewrite L. reflexivity.
Qed.

(** Reading back the 80 bytes of a well-formed header. *)
Lemma deserialize_serialized (h : Header) (height_ : Z) :
  header_ok h ->
  (s ← serialize_header h; b ← bfh s; deserialize_header b height_)
  = Ok (set_block_height h height_).
Proof.
  intros Hh.
  destruct (serialize_header_ok h Hh)
    as (v & p & m & t & b & n & pt & E & L & Ev & Ep & Ep' & Em & Et & Eb & En).
  destruct L as (Lv & Lp & Lm & Lt & Lb & Ln).
  destruct (serialize_header h) as [s|e]; [|discriminate E].
  cbn [mbind result_bind bind] in *. rewrite E.
  cbn [mbind result_bind bind].
  set (raw := v ++ p ++ m ++ t ++ b ++ n).
  assert (List.length raw = 80%nat) as Lraw
    by (unfold raw; rewrite !length_app; lia).
  rewrite (deserialize_header_80 raw height_ Lraw).
  assert (raw = v ++ p ++ m ++ t ++ b ++ n) as Eraw by reflexivity.
  clearbody raw.
  rewrite (py_slice_at [] v (p ++ m ++ t ++ b ++ n) raw 0 4);
    [|now rewrite Eraw|reflexivity|rewrite Lv; reflexivity].
  rewrite (py_slice_at v p (m ++ t ++ b ++ n) raw 4 36);
    [|now rewrite Eraw|rewrite Lv; reflexivity|rewrite Lp; reflexivity].
  rewrite (py_slice_at (v ++ p) m (t ++ b ++ n) raw 36 68);
    [|rewrite Eraw, <- !app_assoc; reflexivity
     |rewrite length_app, Lv, Lp; reflexivity|rewrite Lm; reflexivity].
  rewrite (py_slice_at (v ++ p ++ m) t (b ++ n) raw 68 72);
    [|rewrite Eraw, <- !app_assoc; reflexivity
     |rewrite !length_app, Lv, Lp, Lm; reflexivity|rewrite Lt; reflexivity].
  rewrite (py_slice_at (v ++ p ++ m ++ t) b n raw 72 76);
    [|rewrite Eraw, <- !app_assoc; reflexivity
     |rewrite !length_app, Lv, Lp, Lm, Lt; reflexivity|rewrite Lb; reflexivity].
  rewrite (py_slice_at (v ++ p ++ m ++ t ++ b) n [] raw 76 80);
    [|rewrite Eraw, <- !app_assoc, app_nil_r; reflexivity
     |rewrite !length_app, Lv, Lp, Lm, Lt, Lb; reflexivity
     |rewrite Ln; reflexivity].
  rewrite Ev, Et, Eb, En. cbn [mbind result_bind bind].
  rewrite Ep', Em. unfold set_block_height. rewrite Ep. reflexivity.
Qed.

(** C5 (as the code has it).  For every header whose [version],
    [timestamp], [bits] and [nonce] are 32-bit unsigned and whose
    [prev_block_hash] and [merkle_root] are 64 lower-case hexadecimal
    digits, and for any height, deserializing its 80 serialized bytes
    gives the header back, with [block_height] set to that height; and
    [deserialize_header] fails on every input that is not 80 bytes long. *)
Theorem header_codec_roundtrip (h : Header) (height_ : Z) :
  header_ok h ->
  (s ← serialize_header h; b ← bfh s; deserialize_header b height_)
  = Ok (set_block_height h height_)
  /\ (forall raw, blen raw <> 80 -> is_ok (deserialize_header raw height_) = false).
Proof.
  intros Hh. split.
  - exact (deserialize_serialized h height_ Hh).
  - intros raw Hraw. exact (deserialize_header_length raw height_ Hraw).
Qed.

Definition sample_header : Header :=
  mkHeader 0x20000800
    (Some "00000000000000000000000000000000000000000000000000000000000000ff")
    "ab00000000000000000000000000000000000000000000000000000000000001"
    1500000000 0x1e0fffff 12345 7.

Lemma sample_header_ok : header_ok sample_header.
Proof.
  split.
  - vm_compute; split; congruence.
  - eexists. split; [reflexivity|]. split; reflexivity.
  - split; reflexivity.
  - vm_compute; split; congruence.
  - vm_compute; split; congruence.
  - vm_compute; split; congruence.
Defined.

Lemma header_codec_roundtrip_witness :
  header_ok sample_header
  /\ ((s ← serialize_header sample_header; b ← bfh s; deserialize_header b 7)
      = Ok (set_block_height sample_header 7)
      /\ (forall raw, blen raw <> 80 -> is_ok (deserialize_header raw 7) = false)).
Proof.
  split; [exact sample_header_ok|].
  exact (header_codec_roundtrip sample_header 7 sample_header_ok).
Defined.

(** A hexadecimal digit of either case. *)
Definition is_hex_digit (c : ascii) : bool :=
  match hex_val c with Some _ => true | None => false end.

Definition upper_case_header : Header :=
  mkHeader 1
    (Some "00000000000000000000000000000000000000000000000000000000000000FF")
    "AB00000000000000000000000000000000000000000000000000000000000001"
    2 3 4 0.

(** C5, the counterexample: the fields of [upper_case_header] are 32-bit
    and its two hashes are 64 hexadecimal digits, yet what comes back has
    the hashes in lower case and is a different header. *)
Lemma upper_case_header_not_restored :
  (u32 (version upper_case_header) /\ u32 (timestamp upper_case_header)
   /\ u32 (bits upper_case_header) /\ u32 (nonce upper_case_header))
  /\ (exists p, prev_block_hash upper_case_header = Some p
                /\ String.length p = 64%nat
                /\ forallb is_hex_digit (str_chars p) = true)
  /\ (String.length (merkle_root upper_case_header) = 64%nat
      /\ forallb is_hex_digit (str_chars (merkle_root upper_case_header)) = true)
  /\ exists h',
      (s ← serialize_header upper_case_header; b ← bfh s; deserialize_header b 0)
      = Ok h'
      /\ h' <> set_block_height upper_case_header 0.
Proof.
  split; [repeat split; vm_compute; congruence|].
  split; [eexists; repeat split; reflexivity|].
  split; [split; reflexivity|].
  eexists. split; [vm_compute; reflexivity|].
  intros E. apply (f_equal merkle_root) in E. vm_compute in E. discriminate E.
Qed.

(** ** Algorithm identifiers *)






(** A header with the unlisted tag 0 and one tagged scrypt. *)
Definition unlisted_header : Header :=
  mkHeader 0x20000000 (Some zero_hash) zero_hash 0 0 0 0.
Definition scrypt_header : Header :=
  mkHeader 0x20000800 (Some zero_hash) zero_hash 0 0 0 0.


(** ** The proof-of-work check *)

(** C1 (as the code has it).  On mainnet, for a header tagged scrypt or
    blake whose linkage and bits checks pass, [verify_header] raises
    'insufficient proof of work' exactly when the integer read from
    [pow_hash_header] is strictly greater than the target, and accepts the
    header exactly when it is less than or equal to the target. *)
Theorem verify_header_pow (env : Env) (h : Header) (prev_hash : string)
    (target : Z) (p : string) (pow : Z) :
  TESTNET env = false ->
  algo_tag (version h) = Z.shiftl 1 11 \/ algo_tag (version h) = Z.shiftl 4 11 ->
  pow_hash_header env h = Ok p ->
  py_int16 ("0x" +:+ p) = Ok pow ->
  prev_block_hash h = Some prev_hash ->
  target_to_bits target = Ok (bits h) ->
  (verify_header env h prev_hash target = Raise InsufficientPoW <-> target < pow)
  /\ (verify_header env h prev_hash target = Ok tt <-> pow <= target).
Proof.
  intros Hnet Htag Hp Hpow Hprev Hbits.
  unfold verify_header. rewrite Hp. cbn [mbind result_bind bind].
  rewrite Hprev, bool_decide_eq_true_2 by reflexivity. cbn [negb].
  rewrite Hnet, Hbits. cbn [mbind result_bind bind].
  rewrite Z.eqb_refl. cbn [negb].
  replace ((algo_tag (version h) =? Z.shiftl 1 11)
           || (algo_tag (version h) =? Z.shiftl 4 11)) with true
    by (symmetry; apply orb_true_iff; destruct Htag as [E|E];
        [left|right]; apply Z.eqb_eq; exact E).
  rewrite Hpow. cbn [mbind result_bind bind].
  destruct (Z.ltb_spec target pow) as [Hlt|Hge].
  - split; split; intros H; try reflexivity; try lia; discriminate H.
  - split; split; intros H; try reflexivity; try lia; discriminate H.
Qed.

(** The two digest functions are parameters of the model.  This
    environment fixes both to one 32-byte value, the little-endian bytes
    of 0x8000, so that the boundary between rejection and acceptance can be
    looked at without searching for a header that hashes to it. *)
Definition fixed_digest : list byte := [x00; x80] ++ repeat x00 30.

Definition fixed_digest_env : Env :=
  mkEnv (fun _ => fixed_digest) (fun _ => fixed_digest) false
        "0000000000000000000000000000000000000000000000000000000000000001"
        [] "headers".

(** A scrypt-tagged header that declares the bits of the target 0x8000. *)
Definition boundary_header : Header :=
  mkHeader 0x20000800 (Some zero_hash) zero_hash 1500000000 0x03008000 0 5000.

(** A scrypt-tagged header that declares the bits of the target 0x7fff. *)
Definition short_header : Header :=
  mkHeader 0x20000800 (Some zero_hash) zero_hash 1500000000 0x03007fff 0 5000.

Lemma verify_header_pow_witness :
  (TESTNET fixed_digest_env = false
   /\ (algo_tag (version short_header) = Z.shiftl 1 11
       \/ algo_tag (version short_header) = Z.shiftl 4 11)
   /\ pow_hash_header fixed_digest_env short_header
      = Ok "0000000000000000000000000000000000000000000000000000000000008000"
   /\ py_int16 ("0x" +:+ "0000000000000000000000000000000000000000000000000000000000008000")
      = Ok 0x8000
   /\ prev_block_hash short_header = Some zero_hash
   /\ target_to_bits 0x7fff = Ok (bits short_header))
  /\ ((verify_header fixed_digest_env short_header zero_hash 0x7fff
       = Raise InsufficientPoW <-> 0x7fff < 0x8000)
      /\ (verify_header fixed_digest_env short_header zero_hash 0x7fff
          = Ok tt <-> 0x8000 <= 0x7fff)).
Proof.
  assert (pow_hash_header fixed_digest_env short_header
          = Ok "0000000000000000000000000000000000000000000000000000000000008000")
    as H3 by (vm_compute; reflexivity).
  assert (py_int16 ("0x" +:+ "0000000000000000000000000000000000000000000000000000000000008000")
          = Ok 0x8000) as H4 by (vm_compute; reflexivity).
  assert (target_to_bits 0x7fff = Ok (bits short_header)) as H6
    by (vm_compute; reflexivity).
  split.
  - repeat split; try assumption; try reflexivity. left. reflexivity.
  - exact (verify_header_pow fixed_digest_env short_header zero_hash 0x7fff
             _ 0x8000 eq_refl (or_introl eq_refl) H3 H4 eq_refl H6).
Defined.

(** C1, the counterexample: the hash equals the target, so it is greater
    than or equal to it, and the header is accepted. *)
Lemma pow_equal_to_target_accepted :
  TESTNET fixed_digest_env = false
  /\ algo_tag (version boundary_header) = Z.shiftl 1 11
  /\ prev_block_hash boundary_header = Some zero_hash
  /\ target_to_bits 0x8000 = Ok (bits boundary_header)
  /\ (p ← pow_hash_header fixed_digest_env boundary_header; py_int16 ("0x" +:+ p))
     = Ok 0x8000
  /\ 0x8000 >= 0x8000
  /\ verify_header fixed_digest_env boundary_header zero_hash 0x8000 = Ok tt.
Proof. repeat split; try (vm_compute; reflexivity). vm_compute. discriminate. Qed.

(** ** The chain store *)

(** [swap_with_parent] finds nothing to do for [self]: the chain is the
    main chain, or its parent's branch from the fork point is at least as
    long as the chain. *)
Definition swap_not_due (w : World) (self : ref) (b : Blockchain) : Prop :=
  objs w !! self = Some b
  /\ (parent_id b = None
      \/ exists pid pref pb,
           parent_id b = Some pid
           /\ dict_get (blockchains w) pid = Some pref
           /\ objs w !! pref = Some pb
           /\ _size b <= (checkpoint pb + _size pb - 1) - checkpoint b + 1).

Lemma swap_with_parent_not_due (env : Env) (w : World) (self : ref)
    (b : Blockchain) :
  swap_not_due w self b -> swap_with_parent env self w = (Ok tt, w).
Proof.
  intros [Hself Hcase]. unfold swap_with_parent, bindM, liftR, deref.
  rewrite Hself.
  destruct Hcase as [Hmain|(pid & pref & pb & Hpid & Hreg & Hpb & Hsize)].
  - rewrite Hmain. reflexivity.
  - rewrite Hpid. unfold parent. rewrite Hpid, Hreg.
    unfold height, size, deref. rewrite Hpb, Hself.
    cbn [mbind result_bind bind].
    replace (_size b <=? checkpoint pb + _size pb - 1 - checkpoint b + 1)
      with true by (symmetry; apply Z.leb_le; lia).
    reflexivity.
Qed.

(** C7.  [swap_with_parent] changes nothing when the chain is the main
    chain ([parent_id] is [None]) or when
    [parent_branch_size = parent.height - self.checkpoint + 1] is at least
    the chain's size: the world it leaves (the files, the [checkpoint],
    [parent_id] and [_size] of every chain, the registry) is the world it
    found. *)
Theorem swap_with_parent_changes_nothing (env : Env) (w : World) (self : ref)
    (b : Blockchain) :
  objs w !! self = Some b ->
  (parent_id b = None
   \/ exists pid pref pb,
        parent_id b = Some pid
        /\ dict_get (blockchains w) pid = Some pref
        /\ objs w !! pref = Some pb
        /\ (checkpoint pb + _size pb - 1) - checkpoint b + 1 >= _size b) ->
  swap_with_parent env self w = (Ok tt, w).
Proof.
  intros Hself Hcase. apply (swap_with_parent_not_due env w self b).
  split; [exact Hself|].
  destruct Hcase as [Hmain|(pid & pref & pb & H1 & H2 & H3 & H4)];
    [left; exact Hmain|right].
  exists pid, pref, pb. repeat split; try assumption. lia.
Qed.

(** A main chain of ten headers (object 0) and a fork of three headers
    rooted at height 5 (object 1). *)
Definition main_chain : Blockchain := mkBlockchain 0 None 10 None.
Definition fork_chain : Blockchain := mkBlockchain 5 (Some 0) 3 None.

Definition two_chain_world : World :=
  mkWorld (<[1%nat := fork_chain]> {[0%nat := main_chain]})
          [(0, 0%nat); (5, 1%nat)]
          (<["headers/forks/fork_0_5" := zero_bytes 240]>
             {["headers/blockchain_headers" := zero_bytes 800]})
          true.

Lemma swap_with_parent_changes_nothing_witness :
  (objs two_chain_world !! 1%nat = Some fork_chain
   /\ exists pid pref pb,
        parent_id fork_chain = Some pid
        /\ dict_get (blockchains two_chain_world) pid = Some pref
        /\ objs two_chain_world !! pref = Some pb
        /\ (checkpoint pb + _size pb - 1) - checkpoint fork_chain + 1
           >= _size fork_chain)
  /\ swap_with_parent fixed_digest_env 1%nat two_chain_world
     = (Ok tt, two_chain_world).
Proof.
  assert (objs two_chain_world !! 1%nat = Some fork_chain) as H1
    by (vm_compute; reflexivity).
  assert (exists pid pref pb,
        parent_id fork_chain = Some pid
        /\ dict_get (blockchains two_chain_world) pid = Some pref
        /\ objs two_chain_world !! pref = Some pb
        /\ (checkpoint pb + _size pb - 1) - checkpoint fork_chain + 1
           >= _size fork_chain) as H2.
  { exists 0, 0%nat, main_chain.
    repeat split; try (vm_compute; reflexivity). vm_compute. discriminate. }
  split; [split; assumption|].
  exact (swap_with_parent_changes_nothing fixed_digest_env two_chain_world
           1%nat fork_chain H1 (or_intror H2)).
Defined.

(** C9 (as the code has it).  For every height [h] at or above
    [len(checkpoints) * 2016] other than 0, if [read_header(h)] yields no
    header, [get_hash(h)] does not fail and returns the all-zero hash, the
    [hash_header] of an absent header; so [check_header] compares the hash
    of its header with zeros and [can_connect] compares [prev_block_hash]
    with zeros, and neither sees a missing-header error.  (Height 0 is
    answered with [GENESIS] before the store is looked at.) *)
Theorem get_hash_of_absent_header (env : Env) (w : World) (self : ref) (h : Z) :
  Z.of_nat (List.length (CHECKPOINTS env)) * 2016 <= h ->
  h <> 0 ->
  read_header env w self h = Ok None ->
  get_hash env w self h = Ok zero_hash
  /\ (forall hd x, block_height hd = h -> hash_header env (Some hd) = Ok x ->
        check_header env w self hd = Ok (String.eqb x zero_hash))
  /\ (forall hd, block_height hd = h + 1 ->
        can_connect env w self (Some hd) false
        = Ok (bool_decide (Some zero_hash = prev_block_hash hd))).
Proof.
  intros Hh H0 Hread.
  assert (get_hash env w self h = Ok zero_hash) as E.
  { unfold get_hash.
    destruct (Z.eqb_spec h (-1)) as [E1|_]; [lia|].
    destruct (Z.eqb_spec h 0) as [E0|_]; [contradiction|].
    destruct (Z.ltb_spec h (Z.of_nat (List.length (CHECKPOINTS env)) * 2016));
      [lia|].
    rewrite Hread. reflexivity. }
  split; [exact E|]. split.
  - intros hd x Hhd Hx. unfold check_header.
    rewrite Hx. cbn [mbind result_bind bind]. rewrite Hhd, E. reflexivity.
  - intros hd Hhd. unfold can_connect. cbn [mbind result_bind bind].
    rewrite Hhd.
    destruct (Z.eqb_spec (h + 1) 0) as [E0|_]; [lia|].
    replace (h + 1 - 1) with h by lia. rewrite E.
    destruct (bool_decide (Some zero_hash = prev_block_hash hd)); reflexivity.
Qed.

(** An empty main chain: the file is there and holds nothing. *)
Definition empty_main_world : World :=
  mkWorld {[0%nat := mkBlockchain 0 None 0 None]}
          [(0, 0%nat)]
          {["headers/blockchain_headers" := []]}
          true.

Lemma get_hash_of_absent_header_witness :
  (Z.of_nat (List.length (CHECKPOINTS fixed_digest_env)) * 2016 <= 7
   /\ 7 <> 0
   /\ read_header fixed_digest_env empty_main_world 0%nat 7 = Ok None)
  /\ get_hash fixed_digest_env empty_main_world 0%nat 7 = Ok zero_hash.
Proof.
  assert (Z.of_nat (List.length (CHECKPOINTS fixed_digest_env)) * 2016 <= 7)
    as H1 by (vm_compute; discriminate).
  assert (7 <> 0) as H2 by discriminate.
  assert (read_header fixed_digest_env empty_main_world 0%nat 7 = Ok None)
    as H3 by (vm_compute; reflexivity).
  split; [repeat split; assumption|].
  exact (proj1 (get_hash_of_absent_header fixed_digest_env empty_main_world
                  0%nat 7 H1 H2 H3)).
Defined.

(** C9, the counterexample: with an empty checkpoint table height 0 is at
    or above [len(checkpoints) * 2016]; the empty chain has no header
    there, and [get_hash(0)] is [GENESIS], not the zero hash. *)
Lemma get_hash_zero_is_genesis :
  Z.of_nat (List.length (CHECKPOINTS fixed_digest_env)) * 2016 <= 0
  /\ read_header fixed_digest_env empty_main_world 0%nat 0 = Ok None
  /\ get_hash fixed_digest_env empty_main_world 0%nat 0
     = Ok (GENESIS fixed_digest_env)
  /\ GENESIS fixed_digest_env <> zero_hash.
Proof.
  split; [vm_compute; discriminate|].
  split; [vm_compute; reflexivity|].
  split; [vm_compute; reflexivity|].
  vm_compute. discriminate.
Qed.

(** ** Appending a header and reading it back *)

Lemma serialized_length (h : Header) :
  header_ok h ->
  exists data, (s ← serialize_header h; bfh s) = Ok data
               /\ List.length data = 80%nat.
Proof.
  intros Hh.
  destruct (serialize_header_ok h Hh)
    as (v & p & m & t & b & n & pt & E & L & _).
  destruct L as (Lv & Lp & Lm & Lt & Lb & Ln).
  exists (v ++ p ++ m ++ t ++ b ++ n). split; [exact E|].
  rewrite !length_app. lia.
Qed.

(** Writing 80 bytes at the end of the whole headers of a file. *)
Lemma file_write_append (content data : list byte) (n : Z) :
  n = blen content / 80 -> List.length data = 80%nat ->
  let content' := file_write content (Z.to_nat (n * 80)) data in
  content' = firstn (Z.to_nat (n * 80)) content ++ data
  /\ blen content' / 80 = n + 1
  /\ file_read content' (Z.to_nat (n * 80)) 80 = data.
Proof.
  intros Hn Hd. unfold blen in *.
  pose proof (Z.div_mod (Z.of_nat (List.length content)) 80 ltac:(lia)) as Hdm.
  pose proof (Z.mod_pos_bound (Z.of_nat (List.length content)) 80 ltac:(lia)) as Hr.
  rewrite <- Hn in Hdm.
  assert (0 <= n) as Hn0 by (subst n; apply Z.div_pos; lia).
  set (off := Z.to_nat (n * 80)).
  assert (off <= List.length content)%nat as Hoff by (unfold off; lia).
  assert (List.length content < off + 80)%nat as Hend by (unfold off; lia).
  assert (file_write content off data = firstn off content ++ data) as E.
  { unfold file_write. destruct data as [|x data']; [discriminate Hd|].
    replace (off - List.length content)%nat with 0%nat by lia.
    rewrite drop_ge by (rewrite Hd; lia).
    cbn [zero_bytes repeat]. rewrite app_nil_r. reflexivity. }
  cbv zeta. rewrite E. split; [reflexivity|]. split.
  - rewrite length_app, length_take, Hd.
    replace (Z.of_nat (off `min` List.length content + 80)) with (80 + n * 80)
      by (unfold off; lia).
    rewrite Z.div_add by lia. change (80 `div` 80) with 1. lia.
  - unfold file_read.
    rewrite drop_app_length' by (rewrite length_take; lia).
    rewrite <- Hd. apply firstn_all.
Qed.

(** What [write] does when it appends one header to a file whose size the
    object knows. *)
Lemma write_append (env : Env) (w : World) (self : ref) (b : Blockchain)
    (content data : list byte) :
  objs w !! self = Some b ->
  files w !! path env b = Some content ->
  _size b = blen content / 80 ->
  List.length data = 80%nat ->
  write env self data (_size b * 80) true w
  = (Ok tt,
     mkWorld (<[self := with_size (_size b + 1) b]> (objs w))
             (blockchains w)
             (<[path env b := file_write content (Z.to_nat (_size b * 80)) data]>
                (files w))
             (headers_dir_exists w)).
Proof.
  intros Hself Hfile Hsize Hdata.
  assert (0 <= _size b) as Hs0
    by (rewrite Hsize; apply Z.div_pos; unfold blen; lia).
  destruct (file_write_append content data (_size b) Hsize Hdata)
    as (_ & Hlen & _).
  unfold write, bindM, liftR, deref, assert_headers_file_available.
  rewrite Hself, Hfile.
  destruct (Z.ltb_spec (_size b * 80) 0) as [Hneg|_]; [lia|].
  rewrite Z.eqb_refl. cbn [negb andb].
  unfold modify, update_size, resize, deref, update, deref, set_files, set_objs.
  cbn [objs files blockchains headers_dir_exists mbind result_bind bind].
  rewrite Hself. cbn [mbind result_bind bind].
  rewrite lookup_insert_eq, Hlen. reflexivity.
Qed.

(** Reading a height the chain's own file holds. *)
Lemma read_header_own (env : Env) (depth : nat) (w : World) (self : ref)
    (b : Blockchain) (content raw : list byte) (hgt : Z) :
  objs w !! self = Some b ->
  parent_id b <> Some (checkpoint b) ->
  0 <= hgt ->
  checkpoint b <= hgt <= checkpoint b + _size b - 1 ->
  files w !! path env b = Some content ->
  file_read content (Z.to_nat ((hgt - checkpoint b) * 80)) 80 = raw ->
  List.length raw = 80%nat ->
  raw <> zero_bytes 80 ->
  read_header_rec env (S depth) w self hgt
  = (x ← deserialize_header raw hgt; Ok (Some x)).
Proof.
  intros Hself Hpar H0 Hrange Hfile Hraw Hlen Hnz.
  cbn [read_header_rec]. unfold deref. rewrite Hself.
  cbn [mbind result_bind bind].
  rewrite bool_decide_eq_false_2 by exact Hpar.
  cbn [negb assert mbind result_bind bind].
  destruct (Z.ltb_spec hgt 0) as [?|_]; [lia|].
  destruct (Z.ltb_spec hgt (checkpoint b)) as [?|_]; [lia|].
  unfold height, size, deref. rewrite Hself.
  cbn [mbind result_bind bind].
  destruct (Z.ltb_spec (checkpoint b + _size b - 1) hgt) as [?|_]; [lia|].
  unfold assert_headers_file_available. rewrite Hfile.
  cbn [mbind result_bind bind]. rewrite Hraw.
  unfold blen. rewrite Hlen.
  change (Z.of_nat 80 <? 80) with false. cbv iota.
  unfold is_zero_slot. rewrite bool_decide_eq_false_2 by exact Hnz.
  reflexivity.
Qed.

Lemma set_block_height_same (h : Header) :
  set_block_height h (block_height h) = h.
Proof. destruct h; reflexivity. Qed.

(** C8 (as the code has it).  Take a chain whose [_size] is the number of
    whole headers in its file, and a header [h] with 32-bit fields and
    lower-case 64-digit hashes whose 80 serialized bytes are not all zero,
    with [h.block_height - checkpoint == size].  When no parent swap is due
    after the write, [save_header(h)] returns, [read_header(h.block_height)]
    then returns [h], and [height()] is one more than before. *)
Theorem save_header_then_read (env : Env) (w : World) (self : ref)
    (b : Blockchain) (content : list byte) (h : Header) :
  objs w !! self = Some b ->
  parent_id b <> Some (checkpoint b) ->
  files w !! path env b = Some content ->
  _size b = blen content / 80 ->
  header_ok h ->
  (s ← serialize_header h; bfh s) <> Ok (zero_bytes 80) ->
  0 <= block_height h ->
  block_height h - checkpoint b = _size b ->
  (parent_id b = None
   \/ exists pid pref pb,
        parent_id b = Some pid
        /\ dict_get (blockchains w) pid = Some pref
        /\ pref <> self
        /\ objs w !! pref = Some pb
        /\ (checkpoint pb + _size pb - 1) - checkpoint b + 1 >= _size b + 1) ->
  exists w' hgt,
    save_header env self h w = (Ok tt, w')
    /\ read_header env w' self (block_height h) = Ok (Some h)
    /\ height w self = Ok hgt
    /\ height w' self = Ok (hgt + 1).
Proof.
  intros Hself Hpar Hfile Hsize Hh Hnz H0 Hdelta Hswap.
  destruct (serialized_length h Hh) as (data & Edata & Ldata).
  assert (data <> zero_bytes 80) as Hnz' by (intros ->; exact (Hnz Edata)).
  assert (0 <= _size b) as Hs0
    by (rewrite Hsize; apply Z.div_pos; unfold blen; lia).
  pose proof (write_append env w self b content data Hself Hfile Hsize Ldata)
    as Ewrite.
  destruct (file_write_append content data (_size b) Hsize Ldata)
    as (_ & _ & Eread).
  set (w1 := mkWorld (<[self := with_size (_size b + 1) b]> (objs w))
               (blockchains w)
               (<[path env b := file_write content (Z.to_nat (_size b * 80)) data]>
                  (files w))
               (headers_dir_exists w)) in *.
  assert (objs w1 !! self = Some (with_size (_size b + 1) b)) as Hself1
    by apply lookup_insert_eq.
  assert (swap_with_parent env self w1 = (Ok tt, w1)) as Eswap.
  { apply (swap_with_parent_not_due env w1 self (with_size (_size b + 1) b)).
    split; [exact Hself1|].
    destruct Hswap as [Hmain|(pid & pref & pb & P1 & P2 & P3 & P4 & P5)];
      [left; exact Hmain|right].
    exists pid, pref, pb. split; [exact P1|]. split; [exact P2|].
    split; [|unfold with_size; cbn [_size checkpoint]; lia].
    unfold w1. cbn [objs]. rewrite lookup_insert_ne by congruence. exact P4. }
  exists w1, (checkpoint b + _size b - 1).
  split; [|split; [|split]].
  - unfold save_header, bindM, liftR, deref, size, deref.
    rewrite Hself. cbn [mbind result_bind bind]. rewrite Edata, Hdelta.
    rewrite Z.eqb_refl. cbn [assert]. unfold blen. rewrite Ldata.
    change (Z.of_nat 80 =? 80) with true. cbn [assert].
    fold (bindM (write env self data (_size b * 80) true)
                (fun _ => swap_with_parent env self) w).
    unfold bindM. rewrite Ewrite. exact Eswap.
  - unfold read_header. change recursion_limit with (S 999).
    rewrite (read_header_own env 999 w1 self (with_size (_size b + 1) b)
               (file_write content (Z.to_nat (_size b * 80)) data) data
               (block_height h) Hself1).
    + pose proof (deserialize_serialized h (block_height h) Hh) as E.
      destruct (serialize_header h) as [s|e]; [|discriminate Edata].
      cbn [mbind result_bind bind] in E, Edata. rewrite Edata in E.
      cbn [mbind result_bind bind] in E. rewrite E.
      cbn [mbind result_bind bind]. now rewrite set_block_height_same.
    + exact Hpar.
    + exact H0.
    + unfold with_size. cbn [checkpoint _size]. lia.
    + unfold w1, with_size, path. cbn [files parent_id checkpoint].
      apply lookup_insert_eq.
    + unfold with_size. cbn [checkpoint]. rewrite Hdelta. exact Eread.
    + exact Ldata.
    + exact Hnz'.
  - unfold height, size, deref. rewrite Hself. reflexivity.
  - unfold height, size, deref. rewrite Hself1. unfold with_size.
    cbn [mbind result_bind bind checkpoint _size]. f_equal. lia.
Qed.

Lemma save_header_then_read_witness :
  exists w' hgt,
    save_header fixed_digest_env 0%nat
      (set_block_height sample_header 0) empty_main_world = (Ok tt, w')
    /\ read_header fixed_digest_env w' 0%nat 0
       = Ok (Some (set_block_height sample_header 0))
    /\ height empty_main_world 0%nat = Ok hgt
    /\ height w' 0%nat = Ok (hgt + 1).
Proof.
  assert (header_ok (set_block_height sample_header 0)) as Hok
    by (destruct sample_header_ok; split; assumption).
  refine (save_header_then_read fixed_digest_env empty_main_world 0%nat
            (mkBlockchain 0 None 0 None) [] (set_block_height sample_header 0)
            _ _ _ _ Hok _ _ _ (or_introl eq_refl)).
  - vm_compute; reflexivity.
  - discriminate.
  - vm_compute; reflexivity.
  - vm_compute; reflexivity.
  - vm_compute; discriminate.
  - vm_compute; discriminate.
  - vm_compute; reflexivity.
Defined.

(** The header whose 80 bytes are all zero. *)
Definition all_zero_header : Header :=
  mkHeader 0 (Some zero_hash) zero_hash 0 0 0 0.

(** C8, the counterexample: the all-zero header has 32-bit fields and
    64-digit hashes and satisfies the precondition on the empty main
    chain; [save_header] returns, no swap is due, yet [read_header] takes
    its 80 zero bytes for an empty slot and returns no header. *)
Lemma all_zero_header_reads_as_absent :
  header_ok all_zero_header
  /\ block_height all_zero_header - 0 = 0
  /\ fst (save_header fixed_digest_env 0%nat all_zero_header empty_main_world)
     = Ok tt
  /\ read_header fixed_digest_env
       (snd (save_header fixed_digest_env 0%nat all_zero_header empty_main_world))
       0%nat (block_height all_zero_header)
     = Ok None.
Proof.
  split.
  { split.
    - vm_compute; split; congruence.
    - eexists. split; [reflexivity|]. split; reflexivity.
    - split; reflexivity.
    - vm_compute; split; congruence.
    - vm_compute; split; congruence.
    - vm_compute; split; congruence. }
  split; [reflexivity|].
  split; vm_compute; reflexivity.
Qed.

(** ** Connecting a chunk *)

(** [write] either raises before it touches anything, or returns after
    having written the file and refreshed [_size]. *)
Lemma write_cases (env : Env) (self : ref) (data : list byte) (offset : Z)
    (truncate : bool) (w w1 : World) (r : result unit) :
  write env self data offset truncate w = (r, w1) ->
  (exists e, r = Raise e /\ w1 = w)
  \/ (r = Ok tt
      /\ exists b s, objs w !! self = Some b
                     /\ objs w1 = <[self := with_size s b]> (objs w)
                     /\ blockchains w1 = blockchains w).
Proof.
  unfold write, bindM, liftR, deref, assert_headers_file_available.
  destruct (objs w !! self) as [b|] eqn:Hself;
    [|intros [= <- <-]; left; eauto].
  destruct (files w !! path env b) as [content|] eqn:Hfile.
  2:{ destruct (negb (headers_dir_exists w)); intros [= <- <-]; left; eauto. }
  destruct (offset <? 0); [intros [= <- <-]; left; eauto|].
  unfold modify, update_size, resize, update, deref, set_files, set_objs.
  cbn [objs files blockchains headers_dir_exists mbind result_bind bind].
  rewrite Hself. cbn [mbind result_bind bind].
  intros [= <- <-]. right. split; [reflexivity|].
  eexists b, _. split; [reflexivity|]. split; reflexivity.
Qed.

(** On the main chain [swap_with_parent] returns at once. *)
Lemma swap_with_parent_main (env : Env) (w : World) (self : ref)
    (b : Blockchain) :
  objs w !! self = Some b -> parent_id b = None ->
  swap_with_parent env self w = (Ok tt, w).
Proof.
  intros Hself Hmain. apply (swap_with_parent_not_due env w self b).
  split; [exact Hself|left; exact Hmain].
Qed.

(** C3 (as the code has it).  If [connect_chunk(idx, hexdata)] returns
    false, then either the world is exactly what it was before the call
    (so are [height()] and the bytes of the headers file): this is the
    case whenever decoding, [verify_chunk] or the file check of [write]
    raised, and always on the main chain; or the chunk had been verified
    and written, and it is [swap_with_parent] that raised afterwards.
    Nothing is written before the whole chunk has been verified. *)
Theorem connect_chunk_failure (env : Env) (w w' : World) (self : ref)
    (idx : Z) (hexdata : string) :
  connect_chunk env self idx hexdata w = (false, w') ->
  (w' = w
   \/ exists data chunk d truncate w1 e,
        bfh hexdata = Ok data
        /\ verify_chunk env w self idx data = Ok tt
        /\ write env self chunk d truncate w = (Ok tt, w1)
        /\ swap_with_parent env self w1 = (Raise e, w'))
  /\ (forall b, objs w !! self = Some b -> parent_id b = None -> w' = w)
  /\ (forall data, bfh hexdata = Ok data ->
        is_ok (verify_chunk env w self idx data) = false -> w' = w)
  /\ (is_ok (bfh hexdata) = false -> w' = w).
Proof.
  unfold connect_chunk, bindM, liftR.
  destruct (bfh hexdata) as [data|e0] eqn:Hdec.
  2:{ intros [= <-]. repeat split; auto. }
  destruct (verify_chunk env w self idx data) as [[]|e1] eqn:Hver.
  2:{ intros [= <-]. repeat split; auto. }
  unfold save_chunk, bindM, liftR, deref.
  destruct (objs w !! self) as [b|] eqn:Hself.
  2:{ intros [= <-]. repeat split; auto. }
  match goal with
  | |- context [write env self ?c ?d ?t w] =>
      destruct (write env self c d t w) as [r1 w1] eqn:Ew;
      destruct (write_cases env self c d t w w1 r1 Ew)
        as [(e & -> & ->)|(-> & b' & s & Hb' & Hobjs & Hreg)]
  end.
  { intros [= <-]. repeat split; auto. }
  destruct (swap_with_parent env self w1) as [[[]|e2] w2] eqn:Es.
  { intros [=]. }
  intros [= <-]. split; [|split; [|split]].
  - right. eauto 10.
  - intros b0 Hb0 Hmain. exfalso.
    injection Hb0 as <-. rewrite Hself in Hb'. injection Hb' as <-.
    assert (objs w1 !! self = Some (with_size s b)) as H1
      by (rewrite Hobjs; apply lookup_insert_eq).
    rewrite (swap_with_parent_main env w1 self (with_size s b) H1 Hmain) in Es.
    discriminate Es.
  - intros data0 [= <-] Hfail. rewrite Hver in Hfail. discriminate Hfail.
  - intros Hfail. discriminate Hfail.
Qed.

Lemma connect_chunk_failure_witness :
  connect_chunk fixed_digest_env 0%nat 0 "zz" empty_main_world
  = (false, empty_main_world)
  /\ (empty_main_world = empty_main_world
      \/ exists data chunk d truncate w1 e,
           bfh "zz" = Ok data
           /\ verify_chunk fixed_digest_env empty_main_world 0%nat 0 data = Ok tt
           /\ write fixed_digest_env 0%nat chunk d truncate empty_main_world
              = (Ok tt, w1)
           /\ swap_with_parent fixed_digest_env 0%nat w1
              = (Raise e, empty_main_world)).
Proof.
  assert (connect_chunk fixed_digest_env 0%nat 0 "zz" empty_main_world
          = (false, empty_main_world)) as H by reflexivity.
  split; [exact H|].
  exact (proj1 (connect_chunk_failure fixed_digest_env empty_main_world
                  empty_main_world 0%nat 0 "zz" H)).
Defined.

(** A main chain cut back to two headers (object 0) below a fork of three
    headers rooted at height 5 (object 1): what a shorter chunk 0 connected
    to the main chain leaves behind. *)
Definition short_parent_world : World :=
  mkWorld (<[1%nat := mkBlockchain 5 (Some 0) 3 None]>
             {[0%nat := mkBlockchain 0 None 2 None]})
          [(0, 0%nat); (5, 1%nat)]
          (<["headers/forks/fork_0_5" := repeat x01 240]>
             {["headers/blockchain_headers" := repeat x01 160]})
          true.

(** The same, with the file of the main chain gone from the directory. *)
Definition lost_parent_world : World :=
  mkWorld (objs short_parent_world) (blockchains short_parent_world)
          {["headers/forks/fork_0_5" := repeat x01 240]}
          true.

(** C3, the counterexample: an empty chunk 0 for the fork verifies, the
    write truncates the fork's file to nothing, and [swap_with_parent]
    then raises (a negative read length in the first world, the missing
    file of the parent in the second).  [connect_chunk] returns false,
    the fork's file is empty and its height went from 7 to 4. *)
Lemma connect_chunk_failure_after_write :
  (fst (connect_chunk fixed_digest_env 1%nat 0 "" short_parent_world) = false
   /\ height short_parent_world 1%nat = Ok 7
   /\ height (snd (connect_chunk fixed_digest_env 1%nat 0 "" short_parent_world))
        1%nat = Ok 4
   /\ files short_parent_world !! "headers/forks/fork_0_5" = Some (repeat x01 240)
   /\ files (snd (connect_chunk fixed_digest_env 1%nat 0 "" short_parent_world))
        !! "headers/forks/fork_0_5" = Some [])
  /\ (fst (connect_chunk fixed_digest_env 1%nat 0 "" lost_parent_world) = false
      /\ height lost_parent_world 1%nat = Ok 7
      /\ height (snd (connect_chunk fixed_digest_env 1%nat 0 "" lost_parent_world))
           1%nat = Ok 4
      /\ files lost_parent_world !! "headers/forks/fork_0_5"
         = Some (repeat x01 240)
      /\ files (snd (connect_chunk fixed_digest_env 1%nat 0 "" lost_parent_world))
           !! "headers/forks/fork_0_5" = Some []).
Proof. repeat split; vm_compute; reflexivity. Qed.

(** ** The ancestor walk of [get_target] *)

Lemma deserialize_header_height (s : list byte) (height_ : Z) (x : Header) :
  deserialize_header s height_ = Ok x -> block_height x = height_.
Proof.
  unfold deserialize_header. destruct s as [|y s]; [discriminate|].
  destruct (negb (blen (y :: s) =? 80)); [discriminate|].
  destruct (hex_to_int (py_slice (y :: s) 0 4)); [|discriminate].
  destruct (hex_to_int (py_slice (y :: s) 68 72)); [|discriminate].
  destruct (hex_to_int (py_slice (y :: s) 72 76)); [|discriminate].
  destruct (hex_to_int (py_slice (y :: s) 76 80)); [|discriminate].
  cbn [mbind result_bind bind]. intros [= <-]. reflexivity.
Qed.

Lemma read_header_rec_height (env : Env) (depth : nat) (w : World)
    (self : ref) (height_ : Z) (x : Header) :
  read_header_rec env depth w self height_ = Ok (Some x) ->
  block_height x = height_.
Proof.
  revert self. induction depth as [|depth IH]; intros self; [discriminate|].
  cbn [read_header_rec].
  destruct (deref w self) as [b|]; [|discriminate].
  cbn [mbind result_bind bind].
  destruct (assert _); [|discriminate]. cbn [mbind result_bind bind].
  destruct (height_ <? 0); [discriminate|].
  destruct (height_ <? checkpoint b).
  { destruct (parent w b) as [p|]; [|discriminate]. apply IH. }
  destruct (height w self) as [hgt|]; [|discriminate].
  cbn [mbind result_bind bind].
  destruct (hgt <? height_); [discriminate|].
  destruct (assert_headers_file_available w (path env b)); [|discriminate].
  cbn [mbind result_bind bind].
  destruct (files w !! path env b) as [content|]; [|discriminate].
  destruct (blen _ <? 80); [discriminate|].
  destruct (is_zero_slot _); [discriminate|].
  destruct (deserialize_header _ height_) as [y|] eqn:E; [|discriminate].
  cbn [mbind result_bind bind]. intros [= <-].
  exact (deserialize_header_height _ _ _ E).
Qed.

(** The block the walk looks at for height [c] is the block of height [c]. *)
Lemma walk_block_height (env : Env) (w : World) (self : ref)
    (data : list byte) (index c : Z) (block : Header) :
  walk_block env w self data index c = Ok (Some block) ->
  block_height block = c.
Proof.
  unfold walk_block. destruct (index * 2016 <=? c).
  - destruct (deserialize_header _ c) as [y|] eqn:E; [|discriminate].
    cbn [mbind result_bind bind]. intros [= <-].
    exact (deserialize_header_height _ _ _ E).
  - apply read_header_rec_height.
Qed.

(** What holds of the counter and the collected blocks throughout the
    walk that started at height [h0]: at most 61 blocks, all of the wanted
    algorithm and at heights above both [c] and 100; and when there are 61,
    the last one was taken at height [c + 1]. *)
Definition walk_inv (algo h0 c : Z) (acc : list Header) : Prop :=
  c <= h0
  /\ Z.of_nat (List.length acc) <= 61
  /\ (Z.of_nat (List.length acc) = 61 ->
      exists b, last acc = Some b /\ block_height b = c + 1)
  /\ Forall (fun b => c < block_height b <= h0 /\ 100 < block_height b
                      /\ get_algo b = algo) acc.

Lemma walk_inv_step (algo h0 c : Z) (acc : list Header) (block : Header) :
  walk_inv algo h0 c acc ->
  100 < c -> Z.of_nat (List.length acc) <= N_window ->
  block_height block = c ->
  walk_inv algo h0 (c - 1)
    (if get_algo block =? algo then acc ++ [block] else acc).
Proof.
  intros (Hc & Hlen & Hlast & Hall) H100 Hcond Hb.
  unfold N_window in Hcond.
  assert (Forall (fun b => c - 1 < block_height b <= h0 /\ 100 < block_height b
                           /\ get_algo b = algo) acc) as Hall'.
  { eapply Forall_impl; [exact Hall|]. cbv beta. intros a Ha. lia. }
  destruct (Z.eqb_spec (get_algo block) algo) as [Halgo|Halgo].
  - split; [lia|]. split; [rewrite length_app; cbn [List.length]; lia|].
    split.
    + intros _. exists block. split; [apply last_snoc|lia].
    + apply Forall_app. split; [exact Hall'|].
      constructor; [|constructor]. lia.
  - split; [lia|]. split; [lia|]. split; [lia|exact Hall'].
Qed.

(** The loop equation of the walk: the count of steps it is given covers
    every round the loop can make. *)
Lemma walk_unfold (env : Env) (w : World) (self : ref) (data : list byte)
    (index algo c : Z) (acc : list Header) :
  walk env (Z.to_nat (c - 100)) w self data index algo c acc
  = if (100 <? c) && (Z.of_nat (List.length acc) <=? N_window)
    then
      block ← walk_block env w self data index c;
      match block with
      | None => Raise TypeError
      | Some block =>
          walk env (Z.to_nat (c - 1 - 100)) w self data index algo (c - 1)
            (if get_algo block =? algo then acc ++ [block] else acc)
      end
    else Ok (c, acc).
Proof.
  destruct (Z.ltb_spec 100 c) as [H|H].
  - replace (Z.to_nat (c - 100)) with (S (Z.to_nat (c - 1 - 100))) by lia.
    cbn [walk].
    replace (100 <? c) with true by (symmetry; apply Z.ltb_lt; exact H).
    reflexivity.
  - replace (Z.to_nat (c - 100)) with 0%nat by lia. reflexivity.
Qed.

Lemma walk_result (env : Env) (w : World) (self : ref) (data : list byte)
    (index algo h0 : Z) (steps : nat) :
  forall (c : Z) (acc : list Header) (c' : Z) (acc' : list Header),
    steps = Z.to_nat (c - 100) ->
    walk_inv algo h0 c acc ->
    walk env steps w self data index algo c acc = Ok (c', acc') ->
    walk_inv algo h0 c' acc'
    /\ (c' <= 100 \/ Z.of_nat (List.length acc') = 61).
Proof.
  induction steps as [|steps IH]; intros c acc c' acc' Hsteps Hinv.
  - cbn [walk]. intros [= <- <-]. split; [exact Hinv|left; lia].
  - cbn [walk].
    destruct (Z.ltb_spec 100 c) as [H100|H100];
      [|intros [= <- <-]; split; [exact Hinv|left; lia]].
    destruct (Z.leb_spec (Z.of_nat (List.length acc)) N_window) as [Hlen|Hlen].
    + cbn [andb].
      destruct (walk_block env w self data index c) as [[block|]|] eqn:Hb;
        try discriminate.
      cbn [mbind result_bind bind]. intros Hw.
      eapply IH; [|
        |exact Hw]; [lia|].
      apply walk_inv_step; try assumption.
      exact (walk_block_height _ _ _ _ _ _ _ Hb).
    + cbn [andb]. intros [= <- <-]. split; [exact Hinv|right].
      destruct Hinv as (_ & Hle & _). unfold N_window in Hlen. lia.
Qed.

Lemma ancestor_walk_result (env : Env) (w : World) (self : ref)
    (data : list byte) (index algo h0 c : Z) (blocks : list Header) :
  ancestor_walk env w self data index algo h0 = Ok (c, blocks) ->
  walk_inv algo h0 c blocks
  /\ (c <= 100 \/ Z.of_nat (List.length blocks) = 61).
Proof.
  intros H. apply (walk_result env w self data index algo h0 _ h0 [] c blocks
                     eq_refl); [|exact H].
  split; [lia|]. split; [cbn; lia|]. split; [cbn; lia|constructor].
Qed.

(** The heights the walk visits on its way from [h0] down to just above
    [c]: [h0, h0 - 1, ..., c + 1]. *)
Definition heights_down (h0 c : Z) : list Z :=
  map (fun n => h0 - Z.of_nat n) (seq 0 (Z.to_nat (h0 - c))).

Lemma heights_down_nil (h0 c : Z) : h0 <= c -> heights_down h0 c = [].
Proof.
  intros H. unfold heights_down.
  replace (Z.to_nat (h0 - c)) with 0%nat by lia. reflexivity.
Qed.

Lemma heights_down_cons (h0 c : Z) :
  c < h0 -> heights_down h0 c = h0 :: heights_down (h0 - 1) c.
Proof.
  intros H. unfold heights_down.
  replace (Z.to_nat (h0 - c)) with (S (Z.to_nat (h0 - 1 - c))) by lia.
  cbn [seq map]. f_equal; [lia|].
  rewrite <- seq_shift, map_map. apply map_ext. intros n. lia.
Qed.

(** What the walk has done when it returns: it went down from [c] to
    [c'], never below height 100, read the header of every height on the
    way, and appended those of the wanted algorithm, in that order. *)
Lemma walk_visited (env : Env) (w : World) (self : ref) (data : list byte)
    (index algo : Z) (steps : nat) :
  forall (c : Z) (acc : list Header) (c' : Z) (acc' : list Header),
    steps = Z.to_nat (c - 100) ->
    walk env steps w self data index algo c acc = Ok (c', acc') ->
    c' <= c
    /\ (c' <= 100 -> c' = Z.min c 100)
    /\ exists visited,
         Forall2 (fun h b => walk_block env w self data index h = Ok (Some b)
                             /\ block_height b = h)
           (heights_down c c') visited
         /\ acc' = acc ++ filter (fun b => get_algo b = algo) visited.
Proof.
  induction steps as [|steps IH]; intros c acc c' acc' Hsteps.
  - cbn [walk]. intros [= <- <-]. split; [lia|]. split; [lia|].
    exists []. rewrite heights_down_nil by lia.
    split; [constructor|]. now rewrite app_nil_r.
  - cbn [walk].
    destruct (Z.ltb_spec 100 c) as [H100|H100]; [|exfalso; lia].
    destruct (Z.leb_spec (Z.of_nat (List.length acc)) N_window) as [Hlen|Hlen];
      cbn [andb].
    + destruct (walk_block env w self data index c) as [[block|]|] eqn:Hb;
        try discriminate.
      cbn [mbind result_bind bind]. intros Hw.
      destruct (IH (c - 1) _ c' acc' ltac:(lia) Hw) as (Hle & Hmin & visited & Hv & Hacc).
      split; [lia|]. split; [lia|].
      exists (block :: visited). rewrite heights_down_cons by lia.
      split.
      { constructor; [|exact Hv].
        split; [exact Hb|exact (walk_block_height _ _ _ _ _ _ _ Hb)]. }
      rewrite Hacc, filter_cons.
      destruct (Z.eqb_spec (get_algo block) algo) as [E|E];
        destruct (decide (get_algo block = algo)) as [E'|E'];
        try contradiction.
      * now rewrite <- app_assoc.
      * reflexivity.
    + intros [= <- <-]. split; [lia|]. split; [lia|].
      exists []. rewrite heights_down_nil by lia.
      split; [constructor|]. now rewrite app_nil_r.
Qed.

(** The walk returns whenever the header of every height it may visit can
    be read. *)
Lemma walk_completes (env : Env) (w : World) (self : ref) (data : list byte)
    (index algo : Z) (steps : nat) :
  forall (c : Z) (acc : list Header),
    (forall h, 100 < h <= c ->
       exists b, walk_block env w self data index h = Ok (Some b)) ->
    exists c' acc', walk env steps w self data index algo c acc = Ok (c', acc').
Proof.
  induction steps as [|steps IH]; intros c acc Hread; [cbn; eauto|].
  cbn [walk].
  destruct (Z.ltb_spec 100 c) as [H100|H100]; [|cbn; eauto].
  destruct (Z.of_nat (List.length acc) <=? N_window); [|cbn; eauto].
  cbn [andb]. destruct (Hread c ltac:(lia)) as [block ->].
  cbn [mbind result_bind bind]. apply IH. intros h Hh. apply Hread. lia.
Qed.

Lemma filter_all {A : Type} (P : A -> Prop) `{forall x, Decision (P x)}
    (l : list A) :
  Forall P l -> filter P l = l.
Proof.
  induction 1 as [|x l Hx _ IH]; [reflexivity|].
  rewrite filter_cons. destruct (decide (P x)); [|contradiction].
  now rewrite IH.
Qed.

(** C2 (as the code has it).  The walk from [height - 1] returns whenever
    the header of every height above 100 and below [height] can be read.
    When it returns the counter [c] and the list [blocks], the list holds
    exactly the headers of the heights [height - 1] down to [c + 1] that
    have the algorithm of the header at [height], each the header the
    chunk or the store gives at its height and each once, in that order;
    the walk does not go below height 100.  [get_target] returns [get_targetv1(height)]
    exactly when [c <= 100], which is the case exactly when fewer than 61
    of these ancestors lie at height 102 or above, that is when fewer
    than 61 were collected or the 61st is the header at height 101; it
    returns the windowed value exactly when 61 ancestors were collected
    and the 61st lies at height 102 or above. *)
Theorem get_target_path (env : Env) (w : World) (self : ref)
    (data : list byte) (counter index : Z) (cBlock : Header) :
  let height_ := index * 2016 + counter in
  let algo := get_algo cBlock in
  deserialize_header (py_slice data (counter * 80) ((counter + 1) * 80)) height_
  = Ok cBlock ->
  ((forall h, 100 < h < height_ ->
      exists b, walk_block env w self data index h = Ok (Some b)) ->
   exists c blocks,
     ancestor_walk env w self data index algo (height_ - 1) = Ok (c, blocks))
  /\ forall (c : Z) (blocks : list Header),
       ancestor_walk env w self data index algo (height_ - 1)
       = Ok (c, blocks) ->
       (get_target env w self data counter index
        = if c <=? 100 then get_targetv1 env w self height_
          else windowed_target height_ blocks)
       /\ (exists visited,
             Forall2
               (fun h b => walk_block env w self data index h = Ok (Some b)
                           /\ block_height b = h)
               (heights_down (height_ - 1) c) visited
             /\ blocks = filter (fun b => get_algo b = algo) visited)
       /\ (c <= 100 -> c = Z.min (height_ - 1) 100)
       /\ (c <= 100
           <-> (List.length
                  (filter (fun b => (102 <= block_height b)%Z) blocks)
                < 61)%nat)
       /\ (c <= 100
           <-> (List.length blocks < 61)%nat
               \/ exists b, last blocks = Some b /\ block_height b = 101)
       /\ (100 < c
           <-> List.length blocks = 61%nat
               /\ exists b, last blocks = Some b /\ 102 <= block_height b)
       /\ Forall (fun b => 100 < block_height b < height_
                           /\ get_algo b = algo) blocks.
Proof.
  intros height_ algo Hc. split.
  { intros Hread. unfold ancestor_walk. apply walk_completes.
    intros h Hh. apply Hread. lia. }
  intros c blocks Hwalk.
  destruct (ancestor_walk_result env w self data index _ _ c blocks Hwalk)
    as ((Hle & Hlen & Hlast & Hall) & Hexit).
  destruct (walk_visited env w self data index algo _ _ [] c blocks eq_refl
              Hwalk) as (_ & Hmin & visited & Hv & Hacc).
  split; [|split; [|split; [|split; [|split; [|split]]]]].
  - unfold get_target. fold height_. rewrite Hc.
    cbn [mbind result_bind bind]. fold algo. rewrite Hwalk. reflexivity.
  - exists visited. split; [exact Hv|exact Hacc].
  - exact Hmin.
  - split.
    + intros H100.
      destruct (Z.eq_dec (Z.of_nat (List.length blocks)) 61) as [E|E].
      * destruct (Hlast E) as (b & Hb & Hh).
        apply last_Some in Hb as [front ->].
        rewrite filter_app, filter_cons, filter_nil.
        destruct (decide (102 <= block_height b)); [lia|].
        rewrite app_nil_r. rewrite length_app in E. cbn [List.length] in E.
        pose proof (length_filter (fun b => 102 <= block_height b) front).
        lia.
      * pose proof (length_filter (fun b => 102 <= block_height b) blocks).
        lia.
    + intros Hcount.
      destruct (Z.le_gt_cases c 100) as [H|H]; [exact H|exfalso].
      destruct Hexit as [?|E]; [lia|].
      rewrite filter_all in Hcount; [lia|].
      eapply Forall_impl; [exact Hall|]. cbv beta. intros b Hb. lia.
  - split.
    + intros H100.
      destruct (Z.eq_dec (Z.of_nat (List.length blocks)) 61) as [E|E];
        [right|left; lia].
      destruct (Hlast E) as (b & Hb & Hh). exists b. split; [exact Hb|].
      apply last_Some_elem_of in Hb.
      rewrite Forall_forall in Hall. specialize (Hall b Hb). lia.
    + intros [Hshort|(b & Hb & Hh)]; [lia|].
      destruct (Z.le_gt_cases c 100) as [H|H]; [exact H|exfalso].
      destruct Hexit as [?|E]; [lia|].
      destruct (Hlast E) as (b' & Hb' & Hh').
      rewrite Hb in Hb'. injection Hb' as <-. lia.
  - split.
    + intros H100. destruct Hexit as [?|E]; [lia|].
      split; [lia|]. destruct (Hlast E) as (b & Hb & Hh).
      exists b. split; [exact Hb|lia].
    + intros (E & b & Hb & Hh).
      destruct (Hlast ltac:(lia)) as (b' & Hb' & Hh').
      rewrite Hb in Hb'. injection Hb' as <-. lia.
  - eapply Forall_impl; [exact Hall|]. cbv beta. intros b Hb. lia.
Qed.

(** A scrypt-tagged header with the bits of [MAX_TARGET], its 80 bytes,
    and chunks made of copies of it. *)
Definition window_header : Header :=
  mkHeader 0x20000800 (Some zero_hash) zero_hash 1500000000 0x1e0fffff 0 0.

Definition window_header_bytes : list byte :=
  match (s ← serialize_header window_header; bfh s) with
  | Ok b => b
  | Raise _ => []
  end.

Definition chunk_of (n : nat) : list byte :=
  List.concat (repeat window_header_bytes n).

(** The copies at the 61 heights from [top] downwards. *)
Definition blocks_below (top : Z) : list Header :=
  map (fun n => set_block_height window_header (top - Z.of_nat n)) (seq 0 61).

Lemma get_target_path_witness :
  deserialize_header (py_slice (chunk_of 171) (170 * 80) ((170 + 1) * 80))
    (0 * 2016 + 170)
  = Ok (set_block_height window_header 170)
  /\ ancestor_walk fixed_digest_env empty_main_world 0%nat (chunk_of 171) 0
       (get_algo (set_block_height window_header 170)) (0 * 2016 + 170 - 1)
     = Ok (108, blocks_below 169)
  /\ get_target fixed_digest_env empty_main_world 0%nat (chunk_of 171) 170 0
     = windowed_target (0 * 2016 + 170) (blocks_below 169).
Proof.
  assert (deserialize_header
            (py_slice (chunk_of 171) (170 * 80) ((170 + 1) * 80)) (0 * 2016 + 170)
          = Ok (set_block_height window_header 170)) as H1
    by (vm_compute; reflexivity).
  assert (ancestor_walk fixed_digest_env empty_main_world 0%nat (chunk_of 171) 0
            (get_algo (set_block_height window_header 170)) (0 * 2016 + 170 - 1)
          = Ok (108, blocks_below 169)) as H2
    by (vm_compute; reflexivity).
  split; [exact H1|]. split; [exact H2|].
  exact (proj1 (proj2 (get_target_path fixed_digest_env empty_main_world 0%nat
                         (chunk_of 171) 170 0 _ H1)
                  108 (blocks_below 169) H2)).
Defined.

(** An environment whose checkpoint table has a row for index 162. *)
Definition checkpointed_env : Env :=
  mkEnv (fun _ => fixed_digest) (fun _ => fixed_digest) false
        "0000000000000000000000000000000000000000000000000000000000000001"
        (repeat ("", 12345, 0) 163) "headers".

(** C2, the counterexample: at height 162 the walk collects 61
    same-algorithm ancestors, at heights 161 down to 101, all above height
    100, and stops with [c = 100]; [get_target] returns the legacy value
    12345 and not the value of the window over these 61 ancestors. *)
Lemma legacy_target_with_full_window :
  ancestor_walk checkpointed_env empty_main_world 0%nat (chunk_of 163) 0
    (get_algo window_header) 161
  = Ok (100, blocks_below 161)
  /\ List.length (blocks_below 161) = 61%nat
  /\ forallb (fun b => 100 <? block_height b) (blocks_below 161) = true
  /\ get_target checkpointed_env empty_main_world 0%nat (chunk_of 163) 162 0
     = Ok 12345
  /\ get_targetv1 checkpointed_env empty_main_world 0%nat 162 = Ok 12345
  /\ windowed_target 162 (blocks_below 161)
     = Ok 11042783623635719879221530928951888773408270962871242245957691490959360.
Proof. repeat split; vm_compute; reflexivity. Qed.


(** The walk at work on a chunk of index 1 whose first header carries the
    unlisted tag 0, for a header tagged scrypt: the block is collected. *)
Definition unlisted_header_bytes : list byte :=
  match (s ← serialize_header unlisted_header; bfh s) with
  | Ok b => b
  | Raise _ => []
  end.

Example walk_collects_unlisted_block :
  walk fixed_digest_env 1 empty_main_world 0%nat unlisted_header_bytes 1
    (get_algo scrypt_header) 2016 []
  = Ok (2015, [set_block_height unlisted_header 2016]).
Proof. vm_compute. reflexivity. Qed.

(* ===================================================================== *)
(** * Further properties of the header codec *)
(* ===================================================================== *)

Section MoreSliceFacts.
Context {A : Type}.
Implicit Types l : list A.

Lemma py_slice_inside l (a b : Z) :
  0 <= a <= b -> b <= Z.of_nat (List.length l) ->
  py_slice l a b = firstn (Z.to_nat (b - a)) (skipn (Z.to_nat a) l).
Proof.
  intros Ha Hb. unfold py_slice. rewrite !clip_index_inside by lia.
  reflexivity.
Qed.

Lemma py_slice_length l (a b : Z) :
  0 <= a <= b -> b <= Z.of_nat (List.length l) ->
  List.length (py_slice l a b) = Z.to_nat (b - a).
Proof.
  intros Ha Hb. rewrite py_slice_inside by assumption.
  rewrite length_take, length_drop. lia.
Qed.

Lemma take_add_split l (n m : nat) :
  firstn (n + m) l = firstn n l ++ firstn m (skipn n l).
Proof.
  revert l. induction n as [|n IH]; intros l; [reflexivity|].
  destruct l as [|x l]; [now destruct m|].
  cbn. f_equal. apply IH.
Qed.

(** Two adjacent slices make one. *)
Lemma py_slice_cat l (a b c : Z) :
  0 <= a <= b -> b <= c -> c <= Z.of_nat (List.length l) ->
  py_slice l a b ++ py_slice l b c = py_slice l a c.
Proof.
  intros Ha Hb Hc. rewrite !py_slice_inside by lia.
  replace (Z.to_nat (c - a)) with (Z.to_nat (b - a) + Z.to_nat (c - b))%nat by lia.
  rewrite take_add_split, drop_drop.
  replace (Z.to_nat a + Z.to_nat (b - a))%nat with (Z.to_nat b) by lia.
  reflexivity.
Qed.
End MoreSliceFacts.

(** A text of lower-case hexadecimal digits, of any length. *)
Fixpoint lower_hex_str (s : string) : bool :=
  match s with
  | EmptyString => true
  | String c r => is_lower_hex c && lower_hex_str r
  end.

Lemma bh2u_lower_hex (bs : list byte) : lower_hex_str (bh2u bs) = true.
Proof.
  induction bs as [|x bs IH]; [reflexivity|].
  cbn [bh2u lower_hex_str]. now rewrite !is_lower_hex_digit, IH.
Qed.

Lemma bh2u_hex_text (bs : list byte) : is_hex_text (bh2u bs) = true.
Proof.
  induction bs as [|x bs IH]; [reflexivity|].
  cbn [bh2u is_hex_text]. now rewrite !is_lower_hex_digit, IH.
Qed.

(** The fixed-width text only depends on the value modulo [16^w]. *)
Lemma hex_fixed_mod (w : nat) (z m : Z) :
  hex_fixed w (z + m * 16 ^ Z.of_nat w) = hex_fixed w z.
Proof.
  revert z m. induction w as [|w IH]; intros z m; [reflexivity|].
  rewrite !hex_fixed_snoc.
  rewrite Nat2Z.inj_succ, Z.pow_succ_r by lia.
  replace (z + m * (16 * 16 ^ Z.of_nat w))
    with (z + (m * 16 ^ Z.of_nat w) * 16) by lia.
  rewrite Z.div_add, Z.mod_add by lia. now rewrite IH.
Qed.

(** Reading a lower-case text as a number and writing the number back on
    the same width gives the text. *)
Lemma hex_text_value (s : string) :
  lower_hex_str s = true ->
  exists v, 0 <= v < 16 ^ Z.of_nat (String.length s)
            /\ (forall acc, hex_digits_value s acc
                            = Ok (acc * 16 ^ Z.of_nat (String.length s) + v))
            /\ hex_fixed (String.length s) v = s.
Proof.
  induction s as [|c r IH]; intros Hs.
  - exists 0. split; [cbn; lia|]. split; [|reflexivity].
    intros acc. cbn. f_equal. lia.
  - cbn [lower_hex_str] in Hs. apply andb_true_iff in Hs as [Hc Hr].
    destruct (IH Hr) as (vr & Rr & Vr & Fr).
    destruct (lower_hex_inv c Hc) as (vc & Rc & Vc & Dc & _).
    set (n := String.length r) in *.
    assert (0 < 16 ^ Z.of_nat n) as Hpow by (apply Z.pow_pos_nonneg; lia).
    exists (vc * 16 ^ Z.of_nat n + vr).
    cbn [String.length]. fold n.
    rewrite Nat2Z.inj_succ, Z.pow_succ_r by lia.
    split; [nia|]. split.
    + intros acc. cbn [hex_digits_value]. rewrite Vc, Vr. f_equal. lia.
    + change (S n) with (1 + n)%nat. rewrite hex_fixed_app.
      rewrite Z.add_comm, hex_fixed_mod, Fr.
      rewrite Z.div_add, Z.div_small by lia.
      unfold hex_fixed. cbn [hex_fixed_acc].
      rewrite Z.add_0_l, Z.mod_small by lia. rewrite Dc. reflexivity.
Qed.

(** [int_to_hex] of a 32-bit value is the byte-reversed 8-digit text. *)
Lemma int_to_hex_fixed (i : Z) :
  u32 i -> int_to_hex i 4 = rev_hex (hex_fixed 8 i).
Proof.
  intros Hi. unfold u32 in Hi. unfold int_to_hex, py_hex.
  destruct (Z.ltb_spec i 0) as [H|_]; [lia|].
  rewrite (str_slice_from_app "0x" (hex_min i) 2) by reflexivity.
  assert (String.length (hex_min i) = hex_len i) as ->
    by apply hex_fixed_length.
  change (2 * 4)%nat with 8%nat.
  rewrite zeros_hex_min by (change (16 ^ Z.of_nat 8) with (2 ^ 32); lia).
  reflexivity.
Qed.

(** A 32-bit field read from four bytes is written back as these bytes. *)
Lemma hex_to_int_4 (bs : list byte) :
  List.length bs = 4%nat ->
  exists v, hex_to_int bs = Ok v /\ u32 v /\ int_to_hex v 4 = Ok (bh2u bs).
Proof.
  intros L. unfold hex_to_int.
  destruct (hex_text_value (bh2u (rev bs)) (bh2u_lower_hex _))
    as (v & R & V & F).
  rewrite bh2u_length, length_rev, L in R, V, F.
  change (2 * 4)%nat with 8%nat in *.
  exists v. split.
  - rewrite py_int16_0x, V; [f_equal; lia|].
    intros E. apply (f_equal String.length) in E.
    rewrite bh2u_length, length_rev, L in E. discriminate E.
  - assert (u32 v) as Hu by (unfold u32; change (2 ^ 32) with (16 ^ Z.of_nat 8); lia).
    split; [exact Hu|].
    rewrite (int_to_hex_fixed v Hu), F. unfold rev_hex.
    rewrite bfh_bh2u. cbn [mbind result_bind bind].
    now rewrite rev_involutive.
Qed.

Lemma rev_hex_hash_encode (bs : list byte) :
  rev_hex (hash_encode bs) = Ok (bh2u bs).
Proof.
  unfold rev_hex, hash_encode. rewrite bfh_bh2u.
  cbn [mbind result_bind bind]. now rewrite rev_involutive.
Qed.

Lemma hash_encode_text (bs : list byte) :
  List.length bs = 32%nat -> hash_text (hash_encode bs).
Proof.
  intros L. unfold hash_text, hash_encode. split.
  - rewrite bh2u_length, length_rev, L. reflexivity.
  - apply bh2u_hex_text.
Qed.

(** Every string of 80 bytes is the form of a well-formed header. *)
Lemma serialize_deserialized (raw : list byte) (height_ : Z) :
  List.length raw = 80%nat ->
  exists h, deserialize_header raw height_ = Ok h
            /\ header_ok h /\ block_height h = height_
            /\ (s ← serialize_header h; bfh s) = Ok raw.
Proof.
  intros L.
  assert (Z.of_nat (List.length raw) = 80) as LZ by lia.
  rewrite (deserialize_header_80 raw height_ L).
  destruct (hex_to_int_4 (py_slice raw 0 4)) as (v & Ev & Uv & Sv);
    [rewrite py_slice_length by lia; reflexivity|].
  destruct (hex_to_int_4 (py_slice raw 68 72)) as (t & Et & Ut & St);
    [rewrite py_slice_length by lia; reflexivity|].
  destruct (hex_to_int_4 (py_slice raw 72 76)) as (b & Eb & Ub & Sb);
    [rewrite py_slice_length by lia; reflexivity|].
  destruct (hex_to_int_4 (py_slice raw 76 80)) as (n & En & Un & Sn);
    [rewrite py_slice_length by lia; reflexivity|].
  rewrite Ev, Et, Eb, En. cbn [mbind result_bind bind].
  eexists. split; [reflexivity|]. split; [|split; [reflexivity|]].
  - split; cbn [version prev_block_hash merkle_root timestamp bits nonce];
      try assumption.
    + eexists. split; [reflexivity|]. apply hash_encode_text.
      rewrite py_slice_length by lia. reflexivity.
    + apply hash_encode_text. rewrite py_slice_length by lia. reflexivity.
  - unfold serialize_header.
    cbn [version prev_block_hash merkle_root timestamp bits nonce].
    rewrite Sv, St, Sb, Sn, !rev_hex_hash_encode.
    cbn [mbind result_bind bind].
    rewrite <- !bh2u_app, bfh_bh2u. f_equal.
    rewrite (py_slice_cat raw 72 76 80), (py_slice_cat raw 68 72 80),
      (py_slice_cat raw 36 68 80), (py_slice_cat raw 4 36 80),
      (py_slice_cat raw 0 4 80) by lia.
    rewrite <- LZ. apply py_slice_whole.
Qed.

(** X1.  [deserialize_header] accepts every string of exactly 80 bytes, at
    any height, and [serialize_header] of the header it returns gives these
    80 bytes back. *)
Theorem deserialize_then_serialize (raw : list byte) (height_ : Z) :
  List.length raw = 80%nat ->
  exists h, deserialize_header raw height_ = Ok h
            /\ block_height h = height_
            /\ (s ← serialize_header h; bfh s) = Ok raw.
Proof.
  intros L.
  destruct (serialize_deserialized raw height_ L) as (h & E & _ & Hh & S).
  exists h. auto.
Qed.

Lemma deserialize_then_serialize_witness :
  List.length (repeat x2a 80) = 80%nat
  /\ exists h, deserialize_header (repeat x2a 80) 12 = Ok h
               /\ block_height h = 12
               /\ (s ← serialize_header h; bfh s) = Ok (repeat x2a 80).
Proof.
  split; [reflexivity|].
  exact (deserialize_then_serialize (repeat x2a 80) 12 eq_refl).
Defined.

(** X2.  Two well-formed headers with the same serialization have the same
    six wire fields: they differ at most in [block_height], which is not
    serialized. *)
Theorem serialize_header_injective (h1 h2 : Header) :
  header_ok h1 -> header_ok h2 ->
  serialize_header h1 = serialize_header h2 ->
  set_block_height h1 0 = set_block_height h2 0.
Proof.
  intros H1 H2 E.
  pose proof (deserialize_serialized h1 0 H1) as E1.
  pose proof (deserialize_serialized h2 0 H2) as E2.
  rewrite E, E2 in E1. congruence.
Qed.

Lemma serialize_header_injective_witness :
  (header_ok sample_header /\ header_ok (set_block_height sample_header 99)
   /\ serialize_header sample_header
      = serialize_header (set_block_height sample_header 99))
  /\ set_block_height sample_header 0
     = set_block_height (set_block_height sample_header 99) 0.
Proof.
  assert (header_ok (set_block_height sample_header 99)) as H2
    by (destruct sample_header_ok; split; assumption).
  split; [split; [exact sample_header_ok|split; [exact H2|reflexivity]]|].
  exact (serialize_header_injective sample_header
           (set_block_height sample_header 99) sample_header_ok H2 eq_refl).
Defined.

(** X3.  The hashes of a header decoded from 80 bytes are digests of these
    very bytes: [hash_header] is the scrypt digest of the 80 bytes, and
    [pow_hash_header] is their BLAKE2s digest for the blake tag and their
    scrypt digest for every other tag. *)
Theorem hash_of_decoded_header (env : Env) (raw : list byte) (height_ : Z)
    (h : Header) :
  deserialize_header raw height_ = Ok h ->
  hash_header env (Some h) = Ok (hash_encode (getPoWHash env raw))
  /\ pow_hash_header env h
     = Ok (hash_encode ((if algo_tag (version h) =? Z.shiftl 4 11
                         then cblake env else getPoWHash env) raw)).
Proof.
  intros E.
  assert (List.length raw = 80%nat) as L.
  { destruct (Nat.eq_dec (List.length raw) 80%nat) as [L|L]; [exact L|exfalso].
    pose proof (deserialize_header_length raw height_) as F.
    rewrite E in F. assert (blen raw <> 80) as N by (unfold blen; lia).
    specialize (F N). discriminate F. }
  destruct (serialize_deserialized raw height_ L) as (h' & E' & Hok & _ & S).
  rewrite E in E'. injection E' as <-.
  destruct Hok as [_ (p & Hp & _) _ _ _ _].
  split.
  - unfold hash_header. rewrite Hp.
    destruct (serialize_header h) as [s|e]; [|discriminate S].
    cbn [mbind result_bind bind] in *. now rewrite S.
  - unfold pow_hash_header.
    destruct (algo_tag (version h) =? Z.shiftl 4 11);
      (destruct (serialize_header h) as [s|e]; [|discriminate S]);
      cbn [mbind result_bind bind] in *; now rewrite S.
Qed.

Lemma hash_of_decoded_header_witness :
  deserialize_header window_header_bytes 3 = Ok (set_block_height window_header 3)
  /\ hash_header fixed_digest_env (Some (set_block_height window_header 3))
     = Ok (hash_encode (getPoWHash fixed_digest_env window_header_bytes)).
Proof.
  assert (deserialize_header window_header_bytes 3
          = Ok (set_block_height window_header 3)) as H
    by (vm_compute; reflexivity).
  split; [exact H|].
  exact (proj1 (hash_of_decoded_header fixed_digest_env window_header_bytes 3
                  _ H)).
Defined.

(* ===================================================================== *)
(** * Further properties of the target engine *)
(* ===================================================================== *)

Lemma bits_to_target_inv (bits_ t : Z) :
  bits_to_target bits_ = Ok t ->
  let n := Z.land (Z.shiftr bits_ 24) 0xff in
  let base := Z.land bits_ 0xffffff in
  3 <= n <= 0x1e /\ 0x8000 <= base <= 0x7fffff
  /\ t = base * 2 ^ (8 * (n - 3)).
Proof.
  unfold bits_to_target. cbv zeta.
  destruct (Z.leb_spec 3 (Z.land (Z.shiftr bits_ 24) 255)),
    (Z.leb_spec (Z.land (Z.shiftr bits_ 24) 255) 30);
    cbn [andb negb]; try discriminate.
  destruct (Z.leb_spec 32768 (Z.land bits_ 16777215)),
    (Z.leb_spec (Z.land bits_ 16777215) 8388607);
    cbn [andb negb]; try discriminate.
  intros [= <-]. rewrite Z.shiftl_mul_pow2 by lia. lia.
Qed.

Lemma bits_to_target_bounds (bits_ t : Z) :
  bits_to_target bits_ = Ok t -> 0x8000 <= t < 2 ^ 239.
Proof.
  intros E. destruct (bits_to_target_inv bits_ t E) as (Hn & Hb & ->).
  set (n := Z.land (Z.shiftr bits_ 24) 255) in *.
  set (base := Z.land bits_ 16777215) in *.
  assert (1 <= 2 ^ (8 * (n - 3)) <= 2 ^ 216) as Hp.
  { split.
    - change 1 with (2 ^ 0). apply Z.pow_le_mono_r; lia.
    - apply Z.pow_le_mono_r; lia. }
  split; [nia|].
  apply Z.le_lt_trans with (8388607 * 2 ^ 216); [nia|].
  vm_compute. reflexivity.
Qed.

(** X4.  Every target [bits_to_target] returns is at least 0x8000 and
    below [2^239]: it is positive and fits in 256 bits. *)
Theorem bits_to_target_range (bits_ t : Z) :
  bits_to_target bits_ = Ok t -> 0x8000 <= t < 2 ^ 239.
Proof.
  exact (bits_to_target_bounds bits_ t).
Qed.

Lemma bits_to_target_range_witness :
  bits_to_target 0x1e0fffff = Ok MAX_TARGET /\ 0x8000 <= MAX_TARGET < 2 ^ 239.
Proof.
  assert (bits_to_target 0x1e0fffff = Ok MAX_TARGET) as H
    by (vm_compute; reflexivity).
  split; [exact H|]. exact (bits_to_target_range 0x1e0fffff MAX_TARGET H).
Defined.

(** X5.  On mainnet, for an index at or beyond the checkpoint table, the
    legacy retarget moves the target of the chunk's last header by a factor
    of at most four either way and never above [MAX_TARGET]: with [old]
    the target of that header's bits, the result lies between
    [min(MAX_TARGET, old // 4)] and [min(MAX_TARGET, 4 * old)]. *)
Theorem get_targetv1_range (env : Env) (w : World) (self : ref) (index t : Z) :
  TESTNET env = false ->
  index <> -1 ->
  Z.of_nat (List.length (CHECKPOINTS env)) <= index ->
  get_targetv1 env w self index = Ok t ->
  exists last old,
    read_header env w self (index * 2016 + 2015) = Ok (Some last)
    /\ bits_to_target (bits last) = Ok old
    /\ Z.min MAX_TARGET (old / 4) <= t <= Z.min MAX_TARGET (4 * old).
Proof.
  intros Hnet H1 Hidx. unfold get_targetv1. rewrite Hnet.
  destruct (Z.eqb_spec index (-1)) as [?|_]; [contradiction|].
  destruct (Z.ltb_spec index (Z.of_nat (List.length (CHECKPOINTS env))));
    [lia|].
  destruct (get_timestamp env w self _) as [first|]; [|discriminate].
  cbn [mbind result_bind bind].
  destruct (read_header env w self (index * 2016 + 2015)) as [[last|]|];
    try discriminate.
  cbn [mbind result_bind bind].
  destruct (first =? 0); [discriminate|].
  destruct (bits_to_target (bits last)) as [old|] eqn:Eold; [|discriminate].
  cbn [mbind result_bind bind]. intros [= <-].
  exists last, old. split; [reflexivity|]. split; [exact Eold|].
  pose proof (bits_to_target_bounds _ _ Eold) as Hold.
  change (84 * 60 * 60) with 302400.
  change (302400 / 4) with 75600. change (302400 * 4) with 1209600.
  set (a := Z.min (Z.max (timestamp last - first) 75600) 1209600).
  assert (75600 <= a <= 1209600) as Ha by (unfold a; lia).
  assert (old / 4 <= old * a / 302400) as Hlo.
  { apply Z.div_le_lower_bound; [lia|].
    pose proof (Z.mul_div_le old 4 ltac:(lia)). nia. }
  assert (old * a / 302400 <= 4 * old) as Hhi.
  { apply Z.div_le_upper_bound; [lia|]. nia. }
  lia.
Qed.

(** A main chain of 2016 copies of [window_header], with no checkpoints. *)
Definition one_chunk_world : World :=
  mkWorld {[0%nat := mkBlockchain 0 None 2016 None]}
          [(0, 0%nat)]
          {["headers/blockchain_headers" := chunk_of 2016]}
          true.

Lemma get_targetv1_range_witness :
  (TESTNET fixed_digest_env = false /\ 0 <> -1
   /\ Z.of_nat (List.length (CHECKPOINTS fixed_digest_env)) <= 0
   /\ get_targetv1 fixed_digest_env one_chunk_world 0%nat 0
      = Ok (MAX_TARGET / 4))
  /\ exists last old,
       read_header fixed_digest_env one_chunk_world 0%nat (0 * 2016 + 2015)
       = Ok (Some last)
       /\ bits_to_target (bits last) = Ok old
       /\ Z.min MAX_TARGET (old / 4) <= MAX_TARGET / 4
          <= Z.min MAX_TARGET (4 * old).
Proof.
  assert (get_targetv1 fixed_digest_env one_chunk_world 0%nat 0
          = Ok (MAX_TARGET / 4)) as H by (vm_compute; reflexivity).
  assert (0 <> -1) as H1 by discriminate.
  assert (Z.of_nat (List.length (CHECKPOINTS fixed_digest_env)) <= 0) as H2
    by (vm_compute; discriminate).
  split; [repeat split; assumption|].
  exact (get_targetv1_range fixed_digest_env one_chunk_world 0%nat 0
           (MAX_TARGET / 4) eq_refl H1 H2 H).
Defined.

(** X6.  For every height up to 101 the walk does not start, and
    [get_target] is the legacy value [get_targetv1(height)] (once the
    header at that position of the chunk decodes). *)
Theorem get_target_low_height (env : Env) (w : World) (self : ref)
    (data : list byte) (counter index : Z) :
  index * 2016 + counter <= 101 ->
  get_target env w self data counter index
  = (_ ← deserialize_header
           (py_slice data (counter * 80) ((counter + 1) * 80))
           (index * 2016 + counter);
     get_targetv1 env w self (index * 2016 + counter)).
Proof.
  intros H. unfold get_target, ancestor_walk.
  destruct (deserialize_header _ _) as [cBlock|e]; [|reflexivity].
  cbn [mbind result_bind bind].
  replace (Z.to_nat (index * 2016 + counter - 1 - 100)) with 0%nat by lia.
  cbn [walk mbind result_bind bind].
  destruct (Z.leb_spec (index * 2016 + counter - 1) 100); [reflexivity|lia].
Qed.

Lemma get_target_low_height_witness :
  0 * 2016 + 101 <= 101
  /\ get_target checkpointed_env empty_main_world 0%nat (chunk_of 102) 101 0
     = (_ ← deserialize_header
              (py_slice (chunk_of 102) (101 * 80) ((101 + 1) * 80))
              (0 * 2016 + 101);
        get_targetv1 checkpointed_env empty_main_world 0%nat (0 * 2016 + 101)).
Proof.
  assert (0 * 2016 + 101 <= 101) as H by (vm_compute; discriminate).
  split; [exact H|].
  exact (get_target_low_height checkpointed_env empty_main_world 0%nat
           (chunk_of 102) 101 0 H).
Defined.

(** The exceptions the window computation can raise: invalid bits of an
    ancestor, or a number outside the range of a float. *)
Definition window_exn (e : exn) : Prop :=
  e = BitsFirstPart \/ e = BitsSecondPart \/ e = OverflowError \/ e = ValueError.

Lemma py_index_inside {A : Type} (l : list A) (i : Z) :
  0 <= i < Z.of_nat (List.length l) -> exists x, py_index l i = Ok x.
Proof.
  intros Hi. unfold py_index.
  destruct (Z.ltb_spec i 0); [lia|].
  destruct (Z.ltb_spec i 0); [lia|].
  destruct (Z.leb_spec (Z.of_nat (List.length l)) i); [lia|].
  cbn [orb].
  destruct (nth_error l (Z.to_nat i)) as [x|] eqn:E; [eauto|].
  apply nth_error_None in E. lia.
Qed.

Lemma bits_to_target_exn (bits_ : Z) (e : exn) :
  bits_to_target bits_ = Raise e -> e = BitsFirstPart \/ e = BitsSecondPart.
Proof.
  unfold bits_to_target.
  destruct (negb _); [intros [= <-]; auto|].
  destruct (negb _); [intros [= <-]; auto|discriminate].
Qed.

Lemma float_of_int_exn (z : Z) (e : exn) :
  float_of_int z = Raise e -> e = OverflowError.
Proof.
  unfold float_of_int. destruct (binary_normalize _ _ _ _ _);
    try discriminate. now intros [= <-].
Qed.

Lemma int_of_float_exn (f : float) (e : exn) :
  int_of_float f = Raise e -> e = OverflowError \/ e = ValueError.
Proof. destruct f; try discriminate; intros [= <-]; auto. Qed.

Lemma window_step_exn (FTL : Z) (kN : float) (blocks : list Header)
    (st : Z * Z * float) (i : Z) (e : exn) :
  List.length blocks = 61%nat -> 1 <= i <= 60 ->
  window_step FTL kN blocks st i = Raise e -> window_exn e.
Proof.
  intros L Hi. unfold window_step. destruct st as [[j t] sumTarget].
  destruct (py_index_inside blocks (i - 1) ltac:(lia)) as (newer & ->).
  destruct (py_index_inside blocks i ltac:(lia)) as (older & ->).
  cbn [mbind result_bind bind].
  destruct (bits_to_target (bits newer)) as [target|e1] eqn:E1.
  - cbn [mbind result_bind bind].
    destruct (float_of_int target) as [f|e2] eqn:E2; [discriminate|].
    cbn [mbind result_bind bind]. intros [= <-].
    apply float_of_int_exn in E2 as ->. unfold window_exn. auto.
  - cbn [mbind result_bind bind]. intros [= <-].
    apply bits_to_target_exn in E1. unfold window_exn. tauto.
Qed.

Lemma window_loop_exn (FTL : Z) (kN : float) (blocks : list Header)
    (range : list Z) (e : exn) :
  List.length blocks = 61%nat ->
  Forall (fun i => 1 <= i <= 60) range ->
  forall st, window_loop FTL kN blocks range st = Raise e -> window_exn e.
Proof.
  intros L Hr. induction Hr as [|i range Hi Hr IH]; intros st;
    [discriminate|].
  cbn [window_loop].
  destruct (window_step FTL kN blocks st i) as [st'|e1] eqn:E1.
  - cbn [mbind result_bind bind]. apply IH.
  - cbn [mbind result_bind bind]. intros [= <-].
    exact (window_step_exn _ _ _ _ _ _ L Hi E1).
Qed.

Lemma window_range_bounds : Forall (fun i => 1 <= i <= 60) window_range.
Proof.
  unfold window_range. apply Forall_forall. intros i Hi.
  apply list_elem_of_In, in_map_iff in Hi as (n & <- & Hn).
  apply in_seq in Hn. unfold N_window in *. lia.
Qed.

Lemma windowed_target_exn (height_ : Z) (blocks : list Header) (e : exn) :
  List.length blocks = 61%nat ->
  windowed_target height_ blocks = Raise e -> window_exn e.
Proof.
  intros L. unfold windowed_target.
  destruct k_float as [k|e0] eqn:Ek; [|vm_compute in Ek; discriminate Ek].
  cbn [mbind result_bind bind].
  destruct (float_of_int N_window) as [fN|e0] eqn:EN;
    [|vm_compute in EN; discriminate EN].
  cbn [mbind result_bind bind].
  destruct (float_of_int 0) as [zero|e0] eqn:E0;
    [|vm_compute in E0; discriminate E0].
  cbn [mbind result_bind bind].
  destruct (window_loop _ _ blocks window_range _) as [[[j t] sumTarget]|e1]
    eqn:El.
  - cbn [mbind result_bind bind]. cbv zeta.
    destruct (float_of_int (if t <? k_floordiv_10 then k_floordiv_10 else t))
      as [ft|e2] eqn:Et.
    + cbn [mbind result_bind bind]. intros E.
      apply int_of_float_exn in E. unfold window_exn. tauto.
    + cbn [mbind result_bind bind]. intros [= <-].
      apply float_of_int_exn in Et as ->. unfold window_exn. auto.
  - cbn [mbind result_bind bind]. intros [= <-].
    exact (window_loop_exn _ _ _ _ _ L window_range_bounds _ El).
Qed.

(** X7.  When the walk ends above height 100 it has collected exactly 61
    ancestors, so every index of the window loop is in range: if
    [get_target] then raises, it is for the invalid bits of an ancestor or
    for a number outside the range of a float, never for an index. *)
Theorem get_target_window_errors (env : Env) (w : World) (self : ref)
    (data : list byte) (counter index : Z) (cBlock : Header) (c : Z)
    (blocks : list Header) (e : exn) :
  deserialize_header (py_slice data (counter * 80) ((counter + 1) * 80))
    (index * 2016 + counter) = Ok cBlock ->
  ancestor_walk env w self data index (get_algo cBlock)
    (index * 2016 + counter - 1) = Ok (c, blocks) ->
  100 < c ->
  List.length blocks = 61%nat
  /\ (get_target env w self data counter index = Raise e -> window_exn e).
Proof.
  intros Hc Hwalk H100.
  destruct (ancestor_walk_result env w self data index _ _ c blocks Hwalk)
    as (_ & Hexit).
  assert (List.length blocks = 61%nat) as L by lia.
  split; [exact L|].
  unfold get_target. rewrite Hc. cbn [mbind result_bind bind].
  rewrite Hwalk. cbn [mbind result_bind bind].
  destruct (Z.leb_spec c 100); [lia|].
  apply windowed_target_exn. exact L.
Qed.

Lemma get_target_window_errors_witness :
  (deserialize_header (py_slice (chunk_of 171) (170 * 80) ((170 + 1) * 80))
     (0 * 2016 + 170)
   = Ok (set_block_height window_header 170)
   /\ ancestor_walk fixed_digest_env empty_main_world 0%nat (chunk_of 171) 0
        (get_algo (set_block_height window_header 170)) (0 * 2016 + 170 - 1)
      = Ok (108, blocks_below 169)
   /\ 100 < 108)
  /\ List.length (blocks_below 169) = 61%nat.
Proof.
  assert (deserialize_header
            (py_slice (chunk_of 171) (170 * 80) ((170 + 1) * 80)) (0 * 2016 + 170)
          = Ok (set_block_height window_header 170)) as H1
    by (vm_compute; reflexivity).
  assert (ancestor_walk fixed_digest_env empty_main_world 0%nat (chunk_of 171) 0
            (get_algo (set_block_height window_header 170)) (0 * 2016 + 170 - 1)
          = Ok (108, blocks_below 169)) as H2
    by (vm_compute; reflexivity).
  assert (100 < 108) as H3 by reflexivity.
  split; [repeat split; assumption|].
  exact (proj1 (get_target_window_errors fixed_digest_env empty_main_world
                  0%nat (chunk_of 171) 170 0 _ 108 (blocks_below 169)
                  ValueError H1 H2 H3)).
Defined.

(* ===================================================================== *)
(** * Further properties of the verifier *)
(* ===================================================================== *)

(** X8.  On mainnet a header whose tag is neither scrypt nor blake is
    accepted as soon as its linkage and bits checks pass: its
    proof-of-work hash is computed but compared with nothing. *)
Theorem verify_header_unchecked_tag (env : Env) (h : Header)
    (prev_hash : string) (target : Z) (p : string) :
  TESTNET env = false ->
  algo_tag (version h) <> Z.shiftl 1 11 ->
  algo_tag (version h) <> Z.shiftl 4 11 ->
  pow_hash_header env h = Ok p ->
  prev_block_hash h = Some prev_hash ->
  target_to_bits target = Ok (bits h) ->
  verify_header env h prev_hash target = Ok tt.
Proof.
  intros Hnet H1 H4 Hp Hprev Hbits.
  unfold verify_header. rewrite Hp. cbn [mbind result_bind bind].
  rewrite Hprev, bool_decide_eq_true_2 by reflexivity. cbn [negb].
  rewrite Hnet, Hbits. cbn [mbind result_bind bind].
  rewrite Z.eqb_refl. cbn [negb].
  destruct (Z.eqb_spec (algo_tag (version h)) (Z.shiftl 1 11)); [contradiction|].
  destruct (Z.eqb_spec (algo_tag (version h)) (Z.shiftl 4 11)); [contradiction|].
  reflexivity.
Qed.

(** A groestl-tagged header whose constant digest 0x8000 is far above the
    target 0x80 of its bits. *)
Definition groestl_header : Header :=
  mkHeader 0x20001000 (Some zero_hash) zero_hash 1500000000 0x03000080 0 5000.

Lemma verify_header_unchecked_tag_witness :
  (TESTNET fixed_digest_env = false
   /\ algo_tag (version groestl_header) <> Z.shiftl 1 11
   /\ algo_tag (version groestl_header) <> Z.shiftl 4 11
   /\ pow_hash_header fixed_digest_env groestl_header
      = Ok "0000000000000000000000000000000000000000000000000000000000008000"
   /\ prev_block_hash groestl_header = Some zero_hash
   /\ target_to_bits 0x80 = Ok (bits groestl_header))
  /\ verify_header fixed_digest_env groestl_header zero_hash 0x80 = Ok tt.
Proof.
  assert (algo_tag (version groestl_header) <> Z.shiftl 1 11) as H1
    by (vm_compute; discriminate).
  assert (algo_tag (version groestl_header) <> Z.shiftl 4 11) as H4
    by (vm_compute; discriminate).
  assert (pow_hash_header fixed_digest_env groestl_header
          = Ok "0000000000000000000000000000000000000000000000000000000000008000")
    as Hp by (vm_compute; reflexivity).
  assert (target_to_bits 0x80 = Ok (bits groestl_header)) as Hb
    by (vm_compute; reflexivity).
  split; [repeat split; assumption|].
  exact (verify_header_unchecked_tag fixed_digest_env groestl_header zero_hash
           0x80 _ eq_refl H1 H4 Hp eq_refl Hb).
Defined.

(** X9.  Linkage is checked first and, on testnet, alone: for a header
    whose proof-of-work hash can be computed, a [prev_block_hash] other
    than [prev_hash] raises 'prev hash mismatch' on either network,
    whatever the target; and on testnet a matching one is accepted
    whatever the bits and the target. *)
Theorem verify_header_linkage (env : Env) (h : Header) (prev_hash : string)
    (target : Z) (p : string) :
  pow_hash_header env h = Ok p ->
  (prev_block_hash h <> Some prev_hash ->
   verify_header env h prev_hash target = Raise PrevHashMismatch)
  /\ (TESTNET env = true -> prev_block_hash h = Some prev_hash ->
      verify_header env h prev_hash target = Ok tt).
Proof.
  intros Hp. unfold verify_header. rewrite Hp. cbn [mbind result_bind bind].
  split.
  - intros Hne. rewrite bool_decide_eq_false_2 by congruence. reflexivity.
  - intros Hnet Hprev.
    rewrite Hprev, bool_decide_eq_true_2 by reflexivity.
    cbn [negb]. now rewrite Hnet.
Qed.

Lemma verify_header_linkage_witness :
  pow_hash_header fixed_digest_env boundary_header
  = Ok "0000000000000000000000000000000000000000000000000000000000008000"
  /\ verify_header fixed_digest_env boundary_header
       "0000000000000000000000000000000000000000000000000000000000000001" 0
     = Raise PrevHashMismatch.
Proof.
  assert (pow_hash_header fixed_digest_env boundary_header
          = Ok "0000000000000000000000000000000000000000000000000000000000008000")
    as Hp by (vm_compute; reflexivity).
  split; [exact Hp|].
  apply (proj1 (verify_header_linkage fixed_digest_env boundary_header
                  "0000000000000000000000000000000000000000000000000000000000000001"
                  0 _ Hp)).
  vm_compute. discriminate.
Defined.

Lemma verify_header_ok_inv (env : Env) (h : Header) (prev_hash : string)
    (target : Z) :
  verify_header env h prev_hash target = Ok tt ->
  prev_block_hash h = Some prev_hash
  /\ (TESTNET env = false -> target_to_bits target = Ok (bits h)).
Proof.
  unfold verify_header.
  destruct (pow_hash_header env h) as [p|]; [|discriminate].
  cbn [mbind result_bind bind].
  destruct (decide (Some prev_hash = prev_block_hash h)) as [E|E].
  2:{ rewrite bool_decide_eq_false_2 by exact E. discriminate. }
  rewrite bool_decide_eq_true_2 by exact E. cbn [negb].
  intros H. split; [congruence|]. intros Hnet. rewrite Hnet in H.
  destruct (target_to_bits target) as [b|]; [|discriminate].
  cbn [mbind result_bind bind] in H.
  destruct (Z.eqb_spec b (bits h)) as [Eb|Eb]; [now rewrite Eb|discriminate].
Qed.

(** The header at position [i] of a chunk. *)
Definition chunk_header (data : list byte) (index i : Z) : result Header :=
  deserialize_header (py_slice data (i * 80) ((i + 1) * 80)) (index * 2016 + i).

(** What a verified stretch of a chunk guarantees: each header decodes,
    its [prev_block_hash] is the hash before it, and on mainnet its bits
    are those of the target of its height. *)
Lemma verify_chunk_loop_linked (env : Env) (w : World) (self : ref)
    (index : Z) (data : list byte) (n : nat) :
  forall (a : nat) (prev_hash : string),
    verify_chunk_loop env w self index data prev_hash
      (map Z.of_nat (seq a n)) = Ok tt ->
    forall i : nat, (a <= i < a + n)%nat ->
      exists h prev,
        chunk_header data index (Z.of_nat i) = Ok h
        /\ prev_block_hash h = Some prev
        /\ (i = a -> prev = prev_hash)
        /\ ((a < i)%nat ->
            exists hp, chunk_header data index (Z.of_nat i - 1) = Ok hp
                       /\ hash_header env (Some hp) = Ok prev)
        /\ (TESTNET env = false ->
            exists t, get_target env w self data (Z.of_nat i) index = Ok t
                      /\ target_to_bits t = Ok (bits h)).
Proof.
  induction n as [|n IH]; intros a prev_hash Hloop i Hi; [lia|].
  cbn [seq map verify_chunk_loop] in Hloop.
  unfold verify_chunk_step in Hloop. fold (chunk_header data index (Z.of_nat a)) in Hloop.
  destruct (chunk_header data index (Z.of_nat a)) as [ha|] eqn:Ea;
    [|discriminate].
  cbn [mbind result_bind bind] in Hloop.
  destruct (get_target env w self data (Z.of_nat a) index) as [t|] eqn:Et;
    [|discriminate].
  cbn [mbind result_bind bind] in Hloop.
  destruct (verify_header env ha prev_hash t) as [[]|] eqn:Ev; [|discriminate].
  cbn [mbind result_bind bind] in Hloop.
  destruct (hash_header env (Some ha)) as [p'|] eqn:Eh; [|discriminate].
  cbn [mbind result_bind bind] in Hloop.
  destruct (verify_header_ok_inv env ha prev_hash t Ev) as (Hprev & Hbits).
  destruct (Nat.eq_dec i a) as [->|Hne].
  - exists ha, prev_hash. split; [exact Ea|]. split; [exact Hprev|].
    split; [reflexivity|]. split; [lia|].
    intros Hnet. exists t. split; [exact Et|auto].
  - destruct (IH (S a) p' Hloop i ltac:(lia)) as (h & prev & E1 & E2 & E3 & E4 & E5).
    exists h, prev. split; [exact E1|]. split; [exact E2|].
    split; [lia|]. split; [|exact E5].
    intros _. destruct (Nat.eq_dec i (S a)) as [->|Hne'].
    + exists ha. rewrite (E3 eq_refl).
      replace (Z.of_nat (S a) - 1) with (Z.of_nat a) by lia. auto.
    + apply E4. lia.
Qed.

(** X10.  A chunk that [verify_chunk] accepts is a hash-linked sequence:
    every one of its [len(data) // 80] headers decodes, the first names
    [get_hash(index * 2016 - 1)] as its [prev_block_hash], every later one
    names the [hash_header] of the header before it, and on mainnet each
    declares the bits of the target [get_target] computes for it. *)
Theorem verify_chunk_linked (env : Env) (w : World) (self : ref) (index : Z)
    (data : list byte) :
  verify_chunk env w self index data = Ok tt ->
  exists prev0,
    get_hash env w self (index * 2016 - 1) = Ok prev0
    /\ forall i, 0 <= i < blen data / 80 ->
         exists h prev,
           chunk_header data index i = Ok h
           /\ prev_block_hash h = Some prev
           /\ (i = 0 -> prev = prev0)
           /\ (0 < i ->
               exists hp, chunk_header data index (i - 1) = Ok hp
                          /\ hash_header env (Some hp) = Ok prev)
           /\ (TESTNET env = false ->
               exists t, get_target env w self data i index = Ok t
                         /\ target_to_bits t = Ok (bits h)).
Proof.
  unfold verify_chunk.
  destruct (get_hash env w self (index * 2016 - 1)) as [prev0|]; [|discriminate].
  cbn [mbind result_bind bind]. intros Hloop.
  exists prev0. split; [reflexivity|]. intros i Hi.
  destruct (verify_chunk_loop_linked env w self index data _ 0 prev0 Hloop
              (Z.to_nat i) ltac:(lia))
    as (h & prev & E1 & E2 & E3 & E4 & E5).
  rewrite Z2Nat.id in * by lia.
  exists h, prev. split; [exact E1|]. split; [exact E2|].
  split; [intros ->; apply E3; reflexivity|].
  split; [intros Hpos; apply E4; lia|exact E5].
Qed.

(** An environment whose checkpoint rows carry the target 0x8000, the
    value of the constant digest, and a chunk of two linked headers. *)
Definition linked_env : Env :=
  mkEnv (fun _ => fixed_digest) (fun _ => fixed_digest) false
        "0000000000000000000000000000000000000000000000000000000000000001"
        (repeat ("", 0x8000, 0) 3) "headers".

Definition linked_header_0 : Header :=
  mkHeader 0x20000800 (Some zero_hash) zero_hash 1500000000 0x03008000 0 0.
Definition linked_header_1 : Header :=
  mkHeader 0x20000800
    (Some "0000000000000000000000000000000000000000000000000000000000008000")
    zero_hash 1500000225 0x03008000 0 1.

Definition header_bytes (h : Header) : list byte :=
  match (s ← serialize_header h; bfh s) with
  | Ok b => b
  | Raise _ => []
  end.

Definition linked_chunk : list byte :=
  header_bytes linked_header_0 ++ header_bytes linked_header_1.

Lemma verify_chunk_linked_witness :
  verify_chunk linked_env empty_main_world 0%nat 0 linked_chunk = Ok tt
  /\ exists prev0,
       get_hash linked_env empty_main_world 0%nat (0 * 2016 - 1) = Ok prev0
       /\ forall i, 0 <= i < blen linked_chunk / 80 ->
            exists h prev,
              chunk_header linked_chunk 0 i = Ok h
              /\ prev_block_hash h = Some prev
              /\ (i = 0 -> prev = prev0)
              /\ (0 < i ->
                  exists hp, chunk_header linked_chunk 0 (i - 1) = Ok hp
                             /\ hash_header linked_env (Some hp) = Ok prev)
              /\ (TESTNET linked_env = false ->
                  exists t, get_target linked_env empty_main_world 0%nat
                              linked_chunk i 0 = Ok t
                            /\ target_to_bits t = Ok (bits h)).
Proof.
  assert (verify_chunk linked_env empty_main_world 0%nat 0 linked_chunk = Ok tt)
    as H by (vm_compute; reflexivity).
  split; [exact H|].
  exact (verify_chunk_linked linked_env empty_main_world 0%nat 0 linked_chunk H).
Defined.

Lemma verify_chunk_no_header (env : Env) (w : World) (self : ref)
    (index : Z) (data : list byte) :
  blen data < 80 ->
  verify_chunk env w self index data
  = (_ ← get_hash env w self (index * 2016 - 1); Ok tt).
Proof.
  intros H. unfold verify_chunk.
  assert (blen data / 80 = 0) as ->
    by (apply Z.div_small; unfold blen in *; lia).
  reflexivity.
Qed.

(** X11.  A chunk shorter than one header holds nothing to verify:
    [verify_chunk] succeeds on it as soon as [get_hash(index * 2016 - 1)]
    does, whatever its bytes. *)
Theorem verify_chunk_short (env : Env) (w : World) (self : ref) (index : Z)
    (data : list byte) :
  blen data < 80 ->
  verify_chunk env w self index data
  = (_ ← get_hash env w self (index * 2016 - 1); Ok tt).
Proof.
  exact (verify_chunk_no_header env w self index data).
Qed.

Lemma verify_chunk_short_witness :
  blen (repeat xff 79) < 80
  /\ verify_chunk fixed_digest_env empty_main_world 0%nat 0 (repeat xff 79)
     = (_ ← get_hash fixed_digest_env empty_main_world 0%nat (0 * 2016 - 1);
        Ok tt).
Proof.
  assert (blen (repeat xff 79) < 80) as H by reflexivity.
  split; [exact H|].
  exact (verify_chunk_short fixed_digest_env empty_main_world 0%nat 0
           (repeat xff 79) H).
Defined.

(* ===================================================================== *)
(** * Further properties of the chain store *)
(* ===================================================================== *)

(** The file [write] leaves: truncated at the offset when asked to and the
    offset is not the known end, then overwritten from the offset. *)
Definition written (b : Blockchain) (content data : list byte) (offset : Z)
    (truncate : bool) : list byte :=
  file_write
    (if truncate && negb (offset =? _size b * 80)
     then file_truncate content (Z.to_nat offset)
     else content)
    (Z.to_nat offset) data.

(** The world [write] leaves. *)
Definition after_write (env : Env) (w : World) (self : ref) (b : Blockchain)
    (content' : list byte) : World :=
  mkWorld (<[self := with_size (blen content' / 80) b]> (objs w))
          (blockchains w)
          (<[path env b := content']> (files w))
          (headers_dir_exists w).

Lemma write_success (env : Env) (w : World) (self : ref) (b : Blockchain)
    (content data : list byte) (offset : Z) (truncate : bool) :
  objs w !! self = Some b ->
  files w !! path env b = Some content ->
  0 <= offset ->
  write env self data offset truncate w
  = (Ok tt, after_write env w self b (written b content data offset truncate)).
Proof.
  intros Hself Hfile Hoff.
  unfold write, bindM, liftR, deref, assert_headers_file_available.
  rewrite Hself, Hfile.
  destruct (Z.ltb_spec offset 0) as [?|_]; [lia|].
  unfold modify, update_size, resize, update, deref, set_files, set_objs.
  cbn [objs files blockchains headers_dir_exists mbind result_bind bind].
  rewrite Hself. cbn [mbind result_bind bind].
  rewrite lookup_insert_eq. reflexivity.
Qed.

Lemma write_inv (env : Env) (w w' : World) (self : ref) (data : list byte)
    (offset : Z) (truncate : bool) :
  write env self data offset truncate w = (Ok tt, w') ->
  exists b content,
    objs w !! self = Some b /\ files w !! path env b = Some content
    /\ 0 <= offset
    /\ w' = after_write env w self b (written b content data offset truncate).
Proof.
  intros H.
  destruct (objs w !! self) as [b|] eqn:Hself.
  2:{ unfold write, bindM, liftR, deref in H. rewrite Hself in H.
      discriminate H. }
  destruct (files w !! path env b) as [content|] eqn:Hfile.
  2:{ unfold write, bindM, liftR, deref, assert_headers_file_available in H.
      rewrite Hself, Hfile in H.
      destruct (negb (headers_dir_exists w)); discriminate H. }
  destruct (Z.ltb_spec offset 0) as [Hneg|Hpos].
  { unfold write, bindM, liftR, deref, assert_headers_file_available in H.
    rewrite Hself, Hfile in H.
    destruct (Z.ltb_spec offset 0); [discriminate H|lia]. }
  rewrite (write_success env w self b content data offset truncate
             Hself Hfile Hpos) in H.
  injection H as <-. eauto 6.
Qed.

Lemma file_write_read (content data : list byte) (offset : nat) :
  data <> [] ->
  file_read (file_write content offset data) offset (List.length data) = data.
Proof.
  intros Hd. unfold file_write, file_read.
  destruct data as [|x data']; [contradiction|].
  set (data := x :: data').
  rewrite app_assoc.
  rewrite drop_app_length'.
  2:{ rewrite length_app, length_take. unfold zero_bytes.
      rewrite repeat_length. lia. }
  apply take_app_length.
Qed.

Lemma file_write_prefix (content data : list byte) (offset : nat) :
  (offset <= List.length content)%nat ->
  firstn offset (file_write content offset data) = firstn offset content.
Proof.
  intros Hoff. unfold file_write. destruct data as [|x data'];
    [reflexivity|].
  rewrite take_app_le by (rewrite length_take; lia).
  rewrite take_take. f_equal. lia.
Qed.

Lemma file_truncate_prefix (content : list byte) (offset : nat) :
  firstn offset (file_truncate content offset) = firstn offset content
  \/ (List.length content < offset)%nat.
Proof.
  destruct (Nat.le_gt_cases offset (List.length content)) as [H|H];
    [left|right; lia].
  unfold file_truncate.
  rewrite take_app_le by (rewrite length_take; lia).
  rewrite take_take. f_equal. lia.
Qed.

(** X12.  After every successful [write], whatever the offset and the
    truncate flag, [_size] is the number of whole headers of the file as it
    now is, and [checkpoint] and [parent_id] are what they were. *)
Theorem write_keeps_size_in_step (env : Env) (w w' : World) (self : ref)
    (data : list byte) (offset : Z) (truncate : bool) :
  write env self data offset truncate w = (Ok tt, w') ->
  exists b b' content',
    objs w !! self = Some b
    /\ objs w' !! self = Some b'
    /\ checkpoint b' = checkpoint b /\ parent_id b' = parent_id b
    /\ files w' !! path env b' = Some content'
    /\ _size b' = blen content' / 80.
Proof.
  intros H. destruct (write_inv env w w' self data offset truncate H)
    as (b & content & Hself & Hfile & Hoff & ->).
  exists b, (with_size (blen (written b content data offset truncate) / 80) b),
    (written b content data offset truncate).
  split; [exact Hself|]. split; [apply lookup_insert_eq|].
  split; [reflexivity|]. split; [reflexivity|].
  split; [apply lookup_insert_eq|reflexivity].
Qed.

Lemma write_keeps_size_in_step_witness :
  write fixed_digest_env 1%nat [x01; x02; x03] 100 true two_chain_world
  = (Ok tt, snd (write fixed_digest_env 1%nat [x01; x02; x03] 100 true
                   two_chain_world))
  /\ exists b b' content',
       objs two_chain_world !! 1%nat = Some b
       /\ objs (snd (write fixed_digest_env 1%nat [x01; x02; x03] 100 true
                       two_chain_world)) !! 1%nat = Some b'
       /\ checkpoint b' = checkpoint b /\ parent_id b' = parent_id b
       /\ files (snd (write fixed_digest_env 1%nat [x01; x02; x03] 100 true
                        two_chain_world)) !! path fixed_digest_env b'
          = Some content'
       /\ _size b' = blen content' / 80.
Proof.
  assert (write fixed_digest_env 1%nat [x01; x02; x03] 100 true two_chain_world
          = (Ok tt, snd (write fixed_digest_env 1%nat [x01; x02; x03] 100 true
                           two_chain_world))) as H
    by (vm_compute; reflexivity).
  split; [exact H|].
  exact (write_keeps_size_in_step fixed_digest_env two_chain_world _ 1%nat
           [x01; x02; x03] 100 true H).
Defined.

(** X13.  What a successful [write] of a non-empty [data] at [offset]
    leaves in the file: reading [len(data)] bytes at [offset] gives [data],
    and when the offset lies within the old file the bytes before it are
    the old ones. *)
Theorem write_then_read_bytes (env : Env) (w w' : World) (self : ref)
    (data : list byte) (offset : Z) (truncate : bool) :
  write env self data offset truncate w = (Ok tt, w') ->
  data <> [] ->
  exists b content content',
    objs w !! self = Some b
    /\ files w !! path env b = Some content
    /\ files w' !! path env b = Some content'
    /\ file_read content' (Z.to_nat offset) (List.length data) = data
    /\ (offset <= blen content ->
        firstn (Z.to_nat offset) content' = firstn (Z.to_nat offset) content).
Proof.
  intros H Hd. destruct (write_inv env w w' self data offset truncate H)
    as (b & content & Hself & Hfile & Hoff & ->).
  exists b, content, (written b content data offset truncate).
  split; [exact Hself|]. split; [exact Hfile|].
  split; [apply lookup_insert_eq|]. unfold written. split.
  - apply file_write_read. exact Hd.
  - intros Hin. unfold blen in Hin.
    destruct (truncate && negb (offset =? _size b * 80)).
    + rewrite file_write_prefix.
      * destruct (file_truncate_prefix content (Z.to_nat offset)) as [E|E];
          [exact E|lia].
      * unfold file_truncate. rewrite length_app, length_take.
        unfold zero_bytes. rewrite repeat_length. lia.
    + apply file_write_prefix. lia.
Qed.

Lemma write_then_read_bytes_witness :
  (write fixed_digest_env 1%nat [x01; x02; x03] 100 true two_chain_world
   = (Ok tt, snd (write fixed_digest_env 1%nat [x01; x02; x03] 100 true
                    two_chain_world))
   /\ [x01; x02; x03] <> [])
  /\ exists b content content',
       objs two_chain_world !! 1%nat = Some b
       /\ files two_chain_world !! path fixed_digest_env b = Some content
       /\ files (snd (write fixed_digest_env 1%nat [x01; x02; x03] 100 true
                        two_chain_world)) !! path fixed_digest_env b
          = Some content'
       /\ file_read content' (Z.to_nat 100) (List.length [x01; x02; x03])
          = [x01; x02; x03]
       /\ (100 <= blen content ->
           firstn (Z.to_nat 100) content' = firstn (Z.to_nat 100) content).
Proof.
  assert (write fixed_digest_env 1%nat [x01; x02; x03] 100 true two_chain_world
          = (Ok tt, snd (write fixed_digest_env 1%nat [x01; x02; x03] 100 true
                           two_chain_world))) as H
    by (vm_compute; reflexivity).
  assert ([x01; x02; x03] <> []) as Hd by discriminate.
  split; [split; assumption|].
  exact (write_then_read_bytes fixed_digest_env two_chain_world _ 1%nat
           [x01; x02; x03] 100 true H Hd).
Defined.

(** X14.  [write] on a chain whose headers file is missing raises before
    touching anything: the 'headers_dir does not exist' error when the
    directory is gone, the 'Cannot find headers file' error when it is
    there; the world is unchanged. *)
Theorem write_without_file (env : Env) (w : World) (self : ref)
    (b : Blockchain) (data : list byte) (offset : Z) (truncate : bool) :
  objs w !! self = Some b ->
  files w !! path env b = None ->
  write env self data offset truncate w
  = (Raise (if headers_dir_exists w then HeadersFileMissing else HeadersDirLost),
     w).
Proof.
  intros Hself Hfile.
  unfold write, bindM, liftR, deref, assert_headers_file_available.
  rewrite Hself, Hfile. destruct (headers_dir_exists w); reflexivity.
Qed.

Lemma write_without_file_witness :
  (objs lost_parent_world !! 0%nat = Some (mkBlockchain 0 None 2 None)
   /\ files lost_parent_world
        !! path fixed_digest_env (mkBlockchain 0 None 2 None) = None)
  /\ write fixed_digest_env 0%nat [x01] 0 true lost_parent_world
     = (Raise HeadersFileMissing, lost_parent_world).
Proof.
  assert (objs lost_parent_world !! 0%nat = Some (mkBlockchain 0 None 2 None))
    as H1 by (vm_compute; reflexivity).
  assert (files lost_parent_world
            !! path fixed_digest_env (mkBlockchain 0 None 2 None) = None)
    as H2 by (vm_compute; reflexivity).
  split; [split; assumption|].
  exact (write_without_file fixed_digest_env lost_parent_world 0%nat _
           [x01] 0 true H1 H2).
Defined.

Lemma save_header_assertion (env : Env) (w : World) (self : ref)
    (b : Blockchain) (h : Header) (data : list byte) :
  objs w !! self = Some b ->
  (s ← serialize_header h; bfh s) = Ok data ->
  block_height h - checkpoint b <> _size b ->
  save_header env self h w = (Raise AssertionError, w).
Proof.
  intros Hself Hdata Hdelta.
  unfold save_header, bindM, liftR, deref, size, deref.
  rewrite Hself. cbn [mbind result_bind bind]. rewrite Hdata.
  destruct (Z.eqb_spec (block_height h - checkpoint b) (_size b));
    [contradiction|reflexivity].
Qed.

(** X15.  [save_header] of a header that serializes, at a height other
    than [checkpoint + size], fails its assertion and changes nothing. *)
Theorem save_header_wrong_height (env : Env) (w : World) (self : ref)
    (b : Blockchain) (h : Header) (data : list byte) :
  objs w !! self = Some b ->
  (s ← serialize_header h; bfh s) = Ok data ->
  block_height h - checkpoint b <> _size b ->
  save_header env self h w = (Raise AssertionError, w).
Proof. apply save_header_assertion. Qed.

Lemma save_header_wrong_height_witness :
  (objs two_chain_world !! 0%nat = Some main_chain
   /\ (s ← serialize_header sample_header; bfh s)
      = Ok (header_bytes sample_header)
   /\ block_height sample_header - checkpoint main_chain <> _size main_chain)
  /\ save_header fixed_digest_env 0%nat sample_header two_chain_world
     = (Raise AssertionError, two_chain_world).
Proof.
  assert (objs two_chain_world !! 0%nat = Some main_chain) as H1
    by (vm_compute; reflexivity).
  assert ((s ← serialize_header sample_header; bfh s)
          = Ok (header_bytes sample_header)) as H2
    by (vm_compute; reflexivity).
  assert (block_height sample_header - checkpoint main_chain
          <> _size main_chain) as H3 by (vm_compute; discriminate).
  split; [repeat split; assumption|].
  exact (save_header_wrong_height fixed_digest_env two_chain_world 0%nat
           main_chain sample_header _ H1 H2 H3).
Defined.

(** X16.  Whenever [read_header(height)] returns a header, its
    [block_height] is [height], also when the answer comes from the file
    of a parent or of a further ancestor. *)
Theorem read_header_height (env : Env) (w : World) (self : ref)
    (height_ : Z) (x : Header) :
  read_header env w self height_ = Ok (Some x) -> block_height x = height_.
Proof. apply read_header_rec_height. Qed.

(** A main chain of ten copies of [window_header] (object 0) and a fork of
    three copies rooted at height 5 (object 1). *)
Definition filled_two_chain_world : World :=
  mkWorld (<[1%nat := fork_chain]> {[0%nat := main_chain]})
          [(0, 0%nat); (5, 1%nat)]
          (<["headers/forks/fork_0_5" := chunk_of 3]>
             {["headers/blockchain_headers" := chunk_of 10]})
          true.

Lemma read_header_height_witness :
  read_header fixed_digest_env filled_two_chain_world 1%nat 2
  = Ok (Some (set_block_height window_header 2))
  /\ block_height (set_block_height window_header 2) = 2.
Proof.
  assert (read_header fixed_digest_env filled_two_chain_world 1%nat 2
          = Ok (Some (set_block_height window_header 2))) as H
    by (vm_compute; reflexivity).
  split; [exact H|].
  exact (read_header_height fixed_digest_env filled_two_chain_world 1%nat 2
           _ H).
Defined.

(** X17.  [read_header] answers [None] for every negative height and for
    every height of the chain's own range above [height()], without
    looking at the file (which may be missing), provided the assertion
    [parent_id != checkpoint] holds. *)
Theorem read_header_outside (env : Env) (w : World) (self : ref)
    (b : Blockchain) (height_ : Z) :
  objs w !! self = Some b ->
  parent_id b <> Some (checkpoint b) ->
  height_ < 0 \/ (checkpoint b <= height_ /\ checkpoint b + _size b - 1 < height_) ->
  read_header env w self height_ = Ok None.
Proof.
  intros Hself Hpar Hout. unfold read_header.
  change recursion_limit with (S 999). generalize 999%nat. intros depth.
  cbn [read_header_rec].
  unfold deref. rewrite Hself. cbn [mbind result_bind bind].
  rewrite bool_decide_eq_false_2 by exact Hpar.
  cbn [negb assert mbind result_bind bind].
  destruct (Z.ltb_spec height_ 0) as [|Hpos]; [reflexivity|].
  destruct Hout as [?|[Hlo Hhi]]; [lia|].
  destruct (Z.ltb_spec height_ (checkpoint b)); [lia|].
  unfold height, size, deref. rewrite Hself. cbn [mbind result_bind bind].
  destruct (Z.ltb_spec (checkpoint b + _size b - 1) height_); [reflexivity|lia].
Qed.

Lemma read_header_outside_witness :
  (objs lost_parent_world !! 0%nat = Some (mkBlockchain 0 None 2 None)
   /\ parent_id (mkBlockchain 0 None 2 None)
      <> Some (checkpoint (mkBlockchain 0 None 2 None))
   /\ (2 < 0 \/ (checkpoint (mkBlockchain 0 None 2 None) <= 2
                 /\ checkpoint (mkBlockchain 0 None 2 None)
                    + _size (mkBlockchain 0 None 2 None) - 1 < 2)))
  /\ read_header fixed_digest_env lost_parent_world 0%nat 2 = Ok None.
Proof.
  assert (objs lost_parent_world !! 0%nat = Some (mkBlockchain 0 None 2 None))
    as H1 by (vm_compute; reflexivity).
  assert (parent_id (mkBlockchain 0 None 2 None)
          <> Some (checkpoint (mkBlockchain 0 None 2 None))) as H2
    by discriminate.
  assert (2 < 0 \/ (checkpoint (mkBlockchain 0 None 2 None) <= 2
                    /\ checkpoint (mkBlockchain 0 None 2 None)
                       + _size (mkBlockchain 0 None 2 None) - 1 < 2)) as H3
    by (right; vm_compute; split; [discriminate|reflexivity]).
  split; [repeat split; assumption|].
  exact (read_header_outside fixed_digest_env lost_parent_world 0%nat _ 2
           H1 H2 H3).
Defined.

(** X18.  Below the checkpoint floor, at a height [h] with
    [0 < h < len(checkpoints) * 2016], [get_hash] never looks at the
    store: it fails its assertion unless [h + 1] is a multiple of 2016,
    and otherwise returns the hash of row [h // 2016] of the table. *)
Theorem get_hash_below_floor (env : Env) (w : World) (self : ref) (h : Z) :
  0 < h < Z.of_nat (List.length (CHECKPOINTS env)) * 2016 ->
  ((h + 1) mod 2016 <> 0 -> get_hash env w self h = Raise AssertionError)
  /\ ((h + 1) mod 2016 = 0 ->
      exists hash t ts,
        nth_error (CHECKPOINTS env) (Z.to_nat (h / 2016)) = Some (hash, t, ts)
        /\ get_hash env w self h = Ok hash)
  /\ (forall w' self', get_hash env w' self' h = get_hash env w self h).
Proof.
  intros Hh. unfold get_hash.
  destruct (Z.eqb_spec h (-1)); [lia|].
  destruct (Z.eqb_spec h 0); [lia|].
  destruct (Z.ltb_spec h (Z.of_nat (List.length (CHECKPOINTS env)) * 2016));
    [|lia].
  split; [|split].
  - intros Hm. destruct (Z.eqb_spec ((h + 1) mod 2016) 0); [contradiction|].
    reflexivity.
  - intros Hm. rewrite Hm. cbn [Z.eqb assert mbind result_bind bind].
    assert (0 <= h / 2016 < Z.of_nat (List.length (CHECKPOINTS env))) as Hi.
    { split; [apply Z.div_pos; lia|apply Z.div_lt_upper_bound; lia]. }
    unfold py_index.
    destruct (Z.ltb_spec (h / 2016) 0); [lia|].
    destruct (Z.ltb_spec (h / 2016) 0); [lia|].
    destruct (Z.leb_spec (Z.of_nat (List.length (CHECKPOINTS env))) (h / 2016));
      [lia|].
    cbn [orb].
    destruct (nth_error (CHECKPOINTS env) (Z.to_nat (h / 2016)))
      as [[[hash t] ts]|] eqn:E.
    + exists hash, t, ts. split; reflexivity.
    + apply nth_error_None in E. lia.
  - intros w' self'.
    destruct (Z.eqb_spec h (-1)); [lia|].
    destruct (Z.eqb_spec h 0); [lia|].
    destruct (Z.ltb_spec h (Z.of_nat (List.length (CHECKPOINTS env)) * 2016));
      [reflexivity|lia].
Qed.

Lemma get_hash_below_floor_witness :
  0 < 2015 < Z.of_nat (List.length (CHECKPOINTS linked_env)) * 2016
  /\ exists hash t ts,
       nth_error (CHECKPOINTS linked_env) (Z.to_nat (2015 / 2016))
       = Some (hash, t, ts)
       /\ get_hash linked_env empty_main_world 0%nat 2015 = Ok hash.
Proof.
  assert (0 < 2015 < Z.of_nat (List.length (CHECKPOINTS linked_env)) * 2016)
    as H by (vm_compute; split; reflexivity).
  split; [exact H|].
  exact (proj1 (proj2 (get_hash_below_floor linked_env empty_main_world 0%nat
                         2015 H)) eq_refl).
Defined.

(** X19.  When [can_connect(header, check_height)] answers true, the chain
    can take the header: with [check_height] its tip is at
    [header.block_height - 1]; a header of height 0 hashes to [GENESIS];
    any other names [get_hash(block_height - 1)] as its
    [prev_block_hash]. *)
Theorem can_connect_sound (env : Env) (w : World) (self : ref) (hd : Header)
    (check_height : bool) :
  can_connect env w self (Some hd) check_height = Ok true ->
  (check_height = true -> height w self = Ok (block_height hd - 1))
  /\ (block_height hd = 0 -> hash_header env (Some hd) = Ok (GENESIS env))
  /\ (block_height hd <> 0 ->
      exists prev, get_hash env w self (block_height hd - 1) = Ok prev
                   /\ prev_block_hash hd = Some prev).
Proof.
  unfold can_connect. intros H.
  assert (check_height = true -> height w self = Ok (block_height hd - 1)) as H1.
  { intros ->. destruct (height w self) as [hgt|]; [|discriminate H].
    cbn [mbind result_bind bind] in H.
    destruct (Z.eqb_spec hgt (block_height hd - 1)) as [Eh|Eh];
      [now rewrite Eh|discriminate H]. }
  split; [exact H1|].
  destruct check_height.
  - rewrite (H1 eq_refl) in H. cbn [mbind result_bind bind] in H.
    rewrite Z.eqb_refl in H. cbn [negb] in H. revert H.
    destruct (Z.eqb_spec (block_height hd) 0) as [E0|E0].
    + destruct (hash_header env (Some hd)) as [x|]; [|discriminate].
      cbn [mbind result_bind bind]. intros [= E]. apply String.eqb_eq in E.
      split; [intros _; now rewrite E|contradiction].
    + destruct (get_hash env w self (block_height hd - 1)) as [prev|];
        [|discriminate].
      destruct (decide (Some prev = prev_block_hash hd)) as [E|E].
      * intros _. split; [contradiction|]. intros _. exists prev. auto.
      * rewrite bool_decide_eq_false_2 by exact E. discriminate.
  - cbn [mbind result_bind bind] in H. revert H.
    destruct (Z.eqb_spec (block_height hd) 0) as [E0|E0].
    + destruct (hash_header env (Some hd)) as [x|]; [|discriminate].
      cbn [mbind result_bind bind]. intros [= E]. apply String.eqb_eq in E.
      split; [intros _; now rewrite E|contradiction].
    + destruct (get_hash env w self (block_height hd - 1)) as [prev|];
        [|discriminate].
      destruct (decide (Some prev = prev_block_hash hd)) as [E|E].
      * intros _. split; [contradiction|]. intros _. exists prev. auto.
      * rewrite bool_decide_eq_false_2 by exact E. discriminate.
Qed.

Lemma can_connect_sound_witness :
  can_connect linked_env empty_main_world 0%nat
    (Some (mkHeader 0x20000800 (Some "") zero_hash 0 0 0 2016)) false
  = Ok true
  /\ exists prev, get_hash linked_env empty_main_world 0%nat (2016 - 1) = Ok prev
                  /\ Some "" = Some prev.
Proof.
  assert (can_connect linked_env empty_main_world 0%nat
            (Some (mkHeader 0x20000800 (Some "") zero_hash 0 0 0 2016)) false
          = Ok true) as H.
  2:{ split; [exact H|].
      apply (proj2 (proj2 (can_connect_sound linked_env empty_main_world 0%nat
                             _ false H))).
      discriminate. }
  vm_compute. reflexivity.
Defined.

(* ===================================================================== *)
(** * The module-level entry points *)
(* ===================================================================== *)

(** The loop [for b in blockchains.values(): if test(b): return b],
    ending in [return False] ([None] here). *)
Fixpoint first_chain (test : ref -> result bool) (l : list ref)
  : result (option ref) :=
  match l with
  | [] => Ok None
  | r :: l' => t ← test r; if (t : bool) then Ok (Some r) else first_chain test l'
  end.

Module Toplevel.

(** The function [check_header] of the module; [None] is a header that is
    not a dict. *)
Definition check_header (env : Env) (w : World) (header : option Header)
  : result (option ref) :=
  match header with
  | None => Ok None
  | Some hd =>
      first_chain (fun b => check_header env w b hd)
        (dict_values (blockchains w))
  end.

(** The function [can_connect] of the module. *)
Definition can_connect (env : Env) (w : World) (header : option Header)
  : result (option ref) :=
  first_chain (fun b => can_connect env w b header true)
    (dict_values (blockchains w)).

End Toplevel.

Lemma first_chain_found (test : ref -> result bool) (l : list ref) (r : ref) :
  first_chain test l = Ok (Some r) ->
  exists l1 l2, l = l1 ++ r :: l2
                /\ Forall (fun x => test x = Ok false) l1
                /\ test r = Ok true.
Proof.
  induction l as [|x l IH]; [discriminate|].
  cbn [first_chain]. destruct (test x) as [[|]|] eqn:E; try discriminate.
  - cbn [mbind result_bind bind]. intros [= <-].
    exists [], l. repeat split; [constructor|exact E].
  - cbn [mbind result_bind bind]. intros H.
    destruct (IH H) as (l1 & l2 & -> & Hall & Hr).
    exists (x :: l1), l2. repeat split; [constructor; assumption|exact Hr].
Qed.

Lemma first_chain_none (test : ref -> result bool) (l : list ref) :
  first_chain test l = Ok None -> Forall (fun x => test x = Ok false) l.
Proof.
  induction l as [|x l IH]; [constructor|].
  cbn [first_chain]. destruct (test x) as [[|]|] eqn:E; try discriminate.
  cbn [mbind result_bind bind]. intros H. constructor; auto.
Qed.

(** X20.  The module's [check_header] returns the first chain, in the
    order of the registry, whose [get_hash(header.block_height)] is the
    hash of the header; when it returns False no registered chain has
    that hash there. *)
Theorem toplevel_check_header_first (env : Env) (w : World) (hd : Header) :
  (forall r, Toplevel.check_header env w (Some hd) = Ok (Some r) ->
     exists l1 l2,
       dict_values (blockchains w) = l1 ++ r :: l2
       /\ Forall (fun b => check_header env w b hd = Ok false) l1
       /\ exists x, hash_header env (Some hd) = Ok x
                    /\ get_hash env w r (block_height hd) = Ok x)
  /\ (Toplevel.check_header env w (Some hd) = Ok None ->
      Forall (fun b => check_header env w b hd = Ok false)
        (dict_values (blockchains w))).
Proof.
  unfold Toplevel.check_header. split.
  - intros r H.
    destruct (first_chain_found _ _ _ H) as (l1 & l2 & E & Hall & Hr).
    exists l1, l2. split; [exact E|]. split; [exact Hall|].
    unfold check_header in Hr.
    destruct (hash_header env (Some hd)) as [x|]; [|discriminate].
    cbn [mbind result_bind bind] in Hr.
    destruct (get_hash env w r (block_height hd)) as [y|]; [|discriminate].
    cbn [mbind result_bind bind] in Hr. injection Hr as Hr.
    apply String.eqb_eq in Hr as ->. exists y. auto.
  - apply first_chain_none.
Qed.

(** X21.  The module's [can_connect] returns the first chain, in the
    order of the registry, whose own [can_connect(header)] is true - so
    its tip is at [header.block_height - 1] - and False when none is;
    without a header it returns False. *)
Theorem toplevel_can_connect_first (env : Env) (w : World)
    (header : option Header) :
  (forall r, Toplevel.can_connect env w header = Ok (Some r) ->
     exists hd l1 l2,
       header = Some hd
       /\ dict_values (blockchains w) = l1 ++ r :: l2
       /\ Forall (fun b => can_connect env w b header true = Ok false) l1
       /\ can_connect env w r header true = Ok true
       /\ height w r = Ok (block_height hd - 1))
  /\ (Toplevel.can_connect env w header = Ok None ->
      Forall (fun b => can_connect env w b header true = Ok false)
        (dict_values (blockchains w)))
  /\ Toplevel.can_connect env w None = Ok None.
Proof.
  unfold Toplevel.can_connect. split; [|split].
  - intros r H.
    destruct (first_chain_found _ _ _ H) as (l1 & l2 & E & Hall & Hr).
    destruct header as [hd|]; [|discriminate Hr].
    exists hd, l1, l2. repeat split; try assumption.
    unfold can_connect in Hr.
    destruct (height w r) as [hgt|]; [|discriminate Hr].
    cbn [mbind result_bind bind] in Hr.
    destruct (Z.eqb_spec hgt (block_height hd - 1)) as [Eh|Eh];
      [now rewrite Eh|discriminate Hr].
  - apply first_chain_none.
  - induction (dict_values (blockchains w)) as [|x l IH]; [reflexivity|].
    cbn [first_chain can_connect mbind result_bind bind]. exact IH.
Qed.

Definition header_at_8 : Header :=
  mkHeader 0x20000800
    (Some "0000000000000000000000000000000000000000000000000000000000008000")
    zero_hash 1500000000 0x1e0fffff 0 8.

(** The fork of [filled_two_chain_world] has its tip at height 7 and the
    main chain at height 9: a header of height 8 that names the hash at
    height 7 connects to the fork, and it is found on the main chain. *)
Example toplevel_can_connect_fork :
  Toplevel.can_connect fixed_digest_env filled_two_chain_world (Some header_at_8)
  = Ok (Some 1%nat).
Proof. vm_compute. reflexivity. Qed.

Example toplevel_check_header_main :
  Toplevel.check_header fixed_digest_env filled_two_chain_world (Some header_at_8)
  = Ok (Some 0%nat).
Proof. vm_compute. reflexivity. Qed.

(** The chunk and the offset [save_chunk] passes to [write]. *)
Definition chunk_to_write (b : Blockchain) (index : Z) (chunk : list byte)
  : list byte :=
  let d := (index * 2016 - checkpoint b) * 80 in
  if d <? 0 then py_slice_from chunk (- d) else chunk.

Definition offset_to_write (b : Blockchain) (index : Z) : Z :=
  let d := (index * 2016 - checkpoint b) * 80 in
  if d <? 0 then 0 else d.

Lemma save_chunk_main (env : Env) (w : World) (self : ref) (b : Blockchain)
    (content : list byte) (index : Z) (chunk : list byte) :
  objs w !! self = Some b -> parent_id b = None ->
  files w !! path env b = Some content ->
  save_chunk env self index chunk w
  = (Ok tt,
     after_write env w self b
       (written b content (chunk_to_write b index chunk)
          (offset_to_write b index)
          (Z.of_nat (List.length (CHECKPOINTS env)) <=? index))).
Proof.
  intros Hself Hmain Hfile.
  unfold save_chunk, bindM, liftR, deref. rewrite Hself.
  fold (chunk_to_write b index chunk). fold (offset_to_write b index).
  rewrite (write_success env w self b content _ _ _ Hself Hfile)
    by (unfold offset_to_write; cbv zeta;
        destruct (Z.ltb_spec ((index * 2016 - checkpoint b) * 80) 0); lia).
  apply (swap_with_parent_main env _ self
           (with_size (blen (written b content (chunk_to_write b index chunk)
                               (offset_to_write b index)
                               (Z.of_nat (List.length (CHECKPOINTS env)) <=? index))
                       / 80) b)).
  - apply lookup_insert_eq.
  - exact Hmain.
Qed.

(** X22.  When [connect_chunk] returns true on the main chain, the chunk
    decoded and passed [verify_chunk], and the world it leaves is the one
    [write] makes of it: the part of the chunk at or above the chain's
    checkpoint sits in the file at its offset, [_size] is the number of
    whole headers of the new file, and the registry and the other files
    are as before. *)
Theorem connect_chunk_success_main (env : Env) (w w' : World) (self : ref)
    (b : Blockchain) (content : list byte) (idx : Z) (hexdata : string) :
  objs w !! self = Some b -> parent_id b = None ->
  files w !! path env b = Some content ->
  connect_chunk env self idx hexdata w = (true, w') ->
  exists data content',
    bfh hexdata = Ok data
    /\ verify_chunk env w self idx data = Ok tt
    /\ w' = after_write env w self b content'
    /\ (chunk_to_write b idx data <> [] ->
        file_read content' (Z.to_nat (offset_to_write b idx))
          (List.length (chunk_to_write b idx data))
        = chunk_to_write b idx data)
    /\ height w' self = Ok (checkpoint b + blen content' / 80 - 1).
Proof.
  intros Hself Hmain Hfile. unfold connect_chunk, bindM, liftR.
  destruct (bfh hexdata) as [data|]; [|discriminate].
  destruct (verify_chunk env w self idx data) as [[]|] eqn:Hv; [|discriminate].
  rewrite (save_chunk_main env w self b content idx data Hself Hmain Hfile).
  intros [= <-].
  eexists data, _. split; [reflexivity|]. split; [exact Hv|].
  split; [reflexivity|]. split.
  - intros Hne. unfold written. apply file_write_read. exact Hne.
  - unfold height, size, deref, after_write. cbn [objs].
    rewrite lookup_insert_eq. reflexivity.
Qed.

Lemma connect_chunk_success_main_witness :
  (objs empty_main_world !! 0%nat = Some (mkBlockchain 0 None 0 None)
   /\ parent_id (mkBlockchain 0 None 0 None) = None
   /\ files empty_main_world !! path linked_env (mkBlockchain 0 None 0 None)
      = Some []
   /\ connect_chunk linked_env 0%nat 0 (bh2u linked_chunk) empty_main_world
      = (true, snd (connect_chunk linked_env 0%nat 0 (bh2u linked_chunk)
                      empty_main_world)))
  /\ exists data content',
       bfh (bh2u linked_chunk) = Ok data
       /\ verify_chunk linked_env empty_main_world 0%nat 0 data = Ok tt
       /\ snd (connect_chunk linked_env 0%nat 0 (bh2u linked_chunk)
                 empty_main_world)
          = after_write linked_env empty_main_world 0%nat
              (mkBlockchain 0 None 0 None) content'
       /\ (chunk_to_write (mkBlockchain 0 None 0 None) 0 data <> [] ->
           file_read content'
             (Z.to_nat (offset_to_write (mkBlockchain 0 None 0 None) 0))
             (List.length (chunk_to_write (mkBlockchain 0 None 0 None) 0 data))
           = chunk_to_write (mkBlockchain 0 None 0 None) 0 data)
       /\ height (snd (connect_chunk linked_env 0%nat 0 (bh2u linked_chunk)
                         empty_main_world)) 0%nat
          = Ok (checkpoint (mkBlockchain 0 None 0 None) + blen content' / 80 - 1).
Proof.
  assert (objs empty_main_world !! 0%nat = Some (mkBlockchain 0 None 0 None))
    as H1 by (vm_compute; reflexivity).
  assert (files empty_main_world !! path linked_env (mkBlockchain 0 None 0 None)
          = Some []) as H3 by (vm_compute; reflexivity).
  assert (connect_chunk linked_env 0%nat 0 (bh2u linked_chunk) empty_main_world
          = (true, snd (connect_chunk linked_env 0%nat 0 (bh2u linked_chunk)
                          empty_main_world))) as H4
    by (vm_compute; reflexivity).
  split; [repeat split; assumption|].
  exact (connect_chunk_success_main linked_env empty_main_world _ 0%nat _ []
           0 (bh2u linked_chunk) H1 eq_refl H3 H4).
Defined.

(** X23.  On the main chain, whose file is there, [connect_chunk] accepts
    every chunk shorter than one header as soon as
    [get_hash(idx * 2016 - 1)] succeeds: nothing of it is verified, it
    returns true, and the bytes at or above the checkpoint are passed to
    [write]. *)
Theorem connect_chunk_short_chunk (env : Env) (w : World) (self : ref)
    (b : Blockchain) (content data : list byte) (idx : Z) (hexdata : string) :
  objs w !! self = Some b -> parent_id b = None ->
  files w !! path env b = Some content ->
  bfh hexdata = Ok data -> blen data < 80 ->
  is_ok (get_hash env w self (idx * 2016 - 1)) = true ->
  connect_chunk env self idx hexdata w
  = (true,
     after_write env w self b
       (written b content (chunk_to_write b idx data) (offset_to_write b idx)
          (Z.of_nat (List.length (CHECKPOINTS env)) <=? idx))).
Proof.
  intros Hself Hmain Hfile Hdec Hshort Hhash.
  unfold connect_chunk, bindM, liftR. rewrite Hdec.
  rewrite (verify_chunk_no_header env w self idx data Hshort).
  destruct (get_hash env w self (idx * 2016 - 1)); [|discriminate Hhash].
  cbn [mbind result_bind bind].
  now rewrite (save_chunk_main env w self b content idx data Hself Hmain Hfile).
Qed.

Lemma connect_chunk_short_chunk_witness :
  (objs empty_main_world !! 0%nat = Some (mkBlockchain 0 None 0 None)
   /\ parent_id (mkBlockchain 0 None 0 None) = None
   /\ files empty_main_world
        !! path fixed_digest_env (mkBlockchain 0 None 0 None) = Some []
   /\ bfh "deadbeef" = Ok [xde; xad; xbe; xef]
   /\ blen [xde; xad; xbe; xef] < 80
   /\ is_ok (get_hash fixed_digest_env empty_main_world 0%nat (0 * 2016 - 1))
      = true)
  /\ fst (connect_chunk fixed_digest_env 0%nat 0 "deadbeef" empty_main_world)
     = true
  /\ files (snd (connect_chunk fixed_digest_env 0%nat 0 "deadbeef"
                   empty_main_world)) !! "headers/blockchain_headers"
     = Some [xde; xad; xbe; xef].
Proof.
  assert (objs empty_main_world !! 0%nat = Some (mkBlockchain 0 None 0 None))
    as H1 by (vm_compute; reflexivity).
  assert (files empty_main_world
            !! path fixed_digest_env (mkBlockchain 0 None 0 None) = Some [])
    as H3 by (vm_compute; reflexivity).
  assert (bfh "deadbeef" = Ok [xde; xad; xbe; xef]) as H4
    by (vm_compute; reflexivity).
  assert (blen [xde; xad; xbe; xef] < 80) as H5 by reflexivity.
  assert (is_ok (get_hash fixed_digest_env empty_main_world 0%nat (0 * 2016 - 1))
          = true) as H6 by reflexivity.
  split; [repeat split; assumption|].
  rewrite (connect_chunk_short_chunk fixed_digest_env empty_main_world 0%nat
             _ [] _ 0 "deadbeef" H1 eq_refl H3 H4 H5 H6).
  split; vm_compute; reflexivity.
Defined.

(* ===================================================================== *)
(** * The fork manager *)
(* ===================================================================== *)

Section ForkManager.
Context (env : Env).

(** [Blockchain.__init__(config, checkpoint, parent_id)]: a new object,
    under a reference no object has yet, with [_size] read off the file at
    its path. *)
Definition __init__ (checkpoint_ : Z) (parent_id_ : option Z) : M ref :=
  fun w =>
    let self := fresh (dom (objs w)) in
    let b := mkBlockchain checkpoint_ parent_id_ 0 None in
    let s := match files w !! path env b with
             | Some content => blen content / 80
             | None => 0
             end in
    (Ok self, set_objs w (<[self := with_size s b]> (objs w))).

(** [open(p, 'w+').close()]: the file is created, or emptied if it is
    there.  The [forks] directory is made at start-up by
    [read_blockchains]; it stands and falls here with the headers
    directory. *)
Definition open_w_plus (p : string) : M unit :=
  fun w =>
    if headers_dir_exists w
    then (Ok tt, set_files w (<[p := []]> (files w)))
    else (Raise FileNotFoundError, w).

(** [Blockchain.fork(parent, header)] *)
Definition fork (parent_ : ref) (header : Header) : M ref :=
  let checkpoint_ := block_height header in
  let* pb := liftR (fun w => deref w parent_) in
  let* self := __init__ checkpoint_ (Some (checkpoint pb)) in
  let* b := liftR (fun w => deref w self) in
  let* _ := open_w_plus (path env b) in
  let* _ := save_header env self header in
  retM self.

(** [max(l)] for a non-empty list of integers. *)
Definition py_max (x : Z) (l : list Z) : Z := fold_left Z.max l x.

(** [Blockchain.get_max_child] *)
Definition get_max_child (w : World) (self : ref) : result (option Z) :=
  b ← deref w self;
  children ← mapM (fun r => deref w r) (dict_values (blockchains w));
  match filter (fun y => bool_decide (parent_id y = Some (checkpoint b)))
               children with
  | [] => Ok None
  | x :: l => Ok (Some (py_max (checkpoint x) (map checkpoint l)))
  end.

(** [Blockchain.get_checkpoint] *)
Definition get_checkpoint (w : World) (self : ref) : result Z :=
  mc ← get_max_child w self;
  match mc with
  | Some c => Ok c
  | None => b ← deref w self; Ok (checkpoint b)
  end.

(** [Blockchain.get_branch_size] *)
Definition get_branch_size (w : World) (self : ref) : result Z :=
  hgt ← height w self;
  c ← get_checkpoint w self;
  Ok (hgt - c + 1).

(** [s.lstrip('00')]: every leading character that is in the set of the
    argument's characters, that is every leading ['0'], is removed. *)
Fixpoint lstrip_zeros (s : string) : string :=
  match s with
  | String c r => if Ascii.eqb c "0" then lstrip_zeros r else s
  | EmptyString => EmptyString
  end.

(** [Blockchain.get_name] *)
Definition get_name (w : World) (self : ref) : result string :=
  c ← get_checkpoint w self;
  h ← get_hash env w self c;
  Ok (str_slice (lstrip_zeros h) 0 10).

(** The loop of [get_checkpoints] over [range(n)].  The call
    [self.get_target(index)] passes one argument to a method that takes
    three: Python raises [TypeError] at the call. *)
Fixpoint get_checkpoints_loop (w : World) (self : ref) (range : list Z)
    (cp : list checkpoint_row) : result (list checkpoint_row) :=
  match range with
  | [] => Ok cp
  | index :: range' =>
      h ← get_hash env w self ((index + 1) * 2016 - 1);
      target ← (Raise TypeError : result Z);
      tstamp ← get_timestamp env w self ((index + 1) * 2016 - 1);
      get_checkpoints_loop w self range' (cp ++ [(h, target, tstamp)])
  end.

(** [Blockchain.get_checkpoints] *)
Definition get_checkpoints (w : World) (self : ref)
  : result (list checkpoint_row) :=
  hgt ← height w self;
  let n := hgt / 2016 in
  get_checkpoints_loop w self (map Z.of_nat (seq 0 (Z.to_nat n))) [].
End ForkManager.

Lemma get_checkpoints_loop_raises (env : Env) (w : World) (self : ref)
    (index : Z) (range : list Z) (cp : list checkpoint_row) :
  is_ok (get_checkpoints_loop env w self (index :: range) cp) = false.
Proof.
  cbn [get_checkpoints_loop].
  destruct (get_hash env w self ((index + 1) * 2016 - 1)); reflexivity.
Qed.

(** X24.  [get_checkpoints] never returns a checkpoint: it returns the
    empty list while [height()] is below 2016, and raises from the first
    round of its loop on (at the latest at the call of [get_target] with
    one argument) once a chunk is complete. *)
Theorem get_checkpoints_never_lists (env : Env) (w : World) (self : ref) :
  (forall cps, get_checkpoints env w self = Ok cps -> cps = [])
  /\ (forall hgt, height w self = Ok hgt ->
        (hgt < 2016 -> get_checkpoints env w self = Ok [])
        /\ (2016 <= hgt -> is_ok (get_checkpoints env w self) = false)).
Proof.
  assert (forall hgt, height w self = Ok hgt ->
            (hgt < 2016 -> get_checkpoints env w self = Ok [])
            /\ (2016 <= hgt -> is_ok (get_checkpoints env w self) = false)) as H.
  { intros hgt Hh. unfold get_checkpoints. rewrite Hh.
    cbn [mbind result_bind bind]. split; intros Hlt.
    - replace (Z.to_nat (hgt / 2016)) with 0%nat; [reflexivity|].
      destruct (Z.le_gt_cases 0 hgt).
      + rewrite Z.div_small by lia. reflexivity.
      + pose proof (Z.div_lt_upper_bound hgt 2016 0 ltac:(lia) ltac:(lia)). lia.
    - assert (1 <= hgt / 2016) by (apply Z.div_le_lower_bound; lia).
      destruct (Z.to_nat (hgt / 2016)) as [|n] eqn:E; [lia|].
      cbn [seq map]. apply get_checkpoints_loop_raises. }
  split; [|exact H].
  intros cps Hc. destruct (height w self) as [hgt|] eqn:Hh.
  - destruct (H hgt eq_refl) as [Hlo Hhi].
    destruct (Z.lt_ge_cases hgt 2016) as [Hlt|Hge].
    + rewrite (Hlo Hlt) in Hc. now injection Hc.
    + specialize (Hhi Hge). rewrite Hc in Hhi. discriminate Hhi.
  - unfold get_checkpoints in Hc. rewrite Hh in Hc. discriminate Hc.
Qed.

Example get_checkpoints_full_chunk :
  height one_chunk_world 0%nat = Ok 2015
  /\ get_checkpoints fixed_digest_env one_chunk_world 0%nat = Ok []
  /\ get_checkpoints fixed_digest_env
       (set_objs one_chunk_world {[0%nat := mkBlockchain 0 None 2017 None]})
       0%nat
     = Raise TypeError.
Proof. repeat split; vm_compute; reflexivity. Qed.

Lemma py_slice_0_10 {A : Type} (l : list A) : py_slice l 0 10 = firstn 10 l.
Proof.
  unfold py_slice, clip_index. cbn [Z.ltb Z.compare].
  replace (0 `min` Z.of_nat (List.length l)) with 0 by lia.
  cbn [Z.to_nat skipn]. rewrite Z.sub_0_r.
  destruct (Z.le_gt_cases 10 (Z.of_nat (List.length l))) as [H|H].
  - rewrite Z.min_l by lia. reflexivity.
  - rewrite Z.min_r by lia. rewrite Nat2Z.id.
    change (drop (Z.to_nat 0) l) with l.
    rewrite !firstn_all2 by lia. reflexivity.
Qed.

Lemma lstrip_zeros_head (s : string) (r : string) :
  lstrip_zeros s <> String "0" r.
Proof.
  induction s as [|c s IH]; [discriminate|].
  cbn [lstrip_zeros]. destruct (Ascii.eqb_spec c "0") as [->|Hc];
    [exact IH|congruence].
Qed.

(** X25.  The name [get_name] gives a chain has at most ten characters and
    never begins with the digit 0: [lstrip('00')] removes every leading
    zero of the hash, single ones too. *)
Theorem get_name_shape (env : Env) (w : World) (self : ref) (name : string) :
  get_name env w self = Ok name ->
  (String.length name <= 10)%nat /\ forall r, name <> String "0" r.
Proof.
  unfold get_name.
  destruct (get_checkpoint w self) as [c|]; [|discriminate].
  cbn [mbind result_bind bind].
  destruct (get_hash env w self c) as [h|]; [|discriminate].
  cbn [mbind result_bind bind]. intros [= <-].
  unfold str_slice. rewrite py_slice_0_10.
  pose proof (lstrip_zeros_head h) as Hhead.
  destruct (lstrip_zeros h) as [|c0 s0] eqn:E.
  - split; [cbn; lia|discriminate].
  - split.
    + unfold chars_str. rewrite <- (list_ascii_of_string_of_list_ascii (take 10 _)).
      rewrite list_ascii_of_string_of_list_ascii.
      assert (forall l : list ascii,
                String.length (string_of_list_ascii l) = List.length l) as Hl.
      { induction l as [|a l IHl]; [reflexivity|]. cbn. now rewrite IHl. }
      rewrite Hl, length_take. lia.
    + intros r Hr. cbn in Hr. injection Hr as -> _. exact (Hhead s0 eq_refl).
Qed.

(** A chain whose hash at its checkpoint starts with three zeros. *)
Definition named_env : Env :=
  mkEnv (fun _ => fixed_digest) (fun _ => fixed_digest) false
        "000a0b0c0d0e0f00112233445566778899aabbccddeeff000000000000000001"
        [] "headers".

Lemma get_name_shape_witness :
  get_name named_env empty_main_world 0%nat = Ok "a0b0c0d0e0"
  /\ (String.length "a0b0c0d0e0" <= 10)%nat.
Proof.
  assert (get_name named_env empty_main_world 0%nat = Ok "a0b0c0d0e0") as H
    by (vm_compute; reflexivity).
  split; [exact H|].
  exact (proj1 (get_name_shape named_env empty_main_world 0%nat _ H)).
Defined.

(** ** Forking *)


(** The new chain object of [fork], before its header is saved. *)
Definition forked (pb : Blockchain) (header : Header) (s : Z) : Blockchain :=
  mkBlockchain (block_height header) (Some (checkpoint pb)) s None.

(** The number of whole headers of the file at the new chain's path. *)
Definition stale_size (env : Env) (w : World) (pb : Blockchain)
    (header : Header) : Z :=
  match files w !! path env (forked pb header 0) with
  | Some content => blen content / 80
  | None => 0
  end.

(** The world of [fork] when it calls [save_header]: the object is
    allocated and the file is empty. *)
Definition fork_prepared (env : Env) (w : World) (pb : Blockchain)
    (header : Header) : World :=
  mkWorld (<[fresh (dom (objs w)) := forked pb header (stale_size env w pb header)]>
             (objs w))
          (blockchains w)
          (<[path env (forked pb header 0) := []]> (files w))
          (headers_dir_exists w).

Lemma fork_unfold (env : Env) (w : World) (parent_ : ref) (pb : Blockchain)
    (header : Header) :
  objs w !! parent_ = Some pb ->
  headers_dir_exists w = true ->
  fork env parent_ header w
  = match save_header env (fresh (dom (objs w))) header
            (fork_prepared env w pb header) with
    | (Ok _, w') => (Ok (fresh (dom (objs w))), w')
    | (Raise e, w') => (Raise e, w')
    end.
Proof.
  intros Hp Hdir. unfold fork_prepared, stale_size, forked.
  unfold fork, bindM, liftR, deref. rewrite Hp.
  unfold __init__, set_objs. cbn [objs files blockchains headers_dir_exists].
  rewrite lookup_insert_eq.
  unfold open_w_plus, set_files.
  cbn [objs files blockchains headers_dir_exists]. rewrite Hdir.
  unfold retM. reflexivity.
Qed.

(** X26.  [fork(parent, header)] at a path where a file of at least one
    header already sits fails: [_size] was read before the file is
    emptied, so the assertion of [save_header] does not hold.  The call
    raises [AssertionError] and the file that was there is left empty. *)
Theorem fork_over_stale_file (env : Env) (w : World) (parent_ : ref)
    (pb : Blockchain) (header : Header) (data old : list byte) :
  objs w !! parent_ = Some pb ->
  headers_dir_exists w = true ->
  (s ← serialize_header header; bfh s) = Ok data ->
  files w !! path env (forked pb header 0) = Some old ->
  80 <= blen old ->
  exists w',
    fork env parent_ header w = (Raise AssertionError, w')
    /\ files w' !! path env (forked pb header 0) = Some []
    /\ blockchains w' = blockchains w.
Proof.
  intros Hp Hdir Hdata Hold Hlen.
  exists (fork_prepared env w pb header).
  rewrite (fork_unfold env w parent_ pb header Hp Hdir).
  assert (1 <= stale_size env w pb header) as Hs.
  { unfold stale_size. rewrite Hold. apply Z.div_le_lower_bound; lia. }
  rewrite (save_header_assertion env (fork_prepared env w pb header) _
             (forked pb header (stale_size env w pb header)) header data).
  - split; [reflexivity|]. split; [apply lookup_insert_eq|reflexivity].
  - apply lookup_insert_eq.
  - exact Hdata.
  - cbn [forked checkpoint _size]. lia.
Qed.

Lemma fork_over_stale_file_witness :
  (objs two_chain_world !! 0%nat = Some main_chain
   /\ headers_dir_exists two_chain_world = true
   /\ (s ← serialize_header (set_block_height sample_header 5); bfh s)
      = Ok (header_bytes sample_header)
   /\ files two_chain_world
        !! path fixed_digest_env
             (forked main_chain (set_block_height sample_header 5) 0)
      = Some (zero_bytes 240)
   /\ 80 <= blen (zero_bytes 240))
  /\ exists w',
       fork fixed_digest_env 0%nat (set_block_height sample_header 5)
         two_chain_world = (Raise AssertionError, w')
       /\ files w'
            !! path fixed_digest_env
                 (forked main_chain (set_block_height sample_header 5) 0)
          = Some []
       /\ blockchains w' = blockchains two_chain_world.
Proof.
  assert (objs two_chain_world !! 0%nat = Some main_chain) as H1
    by (vm_compute; reflexivity).
  assert ((s ← serialize_header (set_block_height sample_header 5); bfh s)
          = Ok (header_bytes sample_header)) as H3 by (vm_compute; reflexivity).
  assert (files two_chain_world
            !! path fixed_digest_env
                 (forked main_chain (set_block_height sample_header 5) 0)
          = Some (zero_bytes 240)) as H4 by (vm_compute; reflexivity).
  assert (80 <= blen (zero_bytes 240)) as H5 by (vm_compute; discriminate).
  split; [repeat split; assumption|].
  exact (fork_over_stale_file fixed_digest_env two_chain_world 0%nat main_chain
           _ _ _ H1 eq_refl H3 H4 H5).
Defined.



(* ===================================================================== *)
(** * The swap of a fork with its parent *)
(* ===================================================================== *)

Lemma bindM_ok {A B : Type} (m : M A) (k : A -> M B) (w w' : World) (a : A) :
  m w = (Ok a, w') -> bindM m k w = k a w'.
Proof. intros E. unfold bindM. now rewrite E. Qed.

Lemma updateM_ok (w : World) (r : ref) (f : Blockchain -> Blockchain)
    (x : Blockchain) :
  objs w !! r = Some x ->
  updateM r f w = (Ok tt, set_objs w (<[r := f x]> (objs w))).
Proof. intros E. unfold updateM, update, deref. now rewrite E. Qed.

Lemma dict_get_set_eq {V : Type} (d : dict V) (k : Z) (v : V) :
  dict_get (dict_set d k v) k = Some v.
Proof.
  induction d as [|[k' v'] d IH]; cbn [dict_set dict_get].
  - now rewrite Z.eqb_refl.
  - destruct (Z.eqb_spec k' k) as [E|E]; cbn [dict_get].
    + now rewrite Z.eqb_refl.
    + destruct (Z.eqb_spec k' k); [contradiction|exact IH].
Qed.

Lemma dict_get_set_ne {V : Type} (d : dict V) (k k' : Z) (v : V) :
  k <> k' -> dict_get (dict_set d k v) k' = dict_get d k'.
Proof.
  intros Hne. induction d as [|[k0 v0] d IH]; cbn [dict_set dict_get].
  - destruct (Z.eqb_spec k k'); [contradiction|reflexivity].
  - destruct (Z.eqb_spec k0 k) as [E|E]; cbn [dict_get].
    + destruct (Z.eqb_spec k k'); [contradiction|].
      destruct (Z.eqb_spec k0 k'); [congruence|reflexivity].
    + destruct (Z.eqb_spec k0 k'); [reflexivity|exact IH].
Qed.

Lemma dict_get_values {V : Type} (d : dict V) (k : Z) (v : V) :
  dict_get d k = Some v -> v ∈ dict_values d.
Proof.
  induction d as [|[k' v'] d IH]; cbn [dict_get dict_values map snd];
    [discriminate|].
  destruct (k' =? k).
  - intros [= ->]. apply list_elem_of_here.
  - intros H. apply list_elem_of_further, IH, H.
Qed.

Section SwapWithParent.
Context (env : Env).

(** What the loop [for b in blockchains.values(): b.old_path = b.path()]
    leaves of the object behind [r]. *)
Definition stamped (l : list ref) (r : ref) (x : Blockchain) : Blockchain :=
  if decide (r ∈ l) then with_old_path (path env x) x else x.

Lemma stamped_fields (l : list ref) (r : ref) (x : Blockchain) :
  checkpoint (stamped l r x) = checkpoint x
  /\ parent_id (stamped l r x) = parent_id x
  /\ _size (stamped l r x) = _size x.
Proof. unfold stamped. destruct (decide (r ∈ l)); repeat split. Qed.

Lemma stamped_old_path (l : list ref) (r : ref) (x : Blockchain) :
  r ∈ l -> old_path (stamped l r x) = Some (path env (stamped l r x)).
Proof.
  intros H. unfold stamped. destruct (decide (r ∈ l)); [|contradiction].
  reflexivity.
Qed.

Lemma store_paths_run (l : list ref) (w : World) :
  Forall (fun r => is_Some (objs w !! r)) l ->
  exists o,
    forM_ l (fun r => let* x := liftR (fun w => deref w r) in
                      updateM r (with_old_path (path env x))) w
    = (Ok tt, set_objs w o)
    /\ forall r, o !! r = stamped l r <$> objs w !! r.
Proof.
  revert w. induction l as [|r0 l IH]; intros w Hall.
  - exists (objs w). split; [destruct w; reflexivity|].
    intros r. unfold stamped.
    destruct (decide (r ∈ [])) as [H|_]; [inversion H|].
    now destruct (objs w !! r).
  - apply Forall_cons in Hall as [[x Hx] Hl].
    set (w1 := set_objs w (<[r0 := with_old_path (path env x) x]> (objs w))).
    destruct (IH w1) as (o & Erun & Ho).
    { eapply Forall_impl; [exact Hl|]. intros r Hr. unfold w1.
      cbn [objs set_objs].
      apply lookup_insert_is_Some'. now right. }
    exists o. split.
    + cbn [forM_]. rewrite (bindM_ok _ _ w w1 tt).
      * exact Erun.
      * rewrite (bindM_ok _ _ w w x) by (unfold liftR, deref; now rewrite Hx).
        apply updateM_ok, Hx.
    + intros r. rewrite Ho. unfold w1. cbn [objs set_objs].
      destruct (decide (r = r0)) as [->|Hne].
      * rewrite lookup_insert_eq, Hx. cbn [fmap option_fmap option_map].
        f_equal. unfold stamped.
        destruct (decide (r0 ∈ r0 :: l)) as [_|H];
          [|exfalso; apply H, list_elem_of_here].
        now destruct (decide (r0 ∈ l)).
      * rewrite lookup_insert_ne by congruence.
        destruct (objs w !! r) as [y|]; [|reflexivity].
        cbn [fmap option_fmap option_map]. f_equal. unfold stamped.
        destruct (decide (r ∈ l)) as [H|H], (decide (r ∈ r0 :: l)) as [H'|H'];
          try reflexivity.
        -- exfalso. apply H'. now apply list_elem_of_further.
        -- exfalso. apply elem_of_cons in H' as [?|?]; contradiction.
Qed.

Lemma move_files_run (self parent_ : ref) (l : list ref) (w : World) :
  Forall (fun r => r = self \/ r = parent_
                   \/ exists x, objs w !! r = Some x
                                /\ old_path x = Some (path env x)) l ->
  forM_ l (fun r =>
             if (r =? self)%nat || (r =? parent_)%nat then retM tt
             else
               let* x := liftR (fun w => deref w r) in
               match old_path x with
               | None => raiseM AttributeError
               | Some old =>
                   if negb (String.eqb old (path env x))
                   then os_rename old (path env x)
                   else retM tt
               end) w
  = (Ok tt, w).
Proof.
  induction 1 as [|r l Hr _ IH]; [reflexivity|].
  cbn [forM_]. rewrite (bindM_ok _ _ w w tt); [exact IH|].
  destruct (Nat.eqb_spec r self) as [|Hs]; [reflexivity|].
  destruct (Nat.eqb_spec r parent_) as [|Hp]; [reflexivity|].
  cbn [orb]. destruct Hr as [?|[?|(x & Hx & Hold)]]; [contradiction..|].
  rewrite (bindM_ok _ _ w w x) by (unfold liftR, deref; now rewrite Hx).
  rewrite Hold, String.eqb_refl. reflexivity.
Qed.



Lemma written_over_all (b : Blockchain) (content data : list byte) :
  0 < _size b -> written b content data 0 true = data.
Proof.
  intros Hs. unfold written.
  destruct (Z.eqb_spec 0 (_size b * 80)) as [E|_]; [lia|].
  cbn [andb negb]. change (Z.to_nat 0) with 0%nat.
  unfold file_truncate, file_write.
  destruct data as [|x data]; [reflexivity|].
  simpl. now rewrite app_nil_r.
Qed.

Lemma written_over_tail (b : Blockchain) (content data : list byte)
    (offset : Z) :
  data <> [] -> 0 <= offset <= _size b * 80 ->
  blen content = _size b * 80 ->
  written b content data offset true
  = firstn (Z.to_nat offset) content ++ data.
Proof.
  intros Hd Hoff Hlen. unfold written, blen in *.
  assert (Z.to_nat offset <= List.length content)%nat as Hle by lia.
  cbn [andb].
  set (n := Z.to_nat offset) in *.
  assert (forall c, firstn n c = firstn n content ->
                    (n <= List.length c)%nat ->
                    (List.length c <= List.length content)%nat ->
                    (List.length c = n
                     \/ c = content /\ List.length content = n) ->
                    file_write c n data = firstn n content ++ data) as Hw.
  { intros c Hc H1 H2 H3. unfold file_write.
    destruct data as [|x data']; [contradiction|].
    rewrite Hc. f_equal.
    replace (n - List.length c)%nat with 0%nat by lia.
    cbn [zero_bytes repeat app]. rewrite drop_ge by (cbn [List.length]; lia).
    now rewrite app_nil_r. }
  destruct (Z.eqb_spec offset (_size b * 80)) as [E|E]; cbn [negb].
  - apply Hw; [reflexivity|lia|lia|]. right. split; [reflexivity|lia].
  - unfold file_truncate.
    replace (n - List.length content)%nat with 0%nat by lia.
    cbn [zero_bytes repeat]. rewrite app_nil_r. apply Hw.
    + rewrite take_take. f_equal. lia.
    + rewrite length_take. lia.
    + rewrite length_take. lia.
    + left. rewrite length_take. lia.
Qed.

Lemma file_read_tail (content : list byte) (offset n : nat) :
  (offset + n = List.length content)%nat ->
  file_read content offset n = skipn offset content.
Proof.
  intros H. unfold file_read. apply take_ge. rewrite length_drop. lia.
Qed.

Lemma blockchain_fields (x : Blockchain) (c : Z) (p : option Z) (s : Z) :
  checkpoint x = c -> parent_id x = p -> _size x = s ->
  x = mkBlockchain c p s (old_path x).
Proof. destruct x. cbn. now intros -> -> ->. Qed.

Ltac stepM a w' := rewrite (bindM_ok _ _ _ w' a); [cbv beta iota zeta|].

(** X28.  The swap itself.  When a fork registered below its parent holds
    more headers than the parent has from the fork point on, both files
    are there with as many whole headers as the sizes say, and every
    registered chain is an object, [swap_with_parent] succeeds and
    exchanges the two chains: the parent's file keeps its headers below
    the fork point and continues with the fork's data, the fork's file
    receives the parent's headers from the fork point on, the two objects
    exchange [checkpoint] and [parent_id] (so each now names the other's
    file), the sizes follow the files, no other file is touched or
    renamed, and the registry maps the two checkpoints to the exchanged
    objects. *)
Theorem swap_with_parent_exchanges (w : World) (self parent_ : ref)
    (b pb : Blockchain) (my_data pdata : list byte) :
  objs w !! self = Some b ->
  parent_id b = Some (checkpoint pb) ->
  dict_get (blockchains w) (checkpoint pb) = Some parent_ ->
  objs w !! parent_ = Some pb ->
  Forall (fun r => is_Some (objs w !! r)) (dict_values (blockchains w)) ->
  files w !! path env b = Some my_data ->
  files w !! path env pb = Some pdata ->
  path env b <> path env pb ->
  blen my_data = _size b * 80 ->
  blen pdata = _size pb * 80 ->
  checkpoint pb < checkpoint b <= checkpoint pb + _size pb ->
  checkpoint pb + _size pb - checkpoint b < _size b ->
  let cut := Z.to_nat ((checkpoint b - checkpoint pb) * 80) in
  exists w',
    swap_with_parent env self w = (Ok tt, w')
    /\ (exists op,
          objs w' !! self
          = Some (mkBlockchain (checkpoint pb) (parent_id pb)
                    (checkpoint b - checkpoint pb + _size b) op))
    /\ (exists op,
          objs w' !! parent_
          = Some (mkBlockchain (checkpoint b) (Some (checkpoint pb))
                    (checkpoint pb + _size pb - checkpoint b) op))
    /\ files w' !! path env pb = Some (firstn cut pdata ++ my_data)
    /\ files w' !! path env b = Some (skipn cut pdata)
    /\ (forall p, p <> path env b -> p <> path env pb ->
          files w' !! p = files w !! p)
    /\ dict_get (blockchains w') (checkpoint pb) = Some self
    /\ dict_get (blockchains w') (checkpoint b) = Some parent_.
Proof.
  intros Hself Hpar Hreg Hparent Hall Hmy Hpd Hpath Lmy Lpd Hcp Hlonger cut.
  assert (self <> parent_) as Hne.
  { intros ->. rewrite Hself in Hparent. injection Hparent as ->.
    now apply Hpath. }
  set (pbs := checkpoint pb + _size pb - 1 - checkpoint b + 1).
  set (off := (checkpoint b - checkpoint pb) * 80).
  set (pd := skipn cut pdata).
  set (c2 := firstn cut pdata ++ my_data).
  assert (my_data <> []) as Hmy_ne.
  { intros ->. unfold blen in Lmy. cbn in Lmy. lia. }
  assert (file_read pdata (Z.to_nat off) (Z.to_nat (pbs * 80)) = pd) as Eread.
  { apply file_read_tail. unfold blen in Lpd. unfold off, pbs. lia. }
  assert (written b my_data pd 0 true = pd) as Ew1
    by (apply written_over_all; lia).
  assert (written pb pdata my_data off true = c2) as Ew2.
  { apply written_over_tail; [exact Hmy_ne|unfold off; lia|exact Lpd]. }
  assert (blen pd / 80 = pbs) as Lpd1.
  { unfold pd, blen in *. rewrite length_drop.
    replace (Z.of_nat (List.length pdata - cut)) with (pbs * 80)
      by (unfold cut, pbs; lia).
    apply Z.div_mul. lia. }
  assert (blen c2 / 80 = checkpoint b - checkpoint pb + _size b) as Lc2.
  { unfold c2, blen in *. rewrite length_app, length_take.
    replace (Z.of_nat (cut `min` List.length pdata + List.length my_data))
      with ((checkpoint b - checkpoint pb + _size b) * 80)
      by (unfold cut; lia).
    apply Z.div_mul. lia. }
  set (w1 := after_write env w self b pd).
  set (w2 := after_write env w1 parent_ pb c2).
  set (l := dict_values (blockchains w)).
  assert (objs w1 !! parent_ = Some pb) as Hparent1.
  { unfold w1, after_write. cbn [objs].
    now rewrite lookup_insert_ne by exact Hne. }
  assert (files w1 !! path env pb = Some pdata) as Hpd1.
  { unfold w1, after_write. cbn [files].
    now rewrite lookup_insert_ne by exact Hpath. }
  set (b1 := with_size (blen pd / 80) b).
  set (pb2 := with_size (blen c2 / 80) pb).
  assert (forall r, r <> self -> r <> parent_ -> objs w2 !! r = objs w !! r)
    as Hother2.
  { intros r H1 H2. unfold w2, w1, after_write. cbn [objs].
    rewrite !lookup_insert_ne by congruence. reflexivity. }
  assert (objs w2 !! self = Some b1) as Hself2.
  { unfold w2, w1, after_write. cbn [objs].
    rewrite lookup_insert_ne by congruence. apply lookup_insert_eq. }
  assert (objs w2 !! parent_ = Some pb2) as Hparent2.
  { unfold w2, after_write. cbn [objs]. apply lookup_insert_eq. }
  assert (Forall (fun r => is_Some (objs w2 !! r)) l) as Hall2.
  { eapply Forall_impl; [exact Hall|]. intros r Hr. cbv beta.
    destruct (decide (r = self)) as [->|H1]; [rewrite Hself2; eauto|].
    destruct (decide (r = parent_)) as [->|H2]; [rewrite Hparent2; eauto|].
    now rewrite Hother2. }
  destruct (store_paths_run l w2 Hall2) as (o & Erun & Ho).
  set (S0 := stamped l self b1). set (P0 := stamped l parent_ pb2).
  assert (o !! self = Some S0) as HS0 by (now rewrite Ho, Hself2).
  assert (o !! parent_ = Some P0) as HP0 by (now rewrite Ho, Hparent2).
  set (S1 := with_parent_id (parent_id P0) S0).
  set (P1 := with_parent_id (Some (checkpoint pb)) P0).
  set (S2 := with_checkpoint (checkpoint P1) S1).
  set (P2 := with_checkpoint (checkpoint b) P1).
  set (S3 := with_size (_size P2) S2).
  set (P3 := with_size pbs P2).
  set (o1 := <[self := S1]> o). set (o2 := <[parent_ := P1]> o1).
  set (o3 := <[self := S2]> o2). set (o4 := <[parent_ := P2]> o3).
  set (o5 := <[self := S3]> o4). set (o6 := <[parent_ := P3]> o5).
  set (w6 := set_objs w2 o6).
  destruct (stamped_fields l self b1) as (SFc & SFp & SFs).
  destruct (stamped_fields l parent_ pb2) as (PFc & PFp & PFs).
  fold S0 in SFc, SFp, SFs. fold P0 in PFc, PFp, PFs.
  assert (checkpoint S3 = checkpoint pb) as ES3c by exact PFc.
  assert (checkpoint P3 = checkpoint b) as EP3c by reflexivity.
  exists (set_blockchains w6
            (dict_set (dict_set (blockchains w) (checkpoint S3) self)
               (checkpoint P3) parent_)).
  split.
  { unfold swap_with_parent.
    stepM b w; [|unfold liftR, deref; now rewrite Hself].
    rewrite Hpar. cbv beta iota zeta.
    stepM parent_ w; [|unfold liftR, parent; now rewrite Hpar, Hreg].
    stepM (checkpoint pb + _size pb - 1) w;
      [|unfold liftR, height, size, deref; now rewrite Hparent].
    stepM (_size b) w; [|unfold liftR, size, deref; now rewrite Hself].
    fold pbs.
    destruct (Z.leb_spec (_size b) pbs) as [Hle|_]; [unfold pbs in Hle; lia|].
    stepM parent_ w; [|unfold liftR, parent; now rewrite Hpar, Hreg].
    stepM pb w; [|unfold liftR, deref; now rewrite Hparent].
    stepM tt w;
      [|unfold liftR, assert_headers_file_available; now rewrite Hmy].
    stepM my_data w; [|unfold liftR; now rewrite Hmy].
    stepM tt w;
      [|unfold liftR, assert_headers_file_available; now rewrite Hpd].
    stepM pd w.
    2:{ unfold liftR. rewrite Hpd. fold off.
        destruct (Z.ltb_spec off 0) as [H|_]; [unfold off in H; lia|].
        destruct (Z.ltb_spec (pbs * 80) 0) as [H|_];
          [unfold pbs in H; lia|].
        now rewrite Eread. }
    stepM tt w1.
    2:{ rewrite (write_success env w self b my_data pd 0 true Hself Hmy)
          by lia.
        now rewrite Ew1. }
    stepM pb w1; [|unfold liftR, deref; now rewrite Hparent1].
    stepM tt w2.
    2:{ fold off.
        rewrite (write_success env w1 parent_ pb pdata my_data off true
                   Hparent1 Hpd1) by (unfold off; lia).
        now rewrite Ew2. }
    stepM l w2; [|reflexivity].
    stepM tt (set_objs w2 o); [|exact Erun].
    stepM P0 (set_objs w2 o);
      [|unfold liftR, deref; cbn [objs set_objs]; now rewrite HP0].
    assert (o1 !! self = Some S1) as HS1 by apply lookup_insert_eq.
    assert (o1 !! parent_ = Some P0) as HP0'
      by (unfold o1; now rewrite lookup_insert_ne by exact Hne).
    assert (o2 !! parent_ = Some P1) as HP1 by apply lookup_insert_eq.
    assert (o2 !! self = Some S1) as HS1'
      by (unfold o2; now rewrite lookup_insert_ne by congruence).
    assert (o3 !! self = Some S2) as HS2 by apply lookup_insert_eq.
    assert (o3 !! parent_ = Some P1) as HP1'
      by (unfold o3; now rewrite lookup_insert_ne by exact Hne).
    assert (o4 !! parent_ = Some P2) as HP2 by apply lookup_insert_eq.
    assert (o4 !! self = Some S2) as HS2'
      by (unfold o4; now rewrite lookup_insert_ne by congruence).
    assert (o5 !! self = Some S3) as HS3 by apply lookup_insert_eq.
    assert (o5 !! parent_ = Some P2) as HP2'
      by (unfold o5; now rewrite lookup_insert_ne by exact Hne).
    assert (o6 !! parent_ = Some P3) as HP3 by apply lookup_insert_eq.
    assert (o6 !! self = Some S3) as HS3'
      by (unfold o6; now rewrite lookup_insert_ne by congruence).
    stepM tt (set_objs w2 o1);
      [|exact (updateM_ok (set_objs w2 o) self _ S0 HS0)].
    stepM tt (set_objs w2 o2);
      [|exact (updateM_ok (set_objs w2 o1) parent_ _ P0 HP0')].
    stepM P1 (set_objs w2 o2);
      [|unfold liftR, deref; cbn [objs set_objs]; now rewrite HP1].
    stepM tt (set_objs w2 o3);
      [|exact (updateM_ok (set_objs w2 o2) self _ S1 HS1')].
    stepM tt (set_objs w2 o4);
      [|exact (updateM_ok (set_objs w2 o3) parent_ _ P1 HP1')].
    stepM P2 (set_objs w2 o4);
      [|unfold liftR, deref; cbn [objs set_objs]; now rewrite HP2].
    stepM tt (set_objs w2 o5);
      [|exact (updateM_ok (set_objs w2 o4) self _ S2 HS2')].
    stepM tt w6;
      [|exact (updateM_ok (set_objs w2 o5) parent_ _ P2 HP2')].
    stepM l w6; [|reflexivity].
    stepM tt w6.
    2:{ apply move_files_run. apply Forall_forall. intros r Hr.
        destruct (decide (r = self)) as [|H1]; [now left|].
        destruct (decide (r = parent_)) as [|H2]; [now right; left|].
        right; right.
        assert (objs w6 !! r = stamped l r <$> objs w !! r) as E.
        { unfold w6, o6, o5, o4, o3, o2, o1. cbn [objs set_objs].
          rewrite !lookup_insert_ne by congruence.
          now rewrite Ho, Hother2. }
        rewrite Forall_forall in Hall. destruct (Hall r Hr) as [y Hy].
        rewrite Hy in E. exists (stamped l r y).
        split; [exact E|]. now apply stamped_old_path. }
    stepM S3 w6;
      [|unfold liftR, deref, w6; cbn [objs set_objs]; now rewrite HS3'].
    stepM tt (set_blockchains w6
                (dict_set (blockchains w) (checkpoint S3) self));
      [|reflexivity].
    stepM P3 (set_blockchains w6
                (dict_set (blockchains w) (checkpoint S3) self));
      [|unfold liftR, deref, w6; cbn [objs set_objs set_blockchains];
        now rewrite HP3].
    reflexivity. }
  assert (objs w6 !! self = Some S3) as HS3.
  { unfold w6, o6. cbn [objs set_objs].
    rewrite lookup_insert_ne by congruence. apply lookup_insert_eq. }
  assert (objs w6 !! parent_ = Some P3) as HP3
    by (unfold w6, o6; cbn [objs set_objs]; apply lookup_insert_eq).
  split.
  { exists (old_path S3). cbn [objs set_blockchains]. rewrite HS3. f_equal.
    apply blockchain_fields.
    - exact ES3c.
    - change (parent_id S3) with (parent_id P0). exact PFp.
    - change (_size S3) with (_size P0). rewrite PFs. exact Lc2. }
  split.
  { exists (old_path P3). cbn [objs set_blockchains]. rewrite HP3. f_equal.
    apply blockchain_fields; [reflexivity..|]. unfold pbs.
    cbn [P3 with_size _size]. lia. }
  split.
  { cbn [files set_blockchains]. unfold w6, w2, after_write.
    cbn [files set_objs].
    apply lookup_insert_eq. }
  split.
  { cbn [files set_blockchains]. unfold w6, w2, w1, after_write.
    cbn [files set_objs].
    rewrite lookup_insert_ne by congruence. apply lookup_insert_eq. }
  split.
  { intros p H1 H2. cbn [files set_blockchains].
    unfold w6, w2, w1, after_write.
    cbn [files set_objs].
    rewrite !lookup_insert_ne by congruence. reflexivity. }
  cbn [blockchains set_blockchains]. rewrite ES3c, EP3c. split.
  - rewrite dict_get_set_ne by lia. apply dict_get_set_eq.
  - apply dict_get_set_eq.
Qed.
End SwapWithParent.

(** A main chain of six headers (object 0) and a fork of three rooted at
    height 5 (object 1): the fork is two headers ahead. *)
Definition long_fork_world : World :=
  mkWorld (<[1%nat := fork_chain]> {[0%nat := mkBlockchain 0 None 6 None]})
          [(0, 0%nat); (5, 1%nat)]
          (<["headers/forks/fork_0_5" := repeat x02 240]>
             {["headers/blockchain_headers" := repeat x01 480]})
          true.

Lemma swap_with_parent_exchanges_witness :
  (objs long_fork_world !! 1%nat = Some fork_chain
   /\ parent_id fork_chain = Some 0
   /\ dict_get (blockchains long_fork_world) 0 = Some 0%nat
   /\ objs long_fork_world !! 0%nat = Some (mkBlockchain 0 None 6 None)
   /\ Forall (fun r => is_Some (objs long_fork_world !! r))
        (dict_values (blockchains long_fork_world))
   /\ files long_fork_world !! path fixed_digest_env fork_chain
      = Some (repeat x02 240)
   /\ files long_fork_world
        !! path fixed_digest_env (mkBlockchain 0 None 6 None)
      = Some (repeat x01 480)
   /\ path fixed_digest_env fork_chain
      <> path fixed_digest_env (mkBlockchain 0 None 6 None)
   /\ blen (repeat x02 240) = 3 * 80
   /\ blen (repeat x01 480) = 6 * 80
   /\ 0 < 5 <= 0 + 6
   /\ 0 + 6 - 5 < 3)
  /\ exists w',
       swap_with_parent fixed_digest_env 1%nat long_fork_world = (Ok tt, w')
       /\ files w' !! "headers/blockchain_headers"
          = Some (repeat x01 400 ++ repeat x02 240)
       /\ files w' !! "headers/forks/fork_0_5" = Some (repeat x01 80)
       /\ dict_get (blockchains w') 0 = Some 1%nat
       /\ dict_get (blockchains w') 5 = Some 0%nat.
Proof.
  assert (objs long_fork_world !! 1%nat = Some fork_chain) as H1
    by (vm_compute; reflexivity).
  assert (objs long_fork_world !! 0%nat = Some (mkBlockchain 0 None 6 None))
    as H2 by (vm_compute; reflexivity).
  assert (Forall (fun r => is_Some (objs long_fork_world !! r))
            (dict_values (blockchains long_fork_world))) as H3.
  { repeat constructor; [exists (mkBlockchain 0 None 6 None)|exists fork_chain];
      vm_compute; reflexivity. }
  assert (files long_fork_world !! path fixed_digest_env fork_chain
          = Some (repeat x02 240)) as H4 by (vm_compute; reflexivity).
  assert (files long_fork_world
            !! path fixed_digest_env (mkBlockchain 0 None 6 None)
          = Some (repeat x01 480)) as H5 by (vm_compute; reflexivity).
  assert (path fixed_digest_env fork_chain
          <> path fixed_digest_env (mkBlockchain 0 None 6 None)) as H6
    by (vm_compute; discriminate).
  assert (0 < 5 <= 0 + 6) as H7 by lia.
  assert (0 + 6 - 5 < 3) as H8 by lia.
  split; [repeat split; try assumption; try reflexivity; lia|].
  destruct (swap_with_parent_exchanges fixed_digest_env long_fork_world
              1%nat 0%nat fork_chain (mkBlockchain 0 None 6 None)
              (repeat x02 240) (repeat x01 480)
              H1 eq_refl eq_refl H2 H3 H4 H5 H6 eq_refl eq_refl H7 H8)
    as (w' & E & _ & _ & Fp & Ff & _ & R1 & R2).
  exists w'. repeat split; assumption.
Defined.

(* ===================================================================== *)
(** * What [target_to_bits] and [get_max_child] look at *)
(* ===================================================================== *)

Lemma format_064x_tail (t : Z) :
  0 <= t < 2 ^ 256 ->
  str_slice_from (format_064x t) 2 = hex_fixed 62 (t mod 2 ^ 248).
Proof.
  intros Ht. rewrite format_064x_fixed by (change (16 ^ 64) with (2 ^ 256); lia).
  change 64%nat with (2 + 62)%nat. rewrite hex_fixed_app.
  rewrite str_slice_from_app by (now rewrite hex_fixed_length).
  rewrite (Z.div_mod t (2 ^ 248)) at 1 by lia.
  change (2 ^ 248) with (16 ^ Z.of_nat 62).
  rewrite Z.add_comm, (Z.mul_comm (16 ^ Z.of_nat 62)).
  apply hex_fixed_mod.
Qed.

(** X29.  [target_to_bits] drops the first two of the 64 digits it
    formats: the top byte of a 256-bit target has no part in the result,
    and two targets that differ only there get the same compact form. *)
Theorem target_to_bits_top_byte (t : Z) :
  0 <= t < 2 ^ 256 -> target_to_bits t = target_to_bits (t mod 2 ^ 248).
Proof.
  intros Ht. unfold target_to_bits. cbv zeta.
  assert (0 <= t mod 2 ^ 248 < 2 ^ 248) as Hm by (apply Z.mod_pos_bound; lia).
  rewrite (format_064x_tail t Ht).
  rewrite (format_064x_tail (t mod 2 ^ 248))
    by (split; [lia|apply Z.lt_trans with (2 ^ 248); [lia|reflexivity]]).
  rewrite Z.mod_mod by lia. reflexivity.
Qed.

Lemma target_to_bits_top_byte_witness :
  0 <= 2 ^ 255 + 0x8000 < 2 ^ 256
  /\ target_to_bits (2 ^ 255 + 0x8000) = target_to_bits 0x8000.
Proof.
  assert (0 <= 2 ^ 255 + 0x8000 < 2 ^ 256) as H
    by (split; [discriminate|reflexivity]).
  split; [exact H|]. exact (target_to_bits_top_byte (2 ^ 255 + 0x8000) H).
Defined.

Lemma py_max_ge (x : Z) (l : list Z) :
  x <= py_max x l /\ Forall (fun y => y <= py_max x l) l.
Proof.
  unfold py_max. revert x. induction l as [|a l IH]; intros x.
  - cbn. split; [lia|constructor].
  - cbn [fold_left]. destruct (IH (Z.max x a)) as [H1 H2].
    split; [lia|]. constructor; [lia|exact H2].
Qed.

Lemma py_max_in (x : Z) (l : list Z) : py_max x l ∈ x :: l.
Proof.
  unfold py_max. revert x. induction l as [|a l IH]; intros x.
  - cbn. apply list_elem_of_here.
  - cbn [fold_left]. specialize (IH (Z.max x a)).
    apply elem_of_cons in IH as [E|E].
    + rewrite E. destruct (Z.max_spec x a) as [[_ ->]|[_ ->]].
      * apply list_elem_of_further, list_elem_of_here.
      * apply list_elem_of_here.
    + now apply list_elem_of_further, list_elem_of_further.
Qed.

Lemma mapM_deref (w : World) (l : list ref) :
  Forall (fun r => is_Some (objs w !! r)) l ->
  exists ys,
    mapM (fun r => deref w r) l = Ok ys
    /\ (forall r y, r ∈ l -> objs w !! r = Some y -> y ∈ ys)
    /\ (forall y, y ∈ ys -> exists r, r ∈ l /\ objs w !! r = Some y).
Proof.
  induction 1 as [|r l [x Hx] _ (ys & E & H1 & H2)].
  - exists []. split; [reflexivity|]. split.
    + intros r y Hr. inversion Hr.
    + intros y Hy. inversion Hy.
  - exists (x :: ys). split; [|split].
    + cbn [mapM].
      assert (deref w r = Ok x) as -> by (unfold deref; now rewrite Hx).
      cbn [mbind result_bind bind]. rewrite E. reflexivity.
    + intros r' y Hr Hy. apply elem_of_cons in Hr as [->|Hr].
      * rewrite Hx in Hy. injection Hy as ->. apply list_elem_of_here.
      * apply list_elem_of_further. exact (H1 r' y Hr Hy).
    + intros y Hy. apply elem_of_cons in Hy as [->|Hy].
      * exists r. split; [apply list_elem_of_here|exact Hx].
      * destruct (H2 y Hy) as (r' & Hr' & Hy').
        exists r'. split; [now apply list_elem_of_further|exact Hy'].
Qed.

(** X30.  When every registered chain is an object, [get_max_child] does
    not fail: it answers [None] exactly when no registered chain has this
    chain's checkpoint as its [parent_id], and otherwise the greatest
    checkpoint among those that do, which is then a checkpoint of one of
    them; [get_checkpoint] is that checkpoint, or the chain's own when it
    has no child. *)
Theorem get_max_child_greatest (w : World) (self : ref) (b : Blockchain) :
  objs w !! self = Some b ->
  Forall (fun r => is_Some (objs w !! r)) (dict_values (blockchains w)) ->
  let child r y :=
    r ∈ dict_values (blockchains w) /\ objs w !! r = Some y
    /\ parent_id y = Some (checkpoint b) in
  (get_max_child w self = Ok None
   /\ get_checkpoint w self = Ok (checkpoint b)
   /\ forall r y, ~ child r y)
  \/ exists m,
       get_max_child w self = Ok (Some m)
       /\ get_checkpoint w self = Ok m
       /\ (exists r y, child r y /\ checkpoint y = m)
       /\ (forall r y, child r y -> checkpoint y <= m).
Proof.
  intros Hself Hall child.
  destruct (mapM_deref w _ Hall) as (ys & E & Hin & Hout).
  assert (deref w self = Ok b) as Hd by (unfold deref; now rewrite Hself).
  unfold get_checkpoint, get_max_child. rewrite Hd.
  cbn [mbind result_bind bind]. rewrite E. cbn [mbind result_bind bind].
  destruct (filter _ ys) as [|x fl] eqn:Ef.
  - left. split; [reflexivity|]. split; [reflexivity|].
    intros r y (Hr & Hy & Hp).
    assert (y ∈ filter
              (fun y => bool_decide (parent_id y = Some (checkpoint b))) ys)
      as Hf.
    { apply list_elem_of_filter. split; [|exact (Hin r y Hr Hy)].
      now apply bool_decide_pack. }
    rewrite Ef in Hf. inversion Hf.
  - right. eexists. split; [reflexivity|]. split; [reflexivity|].
    assert (forall y, y ∈ x :: fl ->
              parent_id y = Some (checkpoint b) /\ y ∈ ys) as Hmem.
    { intros y Hy. rewrite <- Ef in Hy.
      apply list_elem_of_filter in Hy as [Hp Hy].
      split; [exact (bool_decide_unpack _ Hp)|exact Hy]. }
    split.
    + pose proof (py_max_in (checkpoint x) (map checkpoint fl)) as Hm.
      change (checkpoint x :: map checkpoint fl)
        with (map checkpoint (x :: fl)) in Hm.
      apply list_elem_of_fmap in Hm as (y & Ey & Hy).
      destruct (Hmem y Hy) as [Hp Hys].
      destruct (Hout y Hys) as (r & Hr & Hry).
      exists r, y. split; [split; [exact Hr|split; [exact Hry|exact Hp]]|].
      symmetry. exact Ey.
    + intros r y (Hr & Hy & Hp).
      assert (y ∈ x :: fl) as Hf.
      { rewrite <- Ef. apply list_elem_of_filter.
        split; [now apply bool_decide_pack|exact (Hin r y Hr Hy)]. }
      destruct (py_max_ge (checkpoint x) (map checkpoint fl)) as [G1 G2].
      apply elem_of_cons in Hf as [->|Hf]; [exact G1|].
      rewrite Forall_forall in G2. apply G2.
      apply list_elem_of_fmap. exists y. split; [reflexivity|exact Hf].
Qed.

Lemma get_max_child_greatest_witness :
  (objs two_chain_world !! 0%nat = Some main_chain
   /\ Forall (fun r => is_Some (objs two_chain_world !! r))
        (dict_values (blockchains two_chain_world)))
  /\ exists m,
       get_max_child two_chain_world 0%nat = Ok (Some m)
       /\ get_checkpoint two_chain_world 0%nat = Ok m
       /\ exists r y,
            objs two_chain_world !! r = Some y
            /\ parent_id y = Some (checkpoint main_chain)
            /\ checkpoint y = m.
Proof.
  assert (objs two_chain_world !! 0%nat = Some main_chain) as H1
    by (vm_compute; reflexivity).
  assert (Forall (fun r => is_Some (objs two_chain_world !! r))
            (dict_values (blockchains two_chain_world))) as H2.
  { repeat constructor; [exists main_chain|exists fork_chain];
      vm_compute; reflexivity. }
  split; [split; assumption|].
  destruct (get_max_child_greatest two_chain_world 0%nat main_chain H1 H2)
    as [(E & _)|(m & E1 & E2 & (r & y & (_ & Hy & Hp) & Hc) & _)].
  - vm_compute in E. discriminate E.
  - exists m. split; [exact E1|]. split; [exact E2|].
    exists r, y. repeat split; assumption.
Defined.
